(** * RNG90 driver (rng90.c / rng90.h): a shallow embedding and its properties

    The driver talks to the RNG90 over TWI/I2C.  Everything it does to the
    outside world goes through four external collaborators: the TWI HAL
    (twi_start, twi_stop, twi_address, twi_set, twi_get), the CRC-16 engine
    (crc16_init, crc16_update, crc16_result) and the systick delay.  The
    embedding threads one [World] value through the code: the two file-scope
    objects of rng90.c (rng90_buffer, rng90_frame), the register of the CRC
    engine, the simulated device on the other side of the bus, and a log of
    every bus and timer event in the order the code issued it.

    C integer types follow avr-gcc, the platform rng90.h selects by default
    (RNG90_HAL_PLATFORM avr0): unsigned char has 8 bits, unsigned int 16 and
    unsigned long 32, and RNG90_Packet has no padding. *)

From Stdlib Require Import ZArith Lia.
From stdpp Require Import base numbers list.

Local Open Scope Z_scope.

(** ** C integer types *)

Definition uchar (z : Z) : Z := z mod 256.
Definition uint (z : Z) : Z := z mod 65536.
Definition ulong (z : Z) : Z := z mod 4294967296.

(** ** Constants of rng90.h *)

Definition RNG90_ADDRESS : Z := 0x40.
Definition RNG90_EXECUTE_COMMAND : Z := 0x03.

Definition RNG90_OPERATION_INFO : Z := 0x30.
Definition RNG90_OPERATION_INFO_PARAM1 : Z := 0x00.
Definition RNG90_OPERATION_INFO_PARAM2 : Z := 0x0000.

Definition RNG90_OPERATION_RANDOM : Z := 0x16.
Definition RNG90_OPERATION_RANDOM_PARAM1 : Z := 0x00.
Definition RNG90_OPERATION_RANDOM_PARAM2 : Z := 0x0000.
Definition RNG90_OPERATION_RANDOM_DATA_SIZE : Z := 20.
Definition RNG90_OPERATION_RANDOM_DATA : Z := 0x00.
Definition RNG90_OPERATION_RANDOM_RNG_SIZE : Z := 32.

Definition RNG90_OPERATION_READ : Z := 0x02.
Definition RNG90_OPERATION_READ_PARAM1 : Z := 0x01.
Definition RNG90_OPERATION_READ_PARAM2 : Z := 0x0000.
Definition RNG90_OPERATION_READ_SERIAL_SIZE : Z := 8.

Definition RNG90_OPERATION_SELF_TEST : Z := 0x77.
Definition RNG90_OPERATION_SELF_TEST_PARAM2 : Z := 0x0000.

Definition RNG90_INFO_EXECUTION_TIME_MS : Z := 1.
Definition RNG90_RANDOM_EXECUTION_TIME_MS : Z := 75.
Definition RNG90_READ_EXECUTION_TIME_MS : Z := 1.
Definition RNG90_SELFTEST_EXECUTION_TIME_MS : Z := 32.

Definition RNG90_CRC_SIZE : Z := 2.
Definition RNG90_STANDARD_FRAME_SIZE : Z := 4.
Definition RNG90_INFO_FRAME_SIZE : Z := 7.
Definition RNG90_NUMBER_FRAME_SIZE : Z := 35.
Definition RNG90_SERIAL_FRAME_SIZE : Z := 19.

(** enum RNG90_Status_t.  A status travels as its integer value: the driver
    returns bytes of the device cast to the enumeration, so a value of the
    type need not be one of the eight enumerators. *)
Abbreviation RNG90_Status := Z (only parsing).
Definition RNG90_Status_Success : RNG90_Status := 0x00.
Definition RNG90_Status_Parse_Error : RNG90_Status := 0x03.
Definition RNG90_Status_SelfTest_Error : RNG90_Status := 0x07.
Definition RNG90_Status_HealthTest_Error : RNG90_Status := 0x08.
Definition RNG90_Status_Execution_Error : RNG90_Status := 0x0F.
Definition RNG90_Status_AfterWake_Indication : RNG90_Status := 0x11.
Definition RNG90_Status_TWI_Error : RNG90_Status := 0xF0.
Definition RNG90_Status_Other_Error : RNG90_Status := 0xFF.

(** The eight enumerators of RNG90_Status_t. *)
Definition RNG90_Status_enumerators : list Z :=
  [ RNG90_Status_Success; RNG90_Status_Parse_Error;
    RNG90_Status_SelfTest_Error; RNG90_Status_HealthTest_Error;
    RNG90_Status_Execution_Error; RNG90_Status_AfterWake_Indication;
    RNG90_Status_TWI_Error; RNG90_Status_Other_Error ].

(** enum RNG90_Run_SelfTest_t *)
Inductive RNG90_Run_SelfTest : Set :=
| RNG90_Run_DRBG_SelfTest
| RNG90_Run_SHA256_SelfTest
| RNG90_Run_DBRG_SHA256_SelfTest.

Definition RNG90_Run_SelfTest_value (t : RNG90_Run_SelfTest) : Z :=
  match t with
  | RNG90_Run_DRBG_SelfTest => 0x01
  | RNG90_Run_SHA256_SelfTest => 0x20
  | RNG90_Run_DBRG_SHA256_SelfTest => 0x21
  end.

(** enum RNG90_SelfTest_Status_t, again as its integer value. *)
Abbreviation RNG90_SelfTest_Status := Z (only parsing).
Definition RNG90_SelfTest_Success : RNG90_SelfTest_Status := 0x00.
Definition RNG90_SelfTest_Fail_DBRG : RNG90_SelfTest_Status := 0x01.
Definition RNG90_SelfTest_Not_Run_DBRG : RNG90_SelfTest_Status := 0x02.
Definition RNG90_SelfTest_Not_Run_SHA256 : RNG90_SelfTest_Status := 0x10.
Definition RNG90_SelfTest_Not_Run_Neither : RNG90_SelfTest_Status := 0x12.
Definition RNG90_SelfTest_Fail_SHA256 : RNG90_SelfTest_Status := 0x20.
Definition RNG90_SelfTest_Fail_DBRG_SHA256 : RNG90_SelfTest_Status := 0x21.
Definition RNG90_SelfTest_Error : RNG90_SelfTest_Status := 0xFF.

(** struct RNG90_Info_t *)
Record RNG90_Info : Set := Build_RNG90_Info {
  RFU : Z;
  DeviceID : Z;
  SiliconID : Z;
  Revision : Z
}.

(** struct RNG90_Packet_t *)
Record RNG90_Packet : Set := Build_RNG90_Packet {
  count : Z;
  opcode : Z;
  param1 : Z;
  param2 : Z;
  crc : Z
}.

(** sizeof(RNG90_Packet) with avr-gcc: 1 + 1 + 1 + 2 + 2, no padding. *)
Definition sizeof_RNG90_Packet : Z := 7.

(** The object representation of a packet, which rng90_write walks through
    an unsigned char pointer: little-endian, fields in declaration order. *)
Definition RNG90_Packet_bytes (p : RNG90_Packet) : list Z :=
  [ uchar (count p); uchar (opcode p); uchar (param1 p);
    Z.land (param2 p) 0xFF; Z.land (Z.shiftr (param2 p) 8) 0xFF;
    Z.land (crc p) 0xFF; Z.land (Z.shiftr (crc p) 8) 0xFF ].

(** enum RNG90_Data_Status_t *)
Inductive RNG90_Data_Status : Set :=
| RNG90_Data_Status_Valid
| RNG90_Data_Status_Invalid.

(** struct RNG90_Frame_t *)
Record RNG90_Frame : Set := Build_RNG90_Frame {
  f_length : Z;
  f_status : RNG90_Data_Status
}.

#[global] Instance RNG90_Data_Status_eq_dec : EqDecision RNG90_Data_Status.
Proof. solve_decision. Defined.

(** ** The external collaborators *)

(** Modelled from the spec: the types of the TWI HAL (twi.h of the HAL
    platform is not among the sources).  A transfer has a direction, a
    read is answered with acknowledge or no-acknowledge, and a byte write
    reports whether the byte went out: TWI_None when it did, an error
    otherwise. *)
Inductive TWI_Operation : Set := TWI_Write | TWI_Read.
Inductive TWI_Acknowledge : Set := TWI_ACK | TWI_NACK.
Inductive TWI_Error : Set := TWI_None | TWI_General.

#[global] Instance TWI_Error_eq_dec : EqDecision TWI_Error.
Proof. solve_decision. Defined.

(** What the driver did to the outside world, one event per call. *)
Inductive Event : Set :=
| Ev_start
| Ev_stop
| Ev_address (address : Z) (operation : TWI_Operation)
| Ev_set (data : Z) (result : TWI_Error)
| Ev_get (data : Z) (acknowledge : TWI_Acknowledge)
| Ev_wait_ms (ms : Z).

(** Modelled from the spec: the CRC-16 engine (utils/crc/crc16.h is not
    among the sources), taken as a parameter through its interface:
    crc16_init loads the register, crc16_update feeds one byte,
    crc16_result reads the 16-bit checksum.  CRC16_INITIAL_VALUE is the
    macro of that header. *)
Class CRC16 : Type := Build_CRC16 {
  crc16_register : Type;
  CRC16_INITIAL_VALUE : Z;
  crc16_load : Z -> crc16_register;
  crc16_feed : crc16_register -> Z -> crc16_register;
  crc16_read : crc16_register -> Z
}.

Section Driver.
Context {engine : CRC16}.

(** ** The state the code runs in *)

Record World : Type := Build_World {
  rng90_buffer : list Z;          (* unsigned char rng90_buffer[87] *)
  rng90_frame : RNG90_Frame;      (* static RNG90_Frame rng90_frame *)
  crc16 : crc16_register;         (* the register of the CRC engine *)
  dev_read : nat -> Z;            (* the byte the device presents to the n-th twi_get *)
  dev_ack : nat -> TWI_Error;     (* the outcome of the n-th twi_set *)
  n_get : nat;                    (* twi_get calls so far *)
  n_set : nat;                    (* twi_set calls so far *)
  log : list Event                (* events so far, the latest first *)
}.

Definition set_buffer (b : list Z) (w : World) : World :=
  Build_World b (rng90_frame w) (crc16 w) (dev_read w) (dev_ack w)
              (n_get w) (n_set w) (log w).
Definition set_frame (f : RNG90_Frame) (w : World) : World :=
  Build_World (rng90_buffer w) f (crc16 w) (dev_read w) (dev_ack w)
              (n_get w) (n_set w) (log w).
Definition set_crc16 (c : crc16_register) (w : World) : World :=
  Build_World (rng90_buffer w) (rng90_frame w) c (dev_read w) (dev_ack w)
              (n_get w) (n_set w) (log w).
Definition emit (e : Event) (w : World) : World :=
  Build_World (rng90_buffer w) (rng90_frame w) (crc16 w) (dev_read w) (dev_ack w)
              (n_get w) (n_set w) (e :: log w).
Definition next_get (w : World) : World :=
  Build_World (rng90_buffer w) (rng90_frame w) (crc16 w) (dev_read w) (dev_ack w)
              (S (n_get w)) (n_set w) (log w).
Definition next_set (w : World) : World :=
  Build_World (rng90_buffer w) (rng90_frame w) (crc16 w) (dev_read w) (dev_ack w)
              (n_get w) (S (n_set w)) (log w).

(** The events in the order they happened. *)
Definition history (w : World) : list Event := rev (log w).

(** A run of driver code ends in one of three ways: it returns, it stores
    outside an array (undefined behaviour in C), or it is still looping
    when the fuel of the model runs out. *)
Inductive Outcome (A : Type) : Type :=
| Done (a : A) (w : World)
| OutOfBounds (w : World)
| OutOfFuel.
Arguments Done {A} a w.
Arguments OutOfBounds {A} w.
Arguments OutOfFuel {A}.

Definition M (A : Type) : Type := World -> Outcome A.

Definition ret {A} (a : A) : M A := fun w => Done a w.

Definition bind {A B} (m : M A) (k : A -> M B) : M B := fun w =>
  match m w with
  | Done a w' => k a w'
  | OutOfBounds w' => OutOfBounds w'
  | OutOfFuel => OutOfFuel
  end.

Notation "x <- m ;; k" := (bind m (fun x => k))
  (at level 100, m at next level, right associativity).
Notation "m ;;; k" := (bind m (fun _ => k))
  (at level 100, right associativity).

(** A for loop with a constant trip count, [i] running from [i0]; the body
    answers [Some r] for `return r;` and [None] to go on. *)
Fixpoint for_loop {R} (n : nat) (i0 : Z) (body : Z -> M (option R)) : M (option R) :=
  match n with
  | O => ret None
  | S n' =>
      r <- body i0 ;;
      match r with
      | Some x => ret (Some x)
      | None => for_loop n' (i0 + 1) body
      end
  end.

(** *** TWI HAL *)

(** Modelled from the spec: the five primitives of the bus transport.
    Each call is logged.  twi_set hands the byte to the device and reports
    what the device's acknowledge oracle says for this write; twi_get
    stores the next byte of the device's read stream as an unsigned
    char. *)

Definition twi_start : M unit := fun w => Done tt (emit Ev_start w).
Definition twi_stop : M unit := fun w => Done tt (emit Ev_stop w).
Definition twi_address (address : Z) (operation : TWI_Operation) : M unit :=
  fun w => Done tt (emit (Ev_address address operation) w).
Definition twi_set (data : Z) : M TWI_Error := fun w =>
  let r := dev_ack w (n_set w) in
  Done r (emit (Ev_set data r) (next_set w)).
Definition twi_get (acknowledge : TWI_Acknowledge) : M Z := fun w =>
  let b := uchar (dev_read w (n_get w)) in
  Done b (emit (Ev_get b acknowledge) (next_get w)).

(** *** CRC engine *)

(** Modelled from the spec: the three calls of the checksum engine over
    the register kept in the world; crc16_result has type unsigned int. *)

Definition crc16_init (value : Z) : M unit :=
  fun w => Done tt (set_crc16 (crc16_load value) w).
Definition crc16_update (data : Z) : M unit :=
  fun w => Done tt (set_crc16 (crc16_feed (crc16 w) data) w).
Definition crc16_result : M Z :=
  fun w => Done (uint (crc16_read (crc16 w))) w.

(** *** systick *)

(** Modelled from the spec: the blocking delay, which only leaves its
    event. *)

Definition systick_timer_wait_ms (ms : Z) : M unit :=
  fun w => Done tt (emit (Ev_wait_ms ms) w).

(** *** The two file-scope objects *)

Definition get_frame : M RNG90_Frame := fun w => Done (rng90_frame w) w.
Definition put_frame_length (l : Z) : M unit := fun w =>
  Done tt (set_frame (Build_RNG90_Frame l (f_status (rng90_frame w))) w).
Definition put_frame_status (s : RNG90_Data_Status) : M unit := fun w =>
  Done tt (set_frame (Build_RNG90_Frame (f_length (rng90_frame w)) s) w).

(** [data[k] = v] with [data] pointing at rng90_buffer, as at every call
    of rng90_data.  A store past the end of the array is undefined
    behaviour; the run stops there. *)
Definition store_data (k : Z) (v : Z) : M unit := fun w =>
  if decide (0 <= k < Z.of_nat (length (rng90_buffer w)))
  then Done tt (set_buffer (<[Z.to_nat k := v]> (rng90_buffer w)) w)
  else OutOfBounds w.

(** [rng90_buffer[k]] *)
Definition load_buffer (k : Z) : M Z := fun w =>
  Done (rng90_buffer w !!! Z.to_nat k) w.

(** ** rng90.c *)

(** rng90_write (lines 43-58).  The packet is passed by pointer, so the
    updated packet is handed back.  The results of twi_set are dropped. *)
Definition rng90_write (packet : RNG90_Packet) : M RNG90_Packet :=
  let packet := Build_RNG90_Packet (uchar (count packet + 7)) (opcode packet)
                  (param1 packet) (param2 packet) (crc packet) in
  crc16_init CRC16_INITIAL_VALUE ;;;
  twi_address RNG90_ADDRESS TWI_Write ;;;
  _ <- twi_set RNG90_EXECUTE_COMMAND ;;
  _ <- for_loop (R := unit) (Z.to_nat (sizeof_RNG90_Packet - RNG90_CRC_SIZE)) 0
         (fun i =>
            crc16_update (RNG90_Packet_bytes packet !!! Z.to_nat i) ;;;
            _ <- twi_set (RNG90_Packet_bytes packet !!! Z.to_nat i) ;;
            ret None) ;;
  ret packet.

(** rng90_command (lines 60-70) *)
Definition rng90_command (packet : RNG90_Packet) : M RNG90_Packet :=
  twi_start ;;;
  packet <- rng90_write packet ;;
  c <- crc16_result ;;
  let packet := Build_RNG90_Packet (count packet) (opcode packet)
                  (param1 packet) (param2 packet) c in
  _ <- twi_set (uchar (Z.land 0x00FF (crc packet))) ;;
  _ <- twi_set (uchar (Z.land 0x00FF (Z.shiftr (crc packet) 8))) ;;
  twi_stop ;;;
  ret packet.

(** The loop of rng90_data (lines 87-98).  The bound is re-read on every
    test and is computed in unsigned long, because RNG90_CRC_SIZE is 2UL;
    [i] is an unsigned char and wraps.  Each trip takes one unit of fuel. *)
Fixpoint rng90_data_loop (fuel : nat) (i : Z) : M unit := fun w =>
  if decide (i < ulong (f_length (rng90_frame w) - RNG90_CRC_SIZE)) then
    match fuel with
    | O => OutOfFuel
    | S fuel' =>
        (temp <- twi_get TWI_ACK ;;
         crc16_update temp ;;;
         if decide (i = 0) then
           put_frame_length temp ;;;
           rng90_data_loop fuel' (uchar (i + 1))
         else
           store_data (i - 1) temp ;;;
           rng90_data_loop fuel' (uchar (i + 1))) w
    end
  else Done tt w.

(** rng90_data (lines 74-114) *)
Definition rng90_data (fuel : nat) : M RNG90_Frame :=
  crc16_init CRC16_INITIAL_VALUE ;;;
  put_frame_length (uchar (1 + RNG90_CRC_SIZE)) ;;;
  put_frame_status RNG90_Data_Status_Invalid ;;;
  twi_start ;;;
  twi_address RNG90_ADDRESS TWI_Read ;;;
  rng90_data_loop fuel 0 ;;;
  temp <- twi_get TWI_ACK ;;
  let crc := Z.land 0x00FF temp in
  temp <- twi_get TWI_NACK ;;
  let crc := Z.lor crc (Z.land 0xFF00 (Z.shiftl temp 8)) in
  twi_stop ;;;
  put_frame_status RNG90_Data_Status_Valid ;;;
  r <- crc16_result ;;
  (if decide (crc <> r) then put_frame_status RNG90_Data_Status_Invalid else ret tt) ;;;
  get_frame.

(** The local packet of rng90_selftest as initialised (lines 138-143). *)
Definition selftest_packet (test : RNG90_Run_SelfTest) : RNG90_Packet :=
  Build_RNG90_Packet 0 RNG90_OPERATION_SELF_TEST (RNG90_Run_SelfTest_value test)
    RNG90_OPERATION_SELF_TEST_PARAM2 0x0000.

(** rng90_selftest (lines 136-155) *)
Definition rng90_selftest (fuel : nat) (test : RNG90_Run_SelfTest) : M RNG90_SelfTest_Status :=
  let packet := selftest_packet test in
  _ <- rng90_command packet ;;
  systick_timer_wait_ms RNG90_SELFTEST_EXECUTION_TIME_MS ;;;
  frame <- rng90_data fuel ;;
  if decide (f_length frame = RNG90_STANDARD_FRAME_SIZE
             /\ f_status frame = RNG90_Data_Status_Valid)
  then load_buffer 0
  else ret RNG90_SelfTest_Error.

(** rng90_init (lines 34-41) *)
Definition rng90_init (fuel : nat) : M RNG90_Status :=
  r <- rng90_selftest fuel RNG90_Run_DRBG_SelfTest ;;
  if decide (r <> RNG90_SelfTest_Success)
  then ret RNG90_Status_SelfTest_Error
  else ret RNG90_Status_Success.

(** The local packet of rng90_info as initialised (lines 180-185). *)
Definition info_packet : RNG90_Packet :=
  Build_RNG90_Packet 0 RNG90_OPERATION_INFO RNG90_OPERATION_INFO_PARAM1
    RNG90_OPERATION_INFO_PARAM2 0x0000.

(** rng90_info (lines 178-205).  [info] is what the caller's structure
    holds on entry; the structure after the call is returned with the
    status. *)
Definition rng90_info (fuel : nat) (info : RNG90_Info) : M (RNG90_Status * RNG90_Info) :=
  let packet := info_packet in
  _ <- rng90_command packet ;;
  systick_timer_wait_ms RNG90_INFO_EXECUTION_TIME_MS ;;;
  frame <- rng90_data fuel ;;
  if decide (f_length frame = RNG90_STANDARD_FRAME_SIZE
             /\ f_status frame = RNG90_Data_Status_Valid)
  then
    b <- load_buffer 0 ;;
    ret (b, info)
  else if decide (f_length frame = RNG90_INFO_FRAME_SIZE
                  /\ f_status frame = RNG90_Data_Status_Valid)
  then
    b0 <- load_buffer 0 ;;
    b1 <- load_buffer 1 ;;
    b2 <- load_buffer 2 ;;
    b3 <- load_buffer 3 ;;
    ret (RNG90_Status_Success, Build_RNG90_Info b0 b1 b2 b3)
  else ret (RNG90_Status_Other_Error, info).

(** [dst[k] = v] for a buffer of the caller; a store past its end is
    undefined behaviour. *)
Definition store_out (dst : list Z) (k : Z) (v : Z) : M (list Z) := fun w =>
  if decide (0 <= k < Z.of_nat (length dst))
  then Done (<[Z.to_nat k := v]> dst) w
  else OutOfBounds w.

(** for (i = i0; ...; i++) *(dst + i) = rng90_buffer[i];  [n] trips. *)
Fixpoint copy_out (n : nat) (i0 : Z) (dst : list Z) : M (list Z) :=
  match n with
  | O => ret dst
  | S n' =>
      b <- load_buffer i0 ;;
      dst' <- store_out dst i0 b ;;
      copy_out n' (i0 + 1) dst'
  end.

(** The local packet of rng90_random as initialised (lines 226-231). *)
Definition random_packet : RNG90_Packet :=
  Build_RNG90_Packet RNG90_OPERATION_RANDOM_DATA_SIZE RNG90_OPERATION_RANDOM
    RNG90_OPERATION_RANDOM_PARAM1 RNG90_OPERATION_RANDOM_PARAM2 0x0000.

(** rng90_random (lines 224-268).  [numbers] is the caller's buffer on
    entry; its contents after the call are returned with the status. *)
Definition rng90_random (fuel : nat) (numbers : list Z) : M (RNG90_Status * list Z) :=
  let packet := random_packet in
  twi_start ;;;
  packet <- rng90_write packet ;;
  r <- for_loop (Z.to_nat RNG90_OPERATION_RANDOM_DATA_SIZE) 0
         (fun i =>
            e <- twi_set RNG90_OPERATION_RANDOM_DATA ;;
            if decide (e <> TWI_None) then
              twi_stop ;;;
              ret (Some RNG90_Status_TWI_Error)
            else
              crc16_update RNG90_OPERATION_RANDOM_DATA ;;;
              ret None) ;;
  match r with
  | Some e => ret (e, numbers)
  | None =>
      c <- crc16_result ;;
      let packet := Build_RNG90_Packet (count packet) (opcode packet)
                      (param1 packet) (param2 packet) c in
      _ <- twi_set (uchar (Z.land 0x00FF (crc packet))) ;;
      _ <- twi_set (uchar (Z.land 0x00FF (Z.shiftr (crc packet) 8))) ;;
      twi_stop ;;;
      systick_timer_wait_ms RNG90_RANDOM_EXECUTION_TIME_MS ;;;
      frame <- rng90_data fuel ;;
      if decide (f_length frame = RNG90_STANDARD_FRAME_SIZE
                 /\ f_status frame = RNG90_Data_Status_Valid)
      then
        b <- load_buffer 0 ;;
        ret (b, numbers)
      else if decide (f_length frame = RNG90_NUMBER_FRAME_SIZE
                      /\ f_status frame = RNG90_Data_Status_Valid)
      then
        numbers' <- copy_out (Z.to_nat RNG90_OPERATION_RANDOM_RNG_SIZE) 0 numbers ;;
        ret (RNG90_Status_Success, numbers')
      else ret (RNG90_Status_Other_Error, numbers)
  end.

(** The local packet of rng90_serial as initialised (lines 287-292). *)
Definition serial_packet : RNG90_Packet :=
  Build_RNG90_Packet 0 RNG90_OPERATION_READ RNG90_OPERATION_READ_PARAM1
    RNG90_OPERATION_READ_PARAM2 0x0000.

(** rng90_serial (lines 285-312).  [serial] is the caller's buffer on
    entry; its contents after the call are returned with the status. *)
Definition rng90_serial (fuel : nat) (serial : list Z) : M (RNG90_Status * list Z) :=
  let packet := serial_packet in
  _ <- rng90_command packet ;;
  systick_timer_wait_ms RNG90_READ_EXECUTION_TIME_MS ;;;
  frame <- rng90_data fuel ;;
  if decide (f_length frame = RNG90_STANDARD_FRAME_SIZE
             /\ f_status frame = RNG90_Data_Status_Valid)
  then
    b <- load_buffer 0 ;;
    ret (b, serial)
  else if decide (f_length frame = RNG90_SERIAL_FRAME_SIZE
                  /\ f_status frame = RNG90_Data_Status_Valid)
  then
    serial' <- copy_out (Z.to_nat RNG90_OPERATION_READ_SERIAL_SIZE) 0 serial ;;
    ret (RNG90_Status_Success, serial')
  else ret (RNG90_Status_Other_Error, serial).

End Driver.

Arguments Done {engine A} a w.
Arguments OutOfBounds {engine A} w.
Arguments OutOfFuel {engine A}.

(** ** A concrete engine and a concrete device, to run the code *)

(** Modelled from the spec: the CRC-16 engine (utils/crc/crc16.h is not part
    of this repository's sources).  The spec fixes its interface, the width
    of the result (16 bits) and the polynomial 0x8005; this engine shifts
    each byte in most significant bit first and starts from 0x0000. *)
Fixpoint crc16_shift (n : nat) (r : Z) : Z :=
  match n with
  | O => r
  | S n' =>
      crc16_shift n'
        (if Z.testbit r 15
         then Z.lxor (Z.land (Z.shiftl r 1) 0xFFFF) 0x8005
         else Z.land (Z.shiftl r 1) 0xFFFF)
  end.

(** Modelled from the spec: the reference engine, register and result of
    16 bits, CRC16_INITIAL_VALUE 0x0000, one [crc16_shift] of eight bits
    per byte. *)
Definition crc16_poly8005 : CRC16 :=
  Build_CRC16 Z 0x0000
    (fun value => Z.land value 0xFFFF)
    (fun r data => crc16_shift 8 (Z.lxor r (Z.shiftl (Z.land data 0xFF) 8)))
    (fun r => r).

(** The bytes of a list, then 0xFF for ever: a released bus reads high. *)
Definition replay (bytes : list Z) : nat -> Z := fun n => default 0xFF (bytes !! n).

(** The world at reset, talking to a device that answers [bytes] and
    acknowledges writes as [acks] says. *)
Definition boot {engine : CRC16} (bytes : list Z) (acks : nat -> TWI_Error) : World :=
  Build_World (replicate 87 0) (Build_RNG90_Frame 0 RNG90_Data_Status_Valid)
              (crc16_load 0) (replay bytes) acks 0%nat 0%nat [].

(** What a run returned, if it returned. *)
Definition returned {engine : CRC16} {A} (o : Outcome A) : option A :=
  match o with Done a _ => Some a | _ => None end.

(** ** Reading the device and the buffer *)

(** [n] successive bytes of a read stream from position [start], each as
    the unsigned char twi_get stores. *)
Fixpoint stream_from (f : nat -> Z) (start n : nat) : list Z :=
  match n with
  | O => []
  | S n' => uchar (f start) :: stream_from f (S start) n'
  end.

(** [bytes] written over [buf] from index [k] on. *)
Definition splice (k : nat) (bytes buf : list Z) : list Z :=
  take k buf ++ bytes ++ drop (k + length bytes) buf.

(** ** Vocabulary of the statements *)

Section Specification.
Context {engine : CRC16}.

Notation "x <- m ;; k" := (bind m (fun x => k))
  (at level 100, m at next level, right associativity).
Notation "m ;;; k" := (bind m (fun _ => k))
  (at level 100, right associativity).

(** The next [n] bytes the device will hand to twi_get. *)
Definition incoming (w : World) (n : nat) : list Z :=
  stream_from (dev_read w) (n_get w) n.

(** The device is about to answer with exactly [bytes]. *)
Definition presents (w : World) (bytes : list Z) : Prop :=
  incoming w (length bytes) = bytes.

(** The register after crc16_init(CRC16_INITIAL_VALUE) and one
    crc16_update per byte, and the checksum crc16_result then reports. *)
Definition crc_over (bytes : list Z) : crc16_register :=
  fold_left crc16_feed bytes (crc16_load CRC16_INITIAL_VALUE).
Definition checksum (bytes : list Z) : Z := uint (crc16_read (crc_over bytes)).

(** The unsigned int rng90_data assembles from the two trailing bytes. *)
Definition assemble (c0 c1 : Z) : Z :=
  Z.lor (Z.land 0x00FF c0) (Z.land 0xFF00 (Z.shiftl c1 8)).

(** The world after some more driver activity, [events] in the order they
    happened: the device is the same. *)
Definition advance (w : World) (buf : list Z) (f : RNG90_Frame)
    (c : crc16_register) (gets sets : nat) (events : list Event) : World :=
  Build_World buf f c (dev_read w) (dev_ack w)
              (gets + n_get w) (sets + n_set w) (rev events ++ log w).

(** The events of writing [bytes], the first of them being twi_set
    number [k]. *)
Fixpoint set_events (ack : nat -> TWI_Error) (k : nat) (bytes : list Z) : list Event :=
  match bytes with
  | [] => []
  | b :: bs => Ev_set b (ack k) :: set_events ack (S k) bs
  end.

(** The events of reading [bytes] with acknowledge. *)
Definition get_events (bytes : list Z) : list Event :=
  map (fun b => Ev_get b TWI_ACK) bytes.

(** The packet as rng90_write leaves it. *)
Definition counted (p : RNG90_Packet) : RNG90_Packet :=
  Build_RNG90_Packet (uchar (count p + 7)) (opcode p) (param1 p) (param2 p) (crc p).

(** The five header bytes rng90_write feeds to the CRC and to the bus. *)
Definition header (p : RNG90_Packet) : list Z :=
  take 5 (RNG90_Packet_bytes (counted p)).

(** The two checksum bytes as rng90_command and rng90_random send them. *)
Definition crc_low (c : Z) : Z := uchar (Z.land 0x00FF c).
Definition crc_high (c : Z) : Z := uchar (Z.land 0x00FF (Z.shiftr c 8)).

(** The body of the filler loop of rng90_random (lines 236-244). *)
Definition filler : Z -> M (option RNG90_Status) := fun _ =>
  e <- twi_set RNG90_OPERATION_RANDOM_DATA ;;
  if decide (e <> TWI_None) then
    twi_stop ;;;
    ret (Some RNG90_Status_TWI_Error)
  else
    crc16_update RNG90_OPERATION_RANDOM_DATA ;;;
    ret None.

(** A frame as the device sends it: the length byte, the payload, the two
    checksum bytes; [max (L - 3) 0] payload bytes that fit rng90_buffer. *)
Definition frame_fits (w : World) (L : Z) (payload : list Z) : Prop :=
  2 <= L /\ length payload = Z.to_nat (L - 3)
  /\ (length payload <= length (rng90_buffer w))%nat.

(** The checksum bytes match the checksum of what came before them. *)
Definition frame_valid (L : Z) (payload : list Z) (c0 c1 : Z) : Prop :=
  assemble c0 c1 = checksum (L :: payload).

#[global] Instance frame_valid_dec L payload c0 c1 : Decision (frame_valid L payload c0 c1).
Proof. unfold frame_valid. apply _. Defined.
#[global] Typeclasses Opaque frame_valid.

(** The filler bytes of rng90_random, [n] of them. *)
Definition filler_bytes (n : nat) : list Z := replicate n RNG90_OPERATION_RANDOM_DATA.

(** The bytes handed to twi_set, in order. *)
Fixpoint sent (events : list Event) : list Z :=
  match events with
  | [] => []
  | Ev_set b _ :: es => b :: sent es
  | _ :: es => sent es
  end.

Definition wire (w : World) : list Z := sent (history w).

(** A command frame as it leaves the driver: the bytes the checksum runs
    over, then the checksum, low byte first. *)
Definition command_frame (body : list Z) : list Z :=
  body ++ [crc_low (checksum body); crc_high (checksum body)].

(** The frame rng90_random sends when every byte is acknowledged. *)
Definition random_frame : list Z :=
  command_frame (header random_packet
                   ++ filler_bytes (Z.to_nat RNG90_OPERATION_RANDOM_DATA_SIZE)).

(** Neither a delay nor a read. *)
Definition transmit_only (e : Event) : Prop :=
  match e with
  | Ev_wait_ms _ | Ev_get _ _ => False
  | _ => True
  end.


(** The events of one write transaction that carries [body] and its
    checksum, from a world whose next twi_set is number [n_set w]. *)
Definition transmit_events (w : World) (body : list Z) : list Event :=
  Ev_start :: Ev_address RNG90_ADDRESS TWI_Write
    :: set_events (dev_ack w) (n_set w) (RNG90_EXECUTE_COMMAND :: command_frame body)
    ++ [Ev_stop].

(** The events of one read transaction that takes a whole frame. *)
Definition receive_events (L : Z) (payload : list Z) (c0 c1 : Z) : list Event :=
  Ev_start :: Ev_address RNG90_ADDRESS TWI_Read
    :: get_events (L :: payload)
    ++ [Ev_get c0 TWI_ACK; Ev_get c1 TWI_NACK; Ev_stop].

(** The world once the driver has put [body] and its checksum on the bus,
    stopped, and waited [ms] milliseconds for the device. *)
Definition settled (w : World) (body : list Z) (ms : Z) : World :=
  advance w (rng90_buffer w) (rng90_frame w) (crc_over body) 0
    (S (length (command_frame body)))
    (transmit_events w body ++ [Ev_wait_ms ms]).

(** Two operations one after the other, the results of both kept. *)
Definition and_then {A B} (first : M A) (second : M B) : M (A * B) :=
  a <- first ;;
  b <- second ;;
  ret (a, b).

End Specification.

(** ** Concrete devices, on the reference engine *)

Definition all_acked : nat -> TWI_Error := fun _ => TWI_None.
Definition none_acked : nat -> TWI_Error := fun _ => TWI_General.

(** Every write is taken but write number [n]. *)
Definition refuse (n : nat) : nat -> TWI_Error :=
  fun k => if Nat.eqb k n then TWI_General else TWI_None.

(** The world at reset on the reference engine. *)
Definition bench (bytes : list Z) (acks : nat -> TWI_Error) : @World crc16_poly8005 :=
  @boot crc16_poly8005 bytes acks.

Definition info0 : RNG90_Info := Build_RNG90_Info 0 0 0 0.

(** The reads done when a run stored outside rng90_buffer. *)
Definition overran {engine : CRC16} {A} (o : Outcome A) : option nat :=
  match o with OutOfBounds w => Some (n_get w) | _ => None end.

(** The world a run ended in, whether it returned or stopped at a store
    outside an array. *)
Definition ended {engine : CRC16} {A} (o : Outcome A) : option World :=
  match o with Done _ w | OutOfBounds w => Some w | OutOfFuel => None end.

(** A device that answers the info command. *)
Definition info_device : @World crc16_poly8005 :=
  bench [7; 0; 208; 32; 16; 72; 207] all_acked.

(** A device whose 4-byte frame has a wrong checksum byte. *)
Definition garbled_device : @World crc16_poly8005 :=
  bench [4; 0; 3; 153] all_acked.

(** A device whose status byte is 0xF0, the value of
    RNG90_Status_TWI_Error. *)
Definition f0_device : @World crc16_poly8005 :=
  bench [4; 240; 35; 154] all_acked.

(** A device that reports a failed DRBG self-test. *)
Definition drbg_fail_device : @World crc16_poly8005 :=
  bench [4; 1; 6; 24] all_acked.

(** A device that answers the random command with the bytes 1 to 32. *)
Definition random_device : @World crc16_poly8005 :=
  bench (35 :: map Z.of_nat (seq 1 32) ++ [42; 186]) all_acked.

(** A device that takes the header of the random command and refuses the
    fourth filler byte, write number 9. *)
Definition stalling_device : @World crc16_poly8005 := bench [] (refuse 9).


(** A device whose length byte is 91, one more than rng90_buffer can
    take. *)
Definition long_device : @World crc16_poly8005 := bench [91] all_acked.

(** No device answers: the released bus reads 0xFF for ever. *)
Definition released_bus : @World crc16_poly8005 := bench [] all_acked.

(** A frame of declared length 100 with wrong checksum bytes. *)
Definition long_garbled_device : @World crc16_poly8005 :=
  bench (100 :: replicate 97 0 ++ [0; 0]) all_acked.

(** A device whose length byte is 1. *)
Definition short_length_device : @World crc16_poly8005 := bench [1] all_acked.

(** A device that refuses the count byte of every command, write number 1,
    and answers the random command with the bytes 1 to 32. *)
Definition deaf_random_device : @World crc16_poly8005 :=
  bench (35 :: map Z.of_nat (seq 1 32) ++ [42; 186]) (refuse 1).

(** The info frame of [info_device] with one bit of its last byte
    flipped. *)
Definition flipped_info_device : @World crc16_poly8005 :=
  bench [7; 0; 208; 32; 16; 72; 206] all_acked.

(** A device that answers the read command with the bytes 1 to 16. *)
Definition serial_device : @World crc16_poly8005 :=
  bench (19 :: map Z.of_nat (seq 1 16) ++ [29; 169]) all_acked.

(** A device that reports a passed self-test and then answers the random
    command with the bytes 1 to 32. *)
Definition pass_then_random_device : @World crc16_poly8005 :=
  bench ([4; 0; 3; 152] ++ 35 :: map Z.of_nat (seq 1 32) ++ [42; 186]) all_acked.

(** The device of [info_device] met in the middle of a session: the
    buffer, the frame descriptor and the CRC register hold leftovers, five
    writes were done, something was logged, and no write is
    acknowledged. *)
Definition busy_info_device : @World crc16_poly8005 :=
  @Build_World crc16_poly8005 (replicate 87 0xAA)
    (Build_RNG90_Frame 35 RNG90_Data_Status_Invalid) 0x1234
    (replay [7; 0; 208; 32; 16; 72; 207]) none_acked 0 5 [Ev_stop].

(** ** Properties *)

Section Properties.
Context {engine : CRC16}.

Ltac world_simpl :=
  unfold set_buffer, set_frame, set_crc16, emit, next_get, next_set;
  cbn [rng90_buffer rng90_frame crc16 dev_read dev_ack n_get n_set log
       f_length f_status].

Tactic Notation "world_simpl" "in" "*" :=
  unfold set_buffer, set_frame, set_crc16, emit, next_get, next_set in *;
  cbn [rng90_buffer rng90_frame crc16 dev_read dev_ack n_get n_set log
       f_length f_status] in *.

Lemma bind_Done {A B} (m : M A) (k : A -> M B) w a w' :
  m w = Done a w' -> bind m k w = k a w'.
Proof. intros H. unfold bind. now rewrite H. Qed.

Lemma bind_OutOfBounds {A B} (m : M A) (k : A -> M B) w w' :
  m w = OutOfBounds w' -> bind m k w = OutOfBounds w'.
Proof. intros H. unfold bind. now rewrite H. Qed.

Ltac step := erewrite bind_Done by reflexivity; world_simpl.

Lemma uchar_range z : 0 <= uchar z < 256.
Proof. unfold uchar. apply Z.mod_pos_bound. lia. Qed.

Lemma uchar_small z : 0 <= z < 256 -> uchar z = z.
Proof. intros H. unfold uchar. now apply Z.mod_small. Qed.

Lemma stream_from_length f start n : length (stream_from f start n) = n.
Proof. revert start. induction n; intros; simpl; auto. Qed.

Lemma stream_from_app f start n m :
  stream_from f start (n + m) = stream_from f start n ++ stream_from f (start + n) m.
Proof.
  revert start. induction n as [|n IH]; intros start; simpl.
  - now rewrite Nat.add_0_r.
  - rewrite IH. now replace (S start + n)%nat with (start + S n)%nat by lia.
Qed.

Lemma stream_from_range f start n b : b ∈ stream_from f start n -> 0 <= b < 256.
Proof.
  revert start. induction n as [|n IH]; intros start; simpl.
  - intros H. inversion H.
  - intros H. apply elem_of_cons in H as [-> | H]; [apply uchar_range | eauto].
Qed.

Lemma splice_step k b bs buf :
  (k < length buf)%nat ->
  splice (S k) bs (<[k := b]> buf) = splice k (b :: bs) buf.
Proof.
  intros Hk. unfold splice.
  rewrite (take_S_r _ _ b) by now apply list_lookup_insert_eq.
  rewrite take_insert_ge by lia.
  rewrite drop_insert_lt by lia.
  rewrite <- app_assoc. simpl.
  now replace (k + S (length bs))%nat with (S (k + length bs)) by lia.
Qed.

Lemma splice_nil k buf : splice k [] buf = buf.
Proof. unfold splice. simpl. rewrite Nat.add_0_r. apply take_drop. Qed.

Lemma splice_0 bytes buf : splice 0 bytes buf = bytes ++ drop (length bytes) buf.
Proof. reflexivity. Qed.

(** *** The receive loop *)

Lemma ulong_small z : 0 <= z < 4294967296 -> ulong z = z.
Proof. intros H. unfold ulong. now apply Z.mod_small. Qed.

(** One trip of the loop that stores a payload byte. *)
Lemma rng90_data_loop_trip fuel i w :
  i < ulong (f_length (rng90_frame w) - RNG90_CRC_SIZE) ->
  i <> 0 ->
  0 <= i - 1 < Z.of_nat (length (rng90_buffer w)) ->
  rng90_data_loop (S fuel) i w =
  rng90_data_loop fuel (uchar (i + 1))
    (set_buffer (<[Z.to_nat (i - 1) := uchar (dev_read w (n_get w))]> (rng90_buffer w))
       (set_crc16 (crc16_feed (crc16 w) (uchar (dev_read w (n_get w))))
          (emit (Ev_get (uchar (dev_read w (n_get w))) TWI_ACK) (next_get w)))).
Proof.
  intros Hlt Hi Hk. simpl.
  destruct (decide (i < ulong (f_length (rng90_frame w) - RNG90_CRC_SIZE))); [|contradiction].
  unfold bind at 1. unfold twi_get. unfold bind at 1. unfold crc16_update.
  destruct (decide (i = 0)); [contradiction|].
  unfold bind at 1. unfold store_data. simpl.
  destruct (decide (0 <= i - 1 < Z.of_nat (length (rng90_buffer w)))); [reflexivity|contradiction].
Qed.

(** One trip that would store past the end of rng90_buffer. *)
Lemma rng90_data_loop_overrun fuel i w :
  i < ulong (f_length (rng90_frame w) - RNG90_CRC_SIZE) ->
  i <> 0 ->
  Z.of_nat (length (rng90_buffer w)) <= i - 1 ->
  exists w', rng90_data_loop (S fuel) i w = OutOfBounds w'.
Proof.
  intros Hlt Hi Hk. simpl.
  destruct (decide (i < ulong (f_length (rng90_frame w) - RNG90_CRC_SIZE))); [|contradiction].
  unfold bind at 1. unfold twi_get. unfold bind at 1. unfold crc16_update.
  destruct (decide (i = 0)); [contradiction|].
  unfold bind at 1. unfold store_data. simpl.
  destruct (decide (0 <= i - 1 < Z.of_nat (length (rng90_buffer w)))); [lia|eauto].
Qed.

(** From [i >= 1] on, with the length byte already in rng90_frame and a
    buffer that can take the rest, the loop stores the remaining [n]
    payload bytes and stops. *)
Lemma rng90_data_loop_payload n : forall fuel i w,
  (n <= fuel)%nat ->
  1 <= i ->
  2 <= f_length (rng90_frame w) <= 255 ->
  i + Z.of_nat n = Z.max 1 (f_length (rng90_frame w) - 2) ->
  (Z.to_nat (i - 1) + n <= length (rng90_buffer w))%nat ->
  rng90_data_loop fuel i w =
  Done tt (advance w (splice (Z.to_nat (i - 1)) (incoming w n) (rng90_buffer w))
             (rng90_frame w) (fold_left crc16_feed (incoming w n) (crc16 w))
             n 0 (get_events (incoming w n))).
Proof.
  induction n as [|n IH]; intros fuel i w Hfuel Hi HL Hn Hbuf.
  - assert (Hstop : ~ i < ulong (f_length (rng90_frame w) - RNG90_CRC_SIZE)).
    { unfold RNG90_CRC_SIZE. rewrite ulong_small by lia. lia. }
    destruct fuel; simpl;
      (destruct (decide (i < ulong (f_length (rng90_frame w) - RNG90_CRC_SIZE)));
       [contradiction|]);
      unfold advance, incoming; simpl; rewrite splice_nil; now destruct w.
  - destruct fuel as [|fuel]; [lia|].
    rewrite rng90_data_loop_trip.
    + rewrite uchar_small by lia.
      rewrite IH; simpl; try lia.
      * unfold advance, incoming. simpl. f_equal. f_equal.
        -- replace (Z.to_nat (i + 1 - 1)) with (S (Z.to_nat (i - 1))) by lia.
           apply splice_step. lia.
        -- lia.
        -- unfold get_events. now rewrite <- app_assoc.
      * rewrite length_insert. lia.
    + unfold RNG90_CRC_SIZE. rewrite ulong_small by lia. lia.
    + lia.
    + lia.
Qed.

(** If the bound lets [i] reach the end of rng90_buffer, the loop stores
    outside the array. *)
Lemma rng90_data_loop_overflow n : forall fuel i w,
  (n < fuel)%nat ->
  1 <= i ->
  i + Z.of_nat n <= 255 ->
  i + Z.of_nat n < ulong (f_length (rng90_frame w) - RNG90_CRC_SIZE) ->
  (Z.to_nat (i - 1) + n = length (rng90_buffer w))%nat ->
  exists w', rng90_data_loop fuel i w = OutOfBounds w'.
Proof.
  induction n as [|n IH]; intros fuel i w Hfuel Hi H255 Hlt Hbuf.
  - destruct fuel as [|fuel]; [lia|].
    apply rng90_data_loop_overrun; lia.
  - destruct fuel as [|fuel]; [lia|].
    rewrite rng90_data_loop_trip by lia.
    rewrite uchar_small by lia.
    apply IH; simpl; try lia.
    rewrite length_insert. lia.
Qed.

(** The first trip takes the length byte. *)
Lemma rng90_data_loop_first fuel w :
  0 < ulong (f_length (rng90_frame w) - RNG90_CRC_SIZE) ->
  rng90_data_loop (S fuel) 0 w =
  rng90_data_loop fuel (uchar (0 + 1))
    (set_frame (Build_RNG90_Frame (uchar (dev_read w (n_get w))) (f_status (rng90_frame w)))
       (set_crc16 (crc16_feed (crc16 w) (uchar (dev_read w (n_get w))))
          (emit (Ev_get (uchar (dev_read w (n_get w))) TWI_ACK) (next_get w)))).
Proof.
  intros Hlt. simpl.
  destruct (decide (0 < ulong (f_length (rng90_frame w) - RNG90_CRC_SIZE))); [|contradiction].
  reflexivity.
Qed.

Lemma presents_frame w L payload c0 c1 :
  presents w (L :: payload ++ [c0; c1]) ->
  uchar (dev_read w (n_get w)) = L /\
  stream_from (dev_read w) (S (n_get w)) (length payload) = payload /\
  uchar (dev_read w (S (n_get w) + length payload)) = c0 /\
  uchar (dev_read w (S (S (n_get w) + length payload))) = c1.
Proof.
  unfold presents, incoming. simpl. rewrite length_app. simpl.
  rewrite stream_from_app. simpl. intros H.
  injection H as HL H.
  apply app_inj_1 in H as [Hp Hc]; [|apply stream_from_length].
  injection Hc as Hc0 Hc1. auto.
Qed.

Lemma presents_length_byte w L rest : presents w (L :: rest) -> 0 <= L < 256.
Proof.
  unfold presents, incoming. simpl. intros H. injection H as HL _.
  rewrite <- HL. apply uchar_range.
Qed.

(** rng90_data on a frame that fits rng90_buffer: the length byte first,
    then the payload into the buffer, then the two checksum bytes; the
    frame comes back with the declared length and the verdict. *)
Lemma rng90_data_frame fuel w L payload c0 c1 :
  presents w (L :: payload ++ [c0; c1]) ->
  2 <= L ->
  length payload = Z.to_nat (L - 3) ->
  (length payload <= length (rng90_buffer w))%nat ->
  (length payload < fuel)%nat ->
  let verdict := if decide (assemble c0 c1 = checksum (L :: payload))
                 then RNG90_Data_Status_Valid else RNG90_Data_Status_Invalid in
  rng90_data fuel w =
  Done (Build_RNG90_Frame L verdict)
       (advance w (payload ++ drop (length payload) (rng90_buffer w))
          (Build_RNG90_Frame L verdict) (crc_over (L :: payload))
          (length payload + 3) 0
          (Ev_start :: Ev_address RNG90_ADDRESS TWI_Read
             :: get_events (L :: payload)
             ++ [Ev_get c0 TWI_ACK; Ev_get c1 TWI_NACK; Ev_stop])).
Proof.
  intros Hp HL2 Hlen Hbuf Hfuel verdict.
  pose proof (presents_length_byte _ _ _ Hp) as HL.
  apply presents_frame in Hp as (HrL & Hrp & Hr0 & Hr1).
  destruct fuel as [|fuel]; [lia|].
  destruct w as [buf fr c rd ack ng ns lg]. world_simpl in *.
  unfold rng90_data.
  do 5 step.
  erewrite bind_Done; cycle 1.
  { rewrite rng90_data_loop_first by (world_simpl; vm_compute; reflexivity).
    change (uchar (0 + 1)) with 1. world_simpl. rewrite HrL.
    apply (rng90_data_loop_payload (length payload)); world_simpl; lia. }
  unfold advance, incoming. world_simpl.
  rewrite Hrp.
  do 5 step.
  rewrite (Nat.add_comm (S ng)) in Hr0, Hr1. rewrite Hr0, Hr1.
  fold (assemble c0 c1).
  change (uint _) with (checksum (L :: payload)).
  change (Z.to_nat (1 - 1)) with 0%nat. rewrite splice_0.
  assert (Hlog : forall tl : list Event,
            Ev_stop :: Ev_get c1 TWI_NACK :: Ev_get c0 TWI_ACK
              :: rev (get_events payload) ++ Ev_get L TWI_ACK
              :: Ev_address RNG90_ADDRESS TWI_Read :: Ev_start :: tl
            = rev (Ev_start :: Ev_address RNG90_ADDRESS TWI_Read
                     :: get_events (L :: payload)
                     ++ [Ev_get c0 TWI_ACK; Ev_get c1 TWI_NACK; Ev_stop]) ++ tl).
  { intros tl. simpl. rewrite rev_app_distr. simpl.
    now rewrite <- !app_assoc. }
  subst verdict.
  destruct (decide (assemble c0 c1 = checksum (L :: payload))) as [Heq|Hne];
    destruct (decide (assemble c0 c1 <> checksum (L :: payload))) as [Hne'|Heq'];
    try contradiction; try (exfalso; apply Heq'; assumption).
  - unfold bind, ret, get_frame. world_simpl. unfold advance. world_simpl.
    f_equal. f_equal; [lia|]. apply Hlog.
  - unfold bind, put_frame_status, get_frame. world_simpl. unfold advance. world_simpl.
    f_equal. f_equal; [lia|]. apply Hlog.
Qed.

(** rng90_data on a length byte whose loop bound lets [i] run past the
    end of rng90_buffer: the run ends in a store outside the array. *)
Lemma rng90_data_overflow fuel w :
  (length (rng90_buffer w) <= 254)%nat ->
  Z.of_nat (length (rng90_buffer w)) + 1
    < ulong (uchar (dev_read w (n_get w)) - RNG90_CRC_SIZE) ->
  (length (rng90_buffer w) + 1 < fuel)%nat ->
  exists w', rng90_data fuel w = OutOfBounds w'.
Proof.
  intros Hcap Hbound Hfuel.
  destruct fuel as [|fuel]; [lia|].
  destruct w as [buf fr c rd ack ng ns lg]. world_simpl in *.
  unfold rng90_data.
  do 5 step.
  destruct (rng90_data_loop_overflow (length buf) fuel 1
              (Build_World buf
                 (Build_RNG90_Frame (uchar (rd ng)) RNG90_Data_Status_Invalid)
                 (crc16_feed (crc16_load CRC16_INITIAL_VALUE) (uchar (rd ng)))
                 rd ack (S ng) ns
                 (Ev_get (uchar (rd ng)) TWI_ACK
                    :: Ev_address RNG90_ADDRESS TWI_Read :: Ev_start :: lg)))
    as [w' Hw']; world_simpl; try lia.
  exists w'. apply bind_OutOfBounds.
  rewrite rng90_data_loop_first by (world_simpl; vm_compute; reflexivity).
  world_simpl. exact Hw'.
Qed.

(** *** The transmit side *)

Lemma rng90_write_run p w :
  rng90_write p w =
  Done (counted p)
       (advance w (rng90_buffer w) (rng90_frame w) (crc_over (header p)) 0 6
          (Ev_address RNG90_ADDRESS TWI_Write
             :: set_events (dev_ack w) (n_set w) (RNG90_EXECUTE_COMMAND :: header p))).
Proof. destruct w. reflexivity. Qed.

Lemma rng90_command_run p w :
  rng90_command p w =
  Done (Build_RNG90_Packet (uchar (count p + 7)) (opcode p) (param1 p) (param2 p)
          (checksum (header p)))
       (advance w (rng90_buffer w) (rng90_frame w) (crc_over (header p)) 0 8
          (Ev_start :: Ev_address RNG90_ADDRESS TWI_Write
             :: set_events (dev_ack w) (n_set w)
                  (RNG90_EXECUTE_COMMAND :: header p
                     ++ [crc_low (checksum (header p)); crc_high (checksum (header p))])
             ++ [Ev_stop])).
Proof. destruct w. reflexivity. Qed.

Lemma filler_trip_ok n i0 w :
  dev_ack w (n_set w) = TWI_None ->
  for_loop (S n) i0 filler w =
  for_loop n (i0 + 1) filler
    (set_crc16 (crc16_feed (crc16 w) RNG90_OPERATION_RANDOM_DATA)
       (emit (Ev_set RNG90_OPERATION_RANDOM_DATA TWI_None) (next_set w))).
Proof.
  intros Hack. cbn [for_loop]. unfold bind at 1. unfold filler at 1.
  unfold bind at 1. unfold twi_set. rewrite Hack.
  destruct (decide (TWI_None <> TWI_None)); [congruence|].
  reflexivity.
Qed.

Lemma filler_trip_fail n i0 w :
  dev_ack w (n_set w) <> TWI_None ->
  for_loop (S n) i0 filler w =
  Done (Some RNG90_Status_TWI_Error)
       (emit Ev_stop
          (emit (Ev_set RNG90_OPERATION_RANDOM_DATA (dev_ack w (n_set w))) (next_set w))).
Proof.
  intros Hack. cbn [for_loop]. unfold bind at 1. unfold filler at 1.
  unfold bind at 1. unfold twi_set.
  destruct (decide (dev_ack w (n_set w) <> TWI_None)); [|contradiction].
  reflexivity.
Qed.

(** All [n] filler bytes acknowledged: the loop runs to its end. *)
Lemma filler_acked n : forall i0 w,
  (forall k, (k < n)%nat -> dev_ack w (n_set w + k) = TWI_None) ->
  for_loop n i0 filler w =
  Done None
       (advance w (rng90_buffer w) (rng90_frame w)
          (fold_left crc16_feed (replicate n RNG90_OPERATION_RANDOM_DATA) (crc16 w))
          0 n
          (set_events (dev_ack w) (n_set w) (replicate n RNG90_OPERATION_RANDOM_DATA))).
Proof.
  induction n as [|n IH]; intros i0 w Hack.
  - destruct w. reflexivity.
  - rewrite filler_trip_ok by (rewrite <- (Hack 0%nat) by lia; f_equal; lia).
    rewrite IH.
    + destruct w as [buf fr c rd ack ng ns lg]. unfold advance. world_simpl.
      rewrite <- (Hack 0%nat) by lia. world_simpl. rewrite Nat.add_0_r.
      f_equal. f_equal; [lia|].
      cbn [replicate set_events rev]. now rewrite <- app_assoc.
    + intros k Hk. world_simpl. rewrite <- (Hack (S k)) by lia. f_equal. lia.
Qed.

(** Filler byte number [k] is the first one refused: the loop stops the
    transaction and returns the TWI error. *)
Lemma filler_nacked n : forall i0 w k,
  (k < n)%nat ->
  (forall j, (j < k)%nat -> dev_ack w (n_set w + j) = TWI_None) ->
  dev_ack w (n_set w + k) <> TWI_None ->
  for_loop n i0 filler w =
  Done (Some RNG90_Status_TWI_Error)
       (advance w (rng90_buffer w) (rng90_frame w)
          (fold_left crc16_feed (replicate k RNG90_OPERATION_RANDOM_DATA) (crc16 w))
          0 (S k)
          (set_events (dev_ack w) (n_set w) (replicate (S k) RNG90_OPERATION_RANDOM_DATA)
             ++ [Ev_stop])).
Proof.
  induction n as [|n IH]; intros i0 w k Hk Hack Hnack; [lia|].
  destruct k as [|k].
  - rewrite Nat.add_0_r in Hnack. rewrite filler_trip_fail by assumption.
    destruct w. reflexivity.
  - rewrite filler_trip_ok by (rewrite <- (Hack 0%nat) by lia; f_equal; lia).
    rewrite (IH _ _ k).
    + destruct w as [buf fr c rd ack ng ns lg]. unfold advance. world_simpl.
      rewrite <- (Hack 0%nat) by lia. world_simpl. rewrite Nat.add_0_r.
      f_equal. f_equal; [lia|].
      cbn [replicate set_events rev app].
      rewrite !rev_app_distr. cbn [rev app]. now rewrite <- !app_assoc.
    + lia.
    + intros j Hj. world_simpl. rewrite <- (Hack (S j)) by lia. f_equal. lia.
    + world_simpl. intros H. apply Hnack. rewrite <- H. f_equal. lia.
Qed.

(** The filler loop always comes back, with no status or with the TWI
    error. *)
Lemma filler_total n : forall i0 w,
  exists r w', for_loop n i0 filler w = Done r w'
               /\ (r = None \/ r = Some RNG90_Status_TWI_Error).
Proof.
  induction n as [|n IH]; intros i0 w.
  - exists None, w. split; [reflexivity|auto].
  - destruct (decide (dev_ack w (n_set w) = TWI_None)) as [Hack|Hnack].
    + rewrite filler_trip_ok by assumption. apply IH.
    + rewrite filler_trip_fail by assumption. eauto.
Qed.

(** *** Copying out of rng90_buffer *)

Lemma copy_out_run n : forall i0 dst w,
  0 <= i0 ->
  (Z.to_nat i0 + n <= length (rng90_buffer w))%nat ->
  (Z.to_nat i0 + n <= length dst)%nat ->
  copy_out n i0 dst w =
  Done (splice (Z.to_nat i0) (take n (drop (Z.to_nat i0) (rng90_buffer w))) dst) w.
Proof.
  induction n as [|n IH]; intros i0 dst w Hi Hbuf Hdst.
  - cbn [copy_out take]. unfold ret. now rewrite splice_nil.
  - cbn [copy_out]. unfold bind at 1. unfold load_buffer.
    unfold bind at 1. unfold store_out.
    destruct (decide (0 <= i0 < Z.of_nat (length dst))); [|lia].
    rewrite IH; try lia.
    + replace (Z.to_nat (i0 + 1)) with (S (Z.to_nat i0)) by lia.
      rewrite splice_step by lia.
      destruct (lookup_lt_is_Some_2 (rng90_buffer w) (Z.to_nat i0)) as [b Hb]; [lia|].
      rewrite (list_lookup_total_correct _ _ _ Hb).
      now rewrite (drop_S _ _ _ Hb).
    + rewrite length_insert. lia.
Qed.

(** *** The operations on a frame that fits *)

Ltac frame_cases :=
  cbn [f_length f_status]; unfold frame_valid;
  unfold RNG90_STANDARD_FRAME_SIZE, RNG90_INFO_FRAME_SIZE,
         RNG90_NUMBER_FRAME_SIZE, RNG90_SERIAL_FRAME_SIZE in *;
  repeat match goal with
         | |- context [decide ?P] => destruct (decide P) as [[? ?]|?]
         | |- context [decide ?P] => destruct (decide P)
         end;
  try solve [exfalso; intuition (lia || discriminate)];
  try reflexivity.

Ltac receive :=
  erewrite bind_Done by (apply rng90_data_frame; try eassumption; assumption).

Lemma rng90_selftest_received fuel test w L payload c0 c1 :
  presents w (L :: payload ++ [c0; c1]) ->
  frame_fits w L payload ->
  (length payload < fuel)%nat ->
  returned (rng90_selftest fuel test w) =
  Some (if decide (L = RNG90_STANDARD_FRAME_SIZE /\ frame_valid L payload c0 c1)
        then payload !!! 0%nat
        else RNG90_SelfTest_Error).
Proof.
  intros Hp (HL & Hlen & Hbuf) Hfuel.
  unfold rng90_selftest.
  erewrite bind_Done by apply rng90_command_run.
  erewrite bind_Done by reflexivity.
  receive. frame_cases.
  subst L. change (Z.to_nat (4 - 3)) with 1%nat in Hlen.
  unfold load_buffer, advance. cbn [returned rng90_buffer].
  f_equal. change (Z.to_nat 0) with 0%nat.
  apply lookup_total_app_l. lia.
Qed.

Lemma rng90_info_received fuel info w L payload c0 c1 :
  presents w (L :: payload ++ [c0; c1]) ->
  frame_fits w L payload ->
  (length payload < fuel)%nat ->
  returned (rng90_info fuel info w) =
  Some (if decide (L = RNG90_STANDARD_FRAME_SIZE /\ frame_valid L payload c0 c1)
        then (payload !!! 0%nat, info)
        else if decide (L = RNG90_INFO_FRAME_SIZE /\ frame_valid L payload c0 c1)
        then (RNG90_Status_Success,
              Build_RNG90_Info (payload !!! 0%nat) (payload !!! 1%nat)
                               (payload !!! 2%nat) (payload !!! 3%nat))
        else (RNG90_Status_Other_Error, info)).
Proof.
  intros Hp (HL & Hlen & Hbuf) Hfuel.
  unfold rng90_info.
  erewrite bind_Done by apply rng90_command_run.
  erewrite bind_Done by reflexivity.
  receive. frame_cases.
  - subst L. change (Z.to_nat (4 - 3)) with 1%nat in Hlen.
    unfold bind, load_buffer, ret, advance. cbn [returned rng90_buffer].
    do 2 f_equal. change (Z.to_nat 0) with 0%nat.
    apply lookup_total_app_l. lia.
  - subst L. change (Z.to_nat (7 - 3)) with 4%nat in Hlen.
    unfold bind, load_buffer, ret, advance. cbn [returned rng90_buffer].
    change (Z.to_nat 0) with 0%nat. change (Z.to_nat 1) with 1%nat.
    change (Z.to_nat 2) with 2%nat. change (Z.to_nat 3) with 3%nat.
    rewrite !lookup_total_app_l by lia. reflexivity.
Qed.

(** After a whole frame, the first [n] bytes of rng90_buffer are the first
    [n] payload bytes. *)
Lemma copy_out_payload n payload rest dst w :
  rng90_buffer w = payload ++ rest ->
  (n <= length payload)%nat ->
  (n <= length dst)%nat ->
  copy_out n 0 dst w = Done (take n payload ++ drop n dst) w.
Proof.
  intros Hbuf Hn Hdst.
  rewrite copy_out_run; [| lia | rewrite Hbuf, length_app; simpl; lia | simpl; lia].
  change (Z.to_nat 0) with 0%nat. rewrite splice_0, drop_0, Hbuf.
  rewrite take_app_le by lia.
  now rewrite length_take_le by lia.
Qed.

Lemma rng90_serial_received fuel serial w L payload c0 c1 :
  presents w (L :: payload ++ [c0; c1]) ->
  frame_fits w L payload ->
  (length payload < fuel)%nat ->
  (L = RNG90_SERIAL_FRAME_SIZE /\ frame_valid L payload c0 c1 ->
   (Z.to_nat RNG90_OPERATION_READ_SERIAL_SIZE <= length serial)%nat) ->
  returned (rng90_serial fuel serial w) =
  Some (if decide (L = RNG90_STANDARD_FRAME_SIZE /\ frame_valid L payload c0 c1)
        then (payload !!! 0%nat, serial)
        else if decide (L = RNG90_SERIAL_FRAME_SIZE /\ frame_valid L payload c0 c1)
        then (RNG90_Status_Success,
              take (Z.to_nat RNG90_OPERATION_READ_SERIAL_SIZE) payload
                ++ drop (Z.to_nat RNG90_OPERATION_READ_SERIAL_SIZE) serial)
        else (RNG90_Status_Other_Error, serial)).
Proof.
  intros Hp (HL & Hlen & Hbuf) Hfuel Hser.
  unfold rng90_serial.
  erewrite bind_Done by apply rng90_command_run.
  erewrite bind_Done by reflexivity.
  receive. frame_cases.
  - subst L. change (Z.to_nat (4 - 3)) with 1%nat in Hlen.
    unfold bind, load_buffer, ret, advance. cbn [returned rng90_buffer].
    do 2 f_equal. change (Z.to_nat 0) with 0%nat.
    apply lookup_total_app_l. lia.
  - specialize (Hser ltac:(split; [assumption | unfold frame_valid; assumption])).
    subst L. change (Z.to_nat (19 - 3)) with 16%nat in Hlen.
    change (Z.to_nat RNG90_OPERATION_READ_SERIAL_SIZE) with 8%nat in *.
    erewrite bind_Done
      by (eapply copy_out_payload; [reflexivity | lia | lia]).
    reflexivity.
Qed.

(** *** rng90_random *)

Lemma set_events_app ack k a b :
  set_events ack k (a ++ b) = set_events ack k a ++ set_events ack (k + length a) b.
Proof.
  revert k. induction a as [|x a IH]; intros k; simpl.
  - now rewrite Nat.add_0_r.
  - rewrite IH. now replace (S k + length a)%nat with (k + S (length a))%nat by lia.
Qed.

(** Filler byte number [k] is refused, the ones before it were taken:
    rng90_random stops the transaction and returns the TWI error, with
    nothing after Ev_stop; [numbers] is as it was. *)
Lemma rng90_random_nacked fuel numbers w k :
  (k < Z.to_nat RNG90_OPERATION_RANDOM_DATA_SIZE)%nat ->
  (forall j, (j < k)%nat -> dev_ack w (n_set w + 6 + j) = TWI_None) ->
  dev_ack w (n_set w + 6 + k) <> TWI_None ->
  rng90_random fuel numbers w =
  Done (RNG90_Status_TWI_Error, numbers)
       (advance w (rng90_buffer w) (rng90_frame w)
          (fold_left crc16_feed (filler_bytes k) (crc_over (header random_packet)))
          0 (7 + k)
          (Ev_start :: Ev_address RNG90_ADDRESS TWI_Write
             :: set_events (dev_ack w) (n_set w)
                  (RNG90_EXECUTE_COMMAND :: header random_packet ++ filler_bytes (S k))
             ++ [Ev_stop])).
Proof.
  intros Hk Hack Hnack.
  unfold rng90_random.
  erewrite bind_Done by reflexivity.
  erewrite bind_Done by apply rng90_write_run.
  erewrite bind_Done; cycle 1.
  { apply (filler_nacked _ _ _ k); [exact Hk | |].
    - intros j Hj. destruct w. unfold advance. world_simpl.
      rewrite <- (Hack j Hj). world_simpl. f_equal. lia.
    - destruct w. unfold advance. world_simpl. world_simpl in *.
      intros H. apply Hnack. rewrite <- H. f_equal. lia. }
  destruct w as [buf fr c rd ack ng ns lg]. unfold ret, advance. world_simpl.
  f_equal. f_equal; [lia|].
  change (header _) with (header random_packet).
  change (RNG90_EXECUTE_COMMAND :: header random_packet ++ filler_bytes (S k))
    with ((RNG90_EXECUTE_COMMAND :: header random_packet) ++ filler_bytes (S k)).
  rewrite set_events_app.
  change (length (RNG90_EXECUTE_COMMAND :: header random_packet)) with 6%nat.
  replace (6 + ns)%nat with (ns + 6)%nat by lia.
  unfold filler_bytes.
  repeat first [rewrite rev_app_distr | progress cbn [rev app]].
  rewrite <- ?app_assoc. reflexivity.
Qed.

(** All twenty filler bytes are taken and the device answers with a frame
    that fits. *)
Lemma rng90_random_received fuel numbers w L payload c0 c1 :
  (forall k, (k < Z.to_nat RNG90_OPERATION_RANDOM_DATA_SIZE)%nat ->
             dev_ack w (n_set w + 6 + k) = TWI_None) ->
  presents w (L :: payload ++ [c0; c1]) ->
  frame_fits w L payload ->
  (length payload < fuel)%nat ->
  (L = RNG90_NUMBER_FRAME_SIZE /\ frame_valid L payload c0 c1 ->
   (Z.to_nat RNG90_OPERATION_RANDOM_RNG_SIZE <= length numbers)%nat) ->
  returned (rng90_random fuel numbers w) =
  Some (if decide (L = RNG90_STANDARD_FRAME_SIZE /\ frame_valid L payload c0 c1)
        then (payload !!! 0%nat, numbers)
        else if decide (L = RNG90_NUMBER_FRAME_SIZE /\ frame_valid L payload c0 c1)
        then (RNG90_Status_Success,
              take (Z.to_nat RNG90_OPERATION_RANDOM_RNG_SIZE) payload
                ++ drop (Z.to_nat RNG90_OPERATION_RANDOM_RNG_SIZE) numbers)
        else (RNG90_Status_Other_Error, numbers)).
Proof.
  intros Hack Hp (HL & Hlen & Hbuf) Hfuel Hnum.
  unfold rng90_random.
  erewrite bind_Done by reflexivity.
  erewrite bind_Done by apply rng90_write_run.
  erewrite bind_Done; cycle 1.
  { apply filler_acked. intros k Hk.
    destruct w. unfold advance. world_simpl.
    rewrite <- (Hack k Hk). world_simpl. f_equal. lia. }
  cbv beta iota.
  do 5 (erewrite bind_Done by reflexivity).
  receive. frame_cases.
  - subst L. change (Z.to_nat (4 - 3)) with 1%nat in Hlen.
    unfold bind, load_buffer, ret, advance. cbn [returned rng90_buffer].
    do 2 f_equal. change (Z.to_nat 0) with 0%nat.
    apply lookup_total_app_l. lia.
  - specialize (Hnum ltac:(split; [assumption | unfold frame_valid; assumption])).
    subst L. change (Z.to_nat (35 - 3)) with 32%nat in Hlen.
    change (Z.to_nat RNG90_OPERATION_RANDOM_RNG_SIZE) with 32%nat in *.
    erewrite bind_Done
      by (eapply copy_out_payload; [reflexivity | lia | lia]).
    reflexivity.
Qed.

(** Whatever the device does, rng90_random writes to [numbers] only on
    the path that returns RNG90_Status_Success after the copy loop. *)
Lemma rng90_random_numbers fuel numbers w st numbers' w' :
  rng90_random fuel numbers w = Done (st, numbers') w' ->
  numbers' = numbers \/ st = RNG90_Status_Success.
Proof.
  unfold rng90_random.
  erewrite bind_Done by reflexivity.
  erewrite bind_Done by apply rng90_write_run.
  match goal with
  | |- context [for_loop ?n ?i ?body] =>
      destruct (filler_total n i
                  (advance (emit Ev_start w) (rng90_buffer (emit Ev_start w))
                     (rng90_frame (emit Ev_start w)) (crc_over (header random_packet))
                     0 6
                     (Ev_address RNG90_ADDRESS TWI_Write
                        :: set_events (dev_ack (emit Ev_start w)) (n_set (emit Ev_start w))
                             (RNG90_EXECUTE_COMMAND :: header random_packet))))
        as (r & w1 & Hloop & Hr)
  end.
  erewrite bind_Done by exact Hloop.
  destruct Hr as [-> | ->]; cbv beta iota.
  - do 5 (erewrite bind_Done by reflexivity).
    unfold bind at 1.
    match goal with |- context [rng90_data fuel ?W] => destruct (rng90_data fuel W) as [f w2| |] end;
      try discriminate.
    destruct (decide (f_length f = RNG90_STANDARD_FRAME_SIZE
                      /\ f_status f = RNG90_Data_Status_Valid)).
    + unfold bind, load_buffer, ret. intros H. injection H as _ <- _. now left.
    + destruct (decide (f_length f = RNG90_NUMBER_FRAME_SIZE
                        /\ f_status f = RNG90_Data_Status_Valid)).
      * unfold bind at 1.
        destruct (copy_out _ _ _ _); try discriminate.
        unfold ret. intros H. injection H as <- _ _. now right.
      * unfold ret. intros H. injection H as _ <- _. now left.
  - unfold ret. intros H. injection H as _ <- _. now left.
Qed.

(** *** What went over the bus, and the loopback *)

Lemma sent_app a b : sent (a ++ b) = sent a ++ sent b.
Proof.
  induction a as [|e a IH]; [reflexivity|].
  destruct e; simpl; now rewrite ?IH.
Qed.

Lemma sent_set_events ack k bytes : sent (set_events ack k bytes) = bytes.
Proof.
  revert k. induction bytes as [|b bs IH]; intros k; [reflexivity|].
  simpl. f_equal. apply IH.
Qed.

Lemma history_advance w buf f c gets sets events :
  history (advance w buf f c gets sets events) = history w ++ events.
Proof.
  unfold history, advance. cbn [log].
  now rewrite rev_app_distr, rev_involutive.
Qed.

Lemma checksum_range body : 0 <= checksum body < 65536.
Proof. unfold checksum, uint. apply Z.mod_pos_bound. lia. Qed.

Lemma uchar_land_255 x : uchar (Z.land 0x00FF x) = Z.land 0x00FF x.
Proof.
  unfold uchar. change 255 with (Z.ones 8).
  rewrite Z.land_comm, Z.land_ones by lia.
  apply Z.mod_mod. lia.
Qed.

Lemma testbit_above_uint c n : 0 <= c < 65536 -> 16 <= n -> Z.testbit c n = false.
Proof.
  intros Hc Hn. apply Z.testbit_false; [lia|].
  rewrite Z.div_small; [reflexivity|].
  split; [lia|]. apply Z.lt_le_trans with (2 ^ 16); [lia|].
  apply Z.pow_le_mono_r; lia.
Qed.

(** Splitting an unsigned int into its two bytes and putting them together
    again, as rng90_command and rng90_data do, bit by bit. *)
Lemma assemble_split c : 0 <= c < 65536 -> assemble (crc_low c) (crc_high c) = c.
Proof.
  intros Hc. unfold assemble, crc_low, crc_high.
  rewrite !uchar_land_255.
  apply Z.bits_inj'. intros n Hn.
  change 65280 with (Z.shiftl (Z.ones 8) 8). change 255 with (Z.ones 8).
  rewrite Z.lor_spec, !Z.land_spec, !Z.shiftl_spec by lia.
  destruct (Z.lt_ge_cases n 8) as [Hlo|Hhi].
  - rewrite (Z.ones_spec_low 8 n) by lia.
    rewrite (Z.testbit_neg_r _ (n - 8)) by lia.
    now rewrite !andb_true_l, andb_false_l, orb_false_r.
  - rewrite (Z.ones_spec_high 8 n) by lia. rewrite !andb_false_l, orb_false_l.
    rewrite Z.land_spec, Z.shiftr_spec by lia.
    replace (n - 8 + 8) with n by lia.
    destruct (Z.lt_ge_cases n 16) as [Hmid|Hup].
    + rewrite (Z.ones_spec_low 8 (n - 8)) by lia. now rewrite !andb_true_l.
    + rewrite (Z.ones_spec_high 8 (n - 8)) by lia.
      rewrite andb_false_l. symmetry. now apply testbit_above_uint.
Qed.

Lemma crc_bytes_range c :
  0 <= crc_low c < 256 /\ 0 <= crc_high c < 256.
Proof. unfold crc_low, crc_high. split; apply uchar_range. Qed.

Lemma wire_advance w buf f c gets sets events :
  wire (advance w buf f c gets sets events) = wire w ++ sent events.
Proof. unfold wire. now rewrite history_advance, sent_app. Qed.

Lemma wire_emit e w : wire (emit e w) = wire w ++ sent [e].
Proof. unfold wire, history, emit. cbn [log rev]. apply sent_app. Qed.

Lemma wire_next_set w : wire (next_set w) = wire w.
Proof. reflexivity. Qed.

Lemma wire_set_frame f w : wire (set_frame f w) = wire w.
Proof. reflexivity. Qed.

Lemma wire_set_crc16 c w : wire (set_crc16 c w) = wire w.
Proof. reflexivity. Qed.

Lemma sent_get_events bytes : sent (get_events bytes) = [].
Proof. induction bytes; simpl; auto. Qed.


Lemma crc_over_app a b : crc_over (a ++ b) = fold_left crc16_feed b (crc_over a).
Proof. unfold crc_over. apply fold_left_app. Qed.

(** rng90_random with every filler byte taken and a frame that fits coming
    back: what went over the bus, and what the receiver left behind. *)
Lemma rng90_random_run fuel numbers w L payload c0 c1 :
  (forall k, (k < Z.to_nat RNG90_OPERATION_RANDOM_DATA_SIZE)%nat ->
             dev_ack w (n_set w + 6 + k) = TWI_None) ->
  presents w (L :: payload ++ [c0; c1]) ->
  frame_fits w L payload ->
  (length payload < fuel)%nat ->
  (L = RNG90_NUMBER_FRAME_SIZE /\ frame_valid L payload c0 c1 ->
   (Z.to_nat RNG90_OPERATION_RANDOM_RNG_SIZE <= length numbers)%nat) ->
  exists r w',
    rng90_random fuel numbers w = Done r w'
    /\ wire w' = wire w ++ RNG90_EXECUTE_COMMAND :: random_frame
    /\ rng90_frame w' =
        Build_RNG90_Frame L (if decide (frame_valid L payload c0 c1)
                             then RNG90_Data_Status_Valid
                             else RNG90_Data_Status_Invalid)
    /\ crc16 w' = crc_over (L :: payload).
Proof.
  intros Hack Hp (HL & Hlen & Hbuf) Hfuel Hnum.
  destruct w as [buf fr c rd ack ng ns lg]. world_simpl in *.
  unfold rng90_random.
  step.
  erewrite bind_Done by apply rng90_write_run. unfold advance. world_simpl.
  erewrite bind_Done; cycle 1.
  { apply filler_acked. intros k Hk. world_simpl.
    rewrite <- (Hack k Hk). f_equal. lia. }
  unfold advance. world_simpl.
  cbv beta iota.
  do 5 step.
  cbn [count opcode param1 param2 crc counted].
  fold random_packet.
  rewrite <- crc_over_app.
  change (uint (crc16_read (crc_over ?x))) with (checksum x).
  receive. unfold advance. world_simpl.
  match goal with
  | |- context [Build_World ?b ?f ?c ?r ?a ?g ?s ?l] =>
      assert (Hwire : wire (Build_World b f c r a g s l)
                      = wire (Build_World buf fr c rd ack ng ns lg)
                          ++ RNG90_EXECUTE_COMMAND :: random_frame)
  end.
  { unfold wire, history. world_simpl.
    repeat first [rewrite rev_app_distr | rewrite rev_involutive | progress cbn [rev app]].
    rewrite <- ?app_assoc.
    repeat first [rewrite sent_app | rewrite sent_set_events | rewrite sent_get_events
                 | progress cbn [sent app]].
    rewrite ?app_nil_r. reflexivity. }
  change (Z.to_nat RNG90_OPERATION_RANDOM_RNG_SIZE) with 32%nat in *.
  frame_cases;
    try (erewrite bind_Done
           by (eapply copy_out_payload;
               [reflexivity | lia
               | apply Hnum; split; [assumption | unfold frame_valid; assumption]]));
    unfold bind, load_buffer, ret;
    (eexists; eexists; split; [reflexivity|]; split; [exact Hwire|]; split; reflexivity).
Qed.

(** *** Further facts the claims rest on *)

Lemma rng90_command_wire p w :
  exists p' w',
    rng90_command p w = Done p' w'
    /\ count p' = uchar (count p + 7)
    /\ wire w' = wire w ++ RNG90_EXECUTE_COMMAND :: command_frame (header p)
    /\ crc16 w' = crc_over (header p).
Proof.
  rewrite rng90_command_run. eexists. eexists. split; [reflexivity|].
  split; [reflexivity|]. split; [|reflexivity].
  rewrite wire_advance. cbn [sent]. now rewrite sent_app, sent_set_events, app_nil_r.
Qed.

Lemma set_events_transmit_only ack k bytes : Forall transmit_only (set_events ack k bytes).
Proof.
  revert k. induction bytes as [|b bs IH]; intros k; simpl; constructor; simpl; auto.
Qed.

(** The two checksum bytes are taken low byte first. *)
Lemma assemble_little_endian c0 c1 :
  0 <= c0 < 256 -> 0 <= c1 < 256 -> assemble c0 c1 = c0 + 256 * c1.
Proof.
  intros H0 H1.
  assert (Hlow : crc_low (c0 + 256 * c1) = c0).
  { unfold crc_low. rewrite uchar_land_255. change 255 with (Z.ones 8).
    rewrite Z.land_comm, Z.land_ones by lia. change (2 ^ 8) with 256.
    rewrite (Z.mul_comm 256), Z.mod_add by lia. now apply Z.mod_small. }
  assert (Hhigh : crc_high (c0 + 256 * c1) = c1).
  { unfold crc_high. rewrite uchar_land_255. change 255 with (Z.ones 8).
    rewrite Z.land_comm, Z.land_ones by lia. rewrite Z.shiftr_div_pow2 by lia.
    change (2 ^ 8) with 256.
    rewrite (Z.mul_comm 256), Z.div_add by lia.
    rewrite (Z.div_small c0) by lia. rewrite Z.add_0_l. now apply Z.mod_small. }
  rewrite <- Hlow at 1. rewrite <- Hhigh at 2.
  apply assemble_split. lia.
Qed.





(** *** The world between the two transactions *)

(** After rng90_command and the settle time the driver listens from
    [settled]. *)
Ltac settle :=
  erewrite bind_Done by apply rng90_command_run;
  erewrite bind_Done by reflexivity;
  match goal with
  | |- context [emit (Ev_wait_ms ?ms) ?W] =>
      lazymatch W with
      | advance ?w _ _ (crc_over ?body) _ _ _ =>
          change (emit (Ev_wait_ms ms) W) with (settled w body ms)
      end
  end.

Lemma presents_settled w body ms bytes :
  presents (settled w body ms) bytes <-> presents w bytes.
Proof. reflexivity. Qed.

Lemma presents_app w a b :
  presents w (a ++ b) ->
  presents w a /\ stream_from (dev_read w) (length a + n_get w) (length b) = b.
Proof.
  unfold presents, incoming. rewrite length_app, stream_from_app. intros H.
  apply app_inj_1 in H as [Ha Hb]; [|apply stream_from_length].
  split; [exact Ha|]. now rewrite Nat.add_comm.
Qed.

Lemma presents_checksum_range w L payload c0 c1 :
  presents w (L :: payload ++ [c0; c1]) -> 0 <= c0 < 256 /\ 0 <= c1 < 256.
Proof.
  intros Hp. unfold presents, incoming in Hp.
  split; apply (stream_from_range (dev_read w) (n_get w)
                  (length (L :: payload ++ [c0; c1])));
    rewrite Hp; apply list_elem_of_further, elem_of_app; right.
  - apply list_elem_of_here.
  - apply list_elem_of_further, list_elem_of_here.
Qed.

(** Every world presents its own read stream as a frame: the next byte as
    the length byte, [n] bytes of payload, two checksum bytes. *)
Lemma presents_own_stream w n :
  presents w (uchar (dev_read w (n_get w))
                :: stream_from (dev_read w) (S (n_get w)) n
                ++ [uchar (dev_read w (S (n_get w) + n));
                    uchar (dev_read w (S (S (n_get w) + n)))]).
Proof.
  unfold presents, incoming. cbn [length]. rewrite length_app, stream_from_length.
  cbn [length stream_from]. f_equal. now rewrite stream_from_app.
Qed.

Lemma history_emit e w : history (emit e w) = history w ++ [e].
Proof. reflexivity. Qed.

(** rng90_data on a frame that fits, from the world the transmission left:
    the frame, and what the whole exchange did to the world. *)
Lemma rng90_data_settled fuel w body ms L payload c0 c1 :
  presents w (L :: payload ++ [c0; c1]) ->
  frame_fits w L payload ->
  (length payload < fuel)%nat ->
  exists w',
    rng90_data fuel (settled w body ms)
    = Done (Build_RNG90_Frame L (if decide (frame_valid L payload c0 c1)
                                 then RNG90_Data_Status_Valid
                                 else RNG90_Data_Status_Invalid)) w'
    /\ history w' = history w ++ transmit_events w body
                      ++ Ev_wait_ms ms :: receive_events L payload c0 c1
    /\ rng90_buffer w' = payload ++ drop (length payload) (rng90_buffer w)
    /\ dev_read w' = dev_read w
    /\ dev_ack w' = dev_ack w
    /\ n_get w' = (length payload + 3 + n_get w)%nat
    /\ n_set w' = (S (length (command_frame body)) + n_set w)%nat.
Proof.
  intros Hp (HL & Hlen & Hbuf) Hfuel.
  apply (presents_settled w body ms) in Hp.
  rewrite (rng90_data_frame fuel _ L payload c0 c1 Hp) by assumption.
  eexists. split; [reflexivity|].
  split; [|repeat split].
  rewrite history_advance. unfold settled. rewrite history_advance.
  now rewrite <- !app_assoc.
Qed.

(** *** The caller's buffer *)

(** Whatever it copies, the copy loop keeps the length of the caller's
    buffer and everything outside the [n] bytes from [i0] on, and leaves
    the world alone. *)
Lemma copy_out_keeps n : forall i0 dst w dst' w',
  0 <= i0 ->
  copy_out n i0 dst w = Done dst' w' ->
  w' = w /\ length dst' = length dst
  /\ take (Z.to_nat i0) dst' = take (Z.to_nat i0) dst
  /\ drop (Z.to_nat i0 + n) dst' = drop (Z.to_nat i0 + n) dst.
Proof.
  induction n as [|n IH]; intros i0 dst w dst' w' Hi.
  - cbn [copy_out]. unfold ret. intros H. injection H as <- <-.
    rewrite Nat.add_0_r. auto.
  - cbn [copy_out]. unfold bind at 1. unfold load_buffer.
    unfold bind at 1. unfold store_out.
    destruct (decide (0 <= i0 < Z.of_nat (length dst))); [|discriminate].
    intros H. apply IH in H as (-> & Hlen & Htake & Hdrop); [|lia].
    rewrite length_insert in Hlen.
    replace (Z.to_nat (i0 + 1)) with (S (Z.to_nat i0)) in * by lia.
    split; [reflexivity|]. split; [assumption|]. split.
    + apply (f_equal (take (Z.to_nat i0))) in Htake.
      rewrite !take_take in Htake.
      rewrite Nat.min_l in Htake by lia.
      now rewrite take_insert_ge in Htake by lia.
    + rewrite drop_insert_lt in Hdrop by lia.
      now replace (Z.to_nat i0 + S n)%nat with (S (Z.to_nat i0) + n)%nat by lia.
Qed.

(** A buffer of the caller with fewer than [i0 + n] bytes: the copy loop
    stores past its end. *)
Lemma copy_out_short n : forall i0 dst w,
  0 <= i0 ->
  (Z.to_nat i0 <= length dst)%nat ->
  (length dst < Z.to_nat i0 + n)%nat ->
  exists w', copy_out n i0 dst w = OutOfBounds w'.
Proof.
  induction n as [|n IH]; intros i0 dst w Hi Hle Hlt; [lia|].
  cbn [copy_out]. unfold bind at 1. unfold load_buffer.
  unfold bind at 1. unfold store_out.
  destruct (decide (0 <= i0 < Z.of_nat (length dst))).
  - apply IH; rewrite ?length_insert; lia.
  - eauto.
Qed.

(** *** The receiver against the 87 bytes *)

Lemma rng90_data_out_of_range fuel w :
  length (rng90_buffer w) = 87%nat ->
  uchar (dev_read w (n_get w)) < 2 \/ 90 < uchar (dev_read w (n_get w)) ->
  (88 < fuel)%nat ->
  exists w', rng90_data fuel w = OutOfBounds w'.
Proof.
  intros Hbuf HL Hfuel.
  pose proof (uchar_range (dev_read w (n_get w))) as Hr.
  apply rng90_data_overflow; rewrite ?Hbuf; [lia | | lia].
  unfold RNG90_CRC_SIZE. destruct HL as [HL|HL].
  - assert (Hcases : uchar (dev_read w (n_get w)) = 0 \/ uchar (dev_read w (n_get w)) = 1)
      by lia.
    destruct Hcases as [-> | ->]; vm_compute; reflexivity.
  - rewrite ulong_small by lia. simpl. lia.
Qed.

Lemma rng90_data_in_range fuel w :
  length (rng90_buffer w) = 87%nat ->
  2 <= uchar (dev_read w (n_get w)) <= 90 ->
  (88 < fuel)%nat ->
  exists f w',
    rng90_data fuel w = Done f w'
    /\ f_length f = uchar (dev_read w (n_get w))
    /\ rng90_frame w' = f
    /\ n_get w' = (Z.to_nat (Z.max (uchar (dev_read w (n_get w))) 3) + n_get w)%nat
    /\ n_set w' = n_set w
    /\ wire w' = wire w
    /\ length (rng90_buffer w') = 87%nat.
Proof.
  intros Hbuf HL Hfuel.
  pose proof (presents_own_stream w (Z.to_nat (uchar (dev_read w (n_get w)) - 3))) as Hp.
  rewrite (rng90_data_frame fuel w _ _ _ _ Hp);
    rewrite ?stream_from_length; try lia.
  eexists. eexists. split; [reflexivity|].
  split; [reflexivity|]. split; [reflexivity|].
  split; [cbn [n_get advance]; lia|].
  split; [reflexivity|]. split.
  - rewrite wire_advance. cbn [sent].
    rewrite sent_app, sent_get_events. cbn [sent app]. now rewrite app_nil_r.
  - cbn [rng90_buffer advance]. rewrite length_app, length_drop, stream_from_length. lia.
Qed.

(** *** The whole exchange *)

Ltac verdicts :=
  cbn [f_length f_status];
  repeat match goal with
         | |- context [decide ?P] => destruct (decide P)
         end.

(** After the header, the twenty filler bytes, the checksum and the settle
    time rng90_random listens from [settled] as well. *)
Ltac settle_random Hack :=
  unfold rng90_random;
  erewrite bind_Done by reflexivity;
  erewrite bind_Done by apply rng90_write_run;
  erewrite bind_Done
    by (apply filler_acked; intros k Hk;
        rewrite <- (Hack k Hk); unfold advance; world_simpl; f_equal; lia);
  cbv beta iota;
  do 5 (erewrite bind_Done by reflexivity);
  match goal with
  | |- context [emit (Ev_wait_ms ?ms) ?W] =>
      match goal with
      | w : World |- _ =>
          change (emit (Ev_wait_ms ms) W)
            with (settled w (header random_packet
                               ++ filler_bytes (Z.to_nat RNG90_OPERATION_RANDOM_DATA_SIZE)) ms)
      end
  end.

(** *** The overrun, seen from the operations *)

(** With the 87-byte buffer and a length byte below 2 or above 90, the
    operations that transmit with rng90_command end in the store outside
    rng90_buffer. *)
Lemma command_operations_overrun fuel w :
  length (rng90_buffer w) = 87%nat ->
  uchar (dev_read w (n_get w)) < 2 \/ 90 < uchar (dev_read w (n_get w)) ->
  (88 < fuel)%nat ->
  (forall test, exists w', rng90_selftest fuel test w = OutOfBounds w')
  /\ (exists w', rng90_init fuel w = OutOfBounds w')
  /\ (forall info, exists w', rng90_info fuel info w = OutOfBounds w')
  /\ (forall serial, exists w', rng90_serial fuel serial w = OutOfBounds w').
Proof.
  intros Hbuf HL Hfuel.
  assert (Hov : forall body ms, exists w', rng90_data fuel (settled w body ms) = OutOfBounds w').
  { intros body ms. apply rng90_data_out_of_range; assumption. }
  assert (Hst : forall t, exists w', rng90_selftest fuel t w = OutOfBounds w').
  { intros t. unfold rng90_selftest. settle.
    destruct (Hov (header (selftest_packet t)) RNG90_SELFTEST_EXECUTION_TIME_MS) as [w' H].
    exists w'. now apply bind_OutOfBounds. }
  split; [apply Hst|]. split; [|split].
  - destruct (Hst RNG90_Run_DRBG_SelfTest) as [w' H].
    exists w'. unfold rng90_init. now apply bind_OutOfBounds.
  - intros info. unfold rng90_info. settle.
    destruct (Hov (header info_packet) RNG90_INFO_EXECUTION_TIME_MS) as [w' H].
    exists w'. now apply bind_OutOfBounds.
  - intros serial. unfold rng90_serial. settle.
    destruct (Hov (header serial_packet) RNG90_READ_EXECUTION_TIME_MS) as [w' H].
    exists w'. now apply bind_OutOfBounds.
Qed.

(** *** What a returning call did to the caller's object *)

(** Whatever the device does: what a returning rng90_serial did to the
    caller's buffer. *)
Lemma rng90_serial_keeps fuel serial w st serial' w' :
  rng90_serial fuel serial w = Done (st, serial') w' ->
  length serial' = length serial
  /\ drop 8 serial' = drop 8 serial
  /\ (st <> RNG90_Status_Success -> serial' = serial).
Proof.
  unfold rng90_serial. settle.
  unfold bind at 1.
  match goal with
  | |- context [rng90_data fuel ?W] => destruct (rng90_data fuel W) as [f w2| |]
  end; try discriminate.
  destruct (decide (f_length f = RNG90_STANDARD_FRAME_SIZE
                    /\ f_status f = RNG90_Data_Status_Valid)).
  - unfold bind, load_buffer, ret. intros H. injection H as _ <- _. auto.
  - destruct (decide (f_length f = RNG90_SERIAL_FRAME_SIZE
                      /\ f_status f = RNG90_Data_Status_Valid)).
    + unfold bind at 1.
      destruct (copy_out _ _ _ _) as [d w3| |] eqn:Hcopy; try discriminate.
      unfold ret. intros H. injection H as <- <- _.
      apply copy_out_keeps in Hcopy as (_ & Hlen & _ & Hdrop); [|lia].
      split; [exact Hlen|]. split; [exact Hdrop|]. intros Hne. now contradiction Hne.
    + unfold ret. intros H. injection H as _ <- _. auto.
Qed.

(** The same for rng90_random, bus errors included. *)
Lemma rng90_random_keeps fuel numbers w st numbers' w' :
  rng90_random fuel numbers w = Done (st, numbers') w' ->
  length numbers' = length numbers
  /\ drop 32 numbers' = drop 32 numbers.
Proof.
  unfold rng90_random.
  erewrite bind_Done by reflexivity.
  erewrite bind_Done by apply rng90_write_run.
  match goal with
  | |- context [bind (for_loop ?n ?i ?body) ?K ?W] =>
      destruct (filler_total n i W) as (r & w1 & Hloop & Hr)
  end.
  erewrite bind_Done by exact Hloop.
  destruct Hr as [-> | ->]; cbv beta iota.
  - do 5 (erewrite bind_Done by reflexivity).
    unfold bind at 1.
    match goal with
    | |- context [rng90_data fuel ?W] => destruct (rng90_data fuel W) as [f w2| |]
    end; try discriminate.
    destruct (decide (f_length f = RNG90_STANDARD_FRAME_SIZE
                      /\ f_status f = RNG90_Data_Status_Valid)).
    + unfold bind, load_buffer, ret. intros H. injection H as _ <- _. auto.
    + destruct (decide (f_length f = RNG90_NUMBER_FRAME_SIZE
                        /\ f_status f = RNG90_Data_Status_Valid)).
      * unfold bind at 1.
        destruct (copy_out _ _ _ _) as [d w3| |] eqn:Hcopy; try discriminate.
        unfold ret. intros H. injection H as _ <- _.
        apply copy_out_keeps in Hcopy as (_ & Hlen & _ & Hdrop); [|lia].
        split; [exact Hlen | exact Hdrop].
      * unfold ret. intros H. injection H as _ <- _. auto.
  - unfold ret. intros H. injection H as _ <- _. auto.
Qed.

(** Whatever the device does: rng90_info writes the caller's structure on
    one path only, from the first four bytes of rng90_buffer. *)
Lemma rng90_info_keeps fuel info w st info' w' :
  rng90_info fuel info w = Done (st, info') w' ->
  info' = info
  \/ (st = RNG90_Status_Success
      /\ info' = Build_RNG90_Info (rng90_buffer w' !!! 0%nat) (rng90_buffer w' !!! 1%nat)
                                  (rng90_buffer w' !!! 2%nat) (rng90_buffer w' !!! 3%nat)).
Proof.
  unfold rng90_info. settle.
  unfold bind at 1.
  match goal with
  | |- context [rng90_data fuel ?W] => destruct (rng90_data fuel W) as [f w2| |]
  end; try discriminate.
  destruct (decide (f_length f = RNG90_STANDARD_FRAME_SIZE
                    /\ f_status f = RNG90_Data_Status_Valid)).
  - unfold bind, load_buffer, ret. intros H. injection H as _ <- _. auto.
  - destruct (decide (f_length f = RNG90_INFO_FRAME_SIZE
                      /\ f_status f = RNG90_Data_Status_Valid)).
    + unfold bind, load_buffer, ret. intros H. injection H as <- <- <-. right. auto.
    + unfold ret. intros H. injection H as _ <- _. auto.
Qed.

(** *** One operation after the other *)

Lemma returned_bind_ret {A B} (m : M A) (g : A -> B) w :
  returned (bind m (fun a => ret (g a)) w) = g <$> returned (m w).
Proof. unfold bind. now destruct (m w). Qed.

(** *** The command frame, byte by byte *)

Lemma sent_transmit_events w body :
  sent (transmit_events w body) = RNG90_EXECUTE_COMMAND :: command_frame body.
Proof.
  unfold transmit_events. cbn [sent].
  rewrite sent_app, sent_set_events. cbn [sent]. now rewrite app_nil_r.
Qed.

Lemma sent_receive_events L payload c0 c1 : sent (receive_events L payload c0 c1) = [].
Proof.
  unfold receive_events. cbn [sent]. now rewrite sent_app, sent_get_events.
Qed.

Lemma uchar_idem z : uchar (uchar z) = uchar z.
Proof. unfold uchar. apply Z.mod_mod. lia. Qed.

(** *** No state between calls *)

Lemma returned_rng90_init fuel w :
  returned (rng90_init fuel w)
  = (fun r => if decide (r <> RNG90_SelfTest_Success)
              then RNG90_Status_SelfTest_Error else RNG90_Status_Success)
      <$> returned (rng90_selftest fuel RNG90_Run_DRBG_SelfTest w).
Proof.
  unfold rng90_init, bind.
  destruct (rng90_selftest fuel RNG90_Run_DRBG_SelfTest w) as [r w'| |]; try reflexivity.
  cbn [returned fmap option_fmap option_map]. now destruct (decide _).
Qed.

(** *** Where a run ends *)

Lemma ended_bind {A B} (m : M A) (k : A -> M B) w w' :
  ended (bind m k w) = Some w' ->
  (exists a w1, m w = Done a w1 /\ ended (k a w1) = Some w')
  \/ m w = OutOfBounds w'.
Proof.
  unfold bind. destruct (m w) as [a w1|w1|]; cbn [ended]; intros H.
  - left. eauto.
  - right. congruence.
  - discriminate.
Qed.

(** One read with its checksum update puts nothing on the wire. *)
Ltac wire_of_get :=
  unfold wire, history, set_buffer, set_frame, set_crc16, emit, next_get;
  cbn [log rev]; rewrite sent_app; cbn [sent]; apply app_nil_r.

(** Whatever the device sends and however the loop ends, the receive loop
    writes nothing to the bus. *)
Lemma rng90_data_loop_wire fuel : forall i w w',
  ended (rng90_data_loop fuel i w) = Some w' -> wire w' = wire w.
Proof.
  induction fuel as [|fuel IH]; intros i w w'; simpl;
    destruct (decide (i < ulong (f_length (rng90_frame w) - RNG90_CRC_SIZE)));
    cbn [ended]; try discriminate;
    try (intros H; injection H as <-; reflexivity).
  unfold bind at 1. unfold twi_get. unfold bind at 1. unfold crc16_update.
  destruct (decide (i = 0)).
  - unfold bind at 1. unfold put_frame_length. intros H. apply IH in H.
    rewrite H. wire_of_get.
  - unfold bind at 1. unfold store_data.
    destruct (decide _).
    + intros H. apply IH in H. rewrite H. wire_of_get.
    + cbn [ended]. intros H. injection H as <-. wire_of_get.
Qed.

(** The same for the whole of rng90_data. *)
Lemma rng90_data_wire fuel w w' :
  ended (rng90_data fuel w) = Some w' -> wire w' = wire w.
Proof.
  destruct w as [buf fr c rd ack ng ns lg].
  unfold rng90_data. do 5 step.
  intros H. apply ended_bind in H as [(a & w1 & Hloop & H) | Hloop].
  - assert (Hw1 : wire w1 = sent (rev lg)).
    { rewrite (rng90_data_loop_wire fuel 0 _ w1) by (rewrite Hloop; reflexivity).
      unfold wire, history. cbn [log rev]. rewrite !sent_app. cbn [sent].
      now rewrite !app_nil_r. }
    destruct w1 as [buf1 fr1 c1 rd1 ack1 ng1 ns1 lg1].
    revert H. do 5 step.
    unfold wire, history in Hw1. cbn [log] in Hw1.
    destruct (decide _);
      unfold bind, put_frame_status, ret, get_frame; world_simpl; cbn [ended];
      intros H; injection H as <-;
      unfold wire, history; cbn [log rev];
      rewrite !sent_app; cbn [sent]; rewrite !app_nil_r; exact Hw1.
  - rewrite (rng90_data_loop_wire fuel 0 _ w') by (rewrite Hloop; reflexivity).
    unfold wire, history. cbn [log rev]. rewrite !sent_app. cbn [sent].
    now rewrite !app_nil_r.
Qed.

(** The copy loop ends in the world it started from. *)
Lemma copy_out_ended n : forall i0 dst w, ended (copy_out n i0 dst w) = Some w.
Proof.
  induction n as [|n IH]; intros i0 dst w; [reflexivity|].
  cbn [copy_out]. unfold bind at 1. unfold load_buffer.
  unfold bind at 1. unfold store_out.
  destruct (decide _); [apply IH | reflexivity].
Qed.

Lemma wire_settled w body ms :
  wire (settled w body ms) = wire w ++ RNG90_EXECUTE_COMMAND :: command_frame body.
Proof.
  unfold settled. rewrite wire_advance, sent_app, sent_transmit_events.
  cbn [sent]. now rewrite app_nil_r.
Qed.

(** Whatever the device answers, an operation that ends has put the
    execute byte and its command frame on the wire and nothing else. *)
Lemma rng90_selftest_wire fuel test w w' :
  ended (rng90_selftest fuel test w) = Some w' ->
  wire w' = wire w ++ RNG90_EXECUTE_COMMAND :: command_frame (header (selftest_packet test)).
Proof.
  unfold rng90_selftest. settle. intros H.
  rewrite <- wire_settled with (ms := RNG90_SELFTEST_EXECUTION_TIME_MS).
  apply ended_bind in H as [(f & w1 & Hd & H) | Hd].
  - revert H. destruct (decide _); unfold load_buffer, ret; cbn [ended];
      intros H; injection H as <-;
      apply (rng90_data_wire fuel); rewrite Hd; reflexivity.
  - apply (rng90_data_wire fuel). rewrite Hd. reflexivity.
Qed.

Lemma rng90_info_wire fuel info w w' :
  ended (rng90_info fuel info w) = Some w' ->
  wire w' = wire w ++ RNG90_EXECUTE_COMMAND :: command_frame (header info_packet).
Proof.
  unfold rng90_info. settle. intros H.
  rewrite <- wire_settled with (ms := RNG90_INFO_EXECUTION_TIME_MS).
  apply ended_bind in H as [(f & w1 & Hd & H) | Hd].
  - revert H. repeat destruct (decide _); unfold bind, load_buffer, ret; cbn [ended];
      intros H; injection H as <-;
      apply (rng90_data_wire fuel); rewrite Hd; reflexivity.
  - apply (rng90_data_wire fuel). rewrite Hd. reflexivity.
Qed.

Lemma copy_verdict_stays n dst (st : RNG90_Status) w :
  ended (bind (copy_out n 0 dst) (fun dst' => ret (st, dst')) w) = Some w.
Proof.
  pose proof (copy_out_ended n 0 dst w) as Hc.
  unfold bind. destruct (copy_out n 0 dst w); cbn [ended] in *; [|assumption|discriminate].
  unfold ret. cbn [ended]. exact Hc.
Qed.

Lemma rng90_serial_wire fuel serial w w' :
  ended (rng90_serial fuel serial w) = Some w' ->
  wire w' = wire w ++ RNG90_EXECUTE_COMMAND :: command_frame (header serial_packet).
Proof.
  unfold rng90_serial. settle. intros H.
  rewrite <- wire_settled with (ms := RNG90_READ_EXECUTION_TIME_MS).
  apply ended_bind in H as [(f & w1 & Hd & H) | Hd].
  - assert (w' = w1) as ->.
    { revert H. destruct (decide _); [|destruct (decide _)].
      - unfold bind, load_buffer, ret. cbn [ended]. congruence.
      - rewrite copy_verdict_stays. congruence.
      - unfold ret. cbn [ended]. congruence. }
    apply (rng90_data_wire fuel). rewrite Hd. reflexivity.
  - apply (rng90_data_wire fuel). rewrite Hd. reflexivity.
Qed.

Lemma rng90_random_wire fuel numbers w w' :
  (forall k, (k < 20)%nat -> dev_ack w (n_set w + 6 + k) = TWI_None) ->
  ended (rng90_random fuel numbers w) = Some w' ->
  wire w' = wire w ++ RNG90_EXECUTE_COMMAND :: random_frame.
Proof.
  intros Hack. settle_random Hack. intros H.
  unfold random_frame.
  rewrite <- wire_settled with (ms := RNG90_RANDOM_EXECUTION_TIME_MS).
  apply ended_bind in H as [(f & w1 & Hd & H) | Hd].
  - assert (w' = w1) as ->.
    { revert H. destruct (decide _); [|destruct (decide _)].
      - unfold bind, load_buffer, ret. cbn [ended]. congruence.
      - rewrite copy_verdict_stays. congruence.
      - unfold ret. cbn [ended]. congruence. }
    apply (rng90_data_wire fuel). rewrite Hd. reflexivity.
  - apply (rng90_data_wire fuel). rewrite Hd. reflexivity.
Qed.

(** *** How far the overrun reads *)

Lemma rng90_data_loop_overrun_reads fuel i w :
  i < ulong (f_length (rng90_frame w) - RNG90_CRC_SIZE) ->
  i <> 0 ->
  Z.of_nat (length (rng90_buffer w)) <= i - 1 ->
  exists w', rng90_data_loop (S fuel) i w = OutOfBounds w' /\ n_get w' = S (n_get w).
Proof.
  intros Hlt Hi Hk. simpl.
  destruct (decide (i < ulong (f_length (rng90_frame w) - RNG90_CRC_SIZE))); [|contradiction].
  unfold bind at 1. unfold twi_get. unfold bind at 1. unfold crc16_update.
  destruct (decide (i = 0)); [contradiction|].
  unfold bind at 1. unfold store_data. simpl.
  destruct (decide (0 <= i - 1 < Z.of_nat (length (rng90_buffer w)))); [lia|eauto].
Qed.

Lemma rng90_data_loop_overflow_reads n : forall fuel i w,
  (n < fuel)%nat ->
  1 <= i ->
  i + Z.of_nat n <= 255 ->
  i + Z.of_nat n < ulong (f_length (rng90_frame w) - RNG90_CRC_SIZE) ->
  (Z.to_nat (i - 1) + n = length (rng90_buffer w))%nat ->
  exists w', rng90_data_loop fuel i w = OutOfBounds w' /\ n_get w' = (S n + n_get w)%nat.
Proof.
  induction n as [|n IH]; intros fuel i w Hfuel Hi H255 Hlt Hbuf.
  - destruct fuel as [|fuel]; [lia|].
    apply rng90_data_loop_overrun_reads; lia.
  - destruct fuel as [|fuel]; [lia|].
    rewrite rng90_data_loop_trip by lia.
    rewrite uchar_small by lia.
    edestruct (IH fuel (i + 1)) as (w' & Hrun & Hn); cycle 5.
    + exists w'. split; [exact Hrun|]. rewrite Hn. simpl. lia.
    + lia.
    + lia.
    + lia.
    + simpl. lia.
    + simpl. rewrite length_insert. lia.
Qed.

(** With the 87-byte buffer and a length byte below 2 or above 90,
    rng90_data stops at the store to index 87, after the length byte and 88
    further bytes. *)
Lemma rng90_data_out_of_range_reads fuel w :
  length (rng90_buffer w) = 87%nat ->
  uchar (dev_read w (n_get w)) < 2 \/ 90 < uchar (dev_read w (n_get w)) ->
  (88 < fuel)%nat ->
  exists w', rng90_data fuel w = OutOfBounds w' /\ n_get w' = (89 + n_get w)%nat.
Proof.
  intros Hbuf HL Hfuel.
  pose proof (uchar_range (dev_read w (n_get w))) as Hr.
  assert (Hbound : 88 < ulong (uchar (dev_read w (n_get w)) - RNG90_CRC_SIZE)).
  { unfold RNG90_CRC_SIZE. destruct HL as [HL|HL].
    - assert (Hcases : uchar (dev_read w (n_get w)) = 0 \/ uchar (dev_read w (n_get w)) = 1)
        by lia.
      destruct Hcases as [-> | ->]; vm_compute; reflexivity.
    - rewrite ulong_small by lia. lia. }
  destruct fuel as [|fuel]; [lia|].
  destruct w as [buf fr c rd ack ng ns lg]. world_simpl in *.
  unfold rng90_data.
  do 5 step.
  destruct (rng90_data_loop_overflow_reads 87 fuel 1
              (Build_World buf
                 (Build_RNG90_Frame (uchar (rd ng)) RNG90_Data_Status_Invalid)
                 (crc16_feed (crc16_load CRC16_INITIAL_VALUE) (uchar (rd ng)))
                 rd ack (S ng) ns
                 (Ev_get (uchar (rd ng)) TWI_ACK
                    :: Ev_address RNG90_ADDRESS TWI_Read :: Ev_start :: lg)))
    as (w' & Hw' & Hn); world_simpl; try lia.
  exists w'. split.
  - apply bind_OutOfBounds.
    rewrite rng90_data_loop_first by (world_simpl; vm_compute; reflexivity).
    world_simpl. exact Hw'.
  - rewrite Hn. world_simpl. lia.
Qed.

(** The overrun under rng90_random, its filler bytes taken. *)
Lemma rng90_random_overrun fuel numbers w :
  length (rng90_buffer w) = 87%nat ->
  uchar (dev_read w (n_get w)) < 2 \/ 90 < uchar (dev_read w (n_get w)) ->
  (88 < fuel)%nat ->
  (forall k, (k < 20)%nat -> dev_ack w (n_set w + 6 + k) = TWI_None) ->
  exists w', rng90_random fuel numbers w = OutOfBounds w'.
Proof.
  intros Hbuf HL Hfuel Hack.
  settle_random Hack.
  destruct (rng90_data_out_of_range fuel
              (settled w (header random_packet
                            ++ filler_bytes (Z.to_nat RNG90_OPERATION_RANDOM_DATA_SIZE))
                 RNG90_RANDOM_EXECUTION_TIME_MS)) as [w' H]; try assumption.
  exists w'. now apply bind_OutOfBounds.
Qed.

(** *** A refused write in the event history *)

Lemma set_events_lookup ack k bytes j b :
  bytes !! j = Some b ->
  set_events ack k bytes !! j = Some (Ev_set b (ack (k + j)%nat)).
Proof.
  revert k j. induction bytes as [|x bs IH]; intros k j; [discriminate|].
  destruct j as [|j]; simpl.
  - intros H. injection H as ->. now rewrite Nat.add_0_r.
  - intros H. rewrite (IH (S k) j H). do 3 f_equal. lia.
Qed.

(** Write number [j] of a command, [j] below 6, is the execute byte or a
    header byte; its event carries what the device answered. *)
Lemma transmit_events_refused w body j :
  (5 <= length body)%nat ->
  (j < 6)%nat ->
  exists b, Ev_set b (dev_ack w (n_set w + j)) ∈ transmit_events w body.
Proof.
  intros Hbody Hj.
  destruct (lookup_lt_is_Some_2 (RNG90_EXECUTE_COMMAND :: command_frame body) j) as [b Hb].
  { unfold command_frame. cbn [length]. rewrite length_app. cbn [length]. lia. }
  exists b. unfold transmit_events.
  do 2 apply list_elem_of_further. apply elem_of_app. left.
  apply (list_elem_of_lookup_2 _ j).
  now apply set_events_lookup.
Qed.

(** *** The whole exchange of an operation *)

Lemma returned_Done {A} (o : Outcome A) a w' :
  returned o = Some a -> ended o = Some w' -> o = Done a w'.
Proof. destruct o; cbn [returned ended]; congruence. Qed.

(** On a frame that fits: the result, and everything the operation did on
    the bus. *)
Lemma rng90_selftest_exchange fuel test w L payload c0 c1 :
  presents w (L :: payload ++ [c0; c1]) ->
  frame_fits w L payload ->
  (length payload < fuel)%nat ->
  exists w',
    rng90_selftest fuel test w
    = Done (if decide (L = RNG90_STANDARD_FRAME_SIZE /\ frame_valid L payload c0 c1)
            then payload !!! 0%nat else RNG90_SelfTest_Error) w'
    /\ history w' = history w ++ transmit_events w (header (selftest_packet test))
                      ++ Ev_wait_ms RNG90_SELFTEST_EXECUTION_TIME_MS
                         :: receive_events L payload c0 c1.
Proof.
  intros Hp Hfit Hfuel.
  destruct (rng90_data_settled fuel w (header (selftest_packet test))
              RNG90_SELFTEST_EXECUTION_TIME_MS L payload c0 c1 Hp Hfit Hfuel)
    as (w' & Hd & Hh & _).
  exists w'. split; [|exact Hh].
  apply returned_Done; [now apply rng90_selftest_received|].
  unfold rng90_selftest. settle. erewrite bind_Done by exact Hd.
  verdicts; reflexivity.
Qed.

Lemma rng90_info_exchange fuel info w L payload c0 c1 :
  presents w (L :: payload ++ [c0; c1]) ->
  frame_fits w L payload ->
  (length payload < fuel)%nat ->
  exists w',
    rng90_info fuel info w
    = Done (if decide (L = RNG90_STANDARD_FRAME_SIZE /\ frame_valid L payload c0 c1)
            then (payload !!! 0%nat, info)
            else if decide (L = RNG90_INFO_FRAME_SIZE /\ frame_valid L payload c0 c1)
            then (RNG90_Status_Success,
                  Build_RNG90_Info (payload !!! 0%nat) (payload !!! 1%nat)
                                   (payload !!! 2%nat) (payload !!! 3%nat))
            else (RNG90_Status_Other_Error, info)) w'
    /\ history w' = history w ++ transmit_events w (header info_packet)
                      ++ Ev_wait_ms RNG90_INFO_EXECUTION_TIME_MS
                         :: receive_events L payload c0 c1.
Proof.
  intros Hp Hfit Hfuel.
  destruct (rng90_data_settled fuel w (header info_packet)
              RNG90_INFO_EXECUTION_TIME_MS L payload c0 c1 Hp Hfit Hfuel)
    as (w' & Hd & Hh & _).
  exists w'. split; [|exact Hh].
  apply returned_Done; [now apply rng90_info_received|].
  unfold rng90_info. settle. erewrite bind_Done by exact Hd.
  verdicts; reflexivity.
Qed.

Lemma rng90_serial_exchange fuel serial w L payload c0 c1 :
  presents w (L :: payload ++ [c0; c1]) ->
  frame_fits w L payload ->
  (length payload < fuel)%nat ->
  (8 <= length serial)%nat ->
  exists w',
    rng90_serial fuel serial w
    = Done (if decide (L = RNG90_STANDARD_FRAME_SIZE /\ frame_valid L payload c0 c1)
            then (payload !!! 0%nat, serial)
            else if decide (L = RNG90_SERIAL_FRAME_SIZE /\ frame_valid L payload c0 c1)
            then (RNG90_Status_Success, take 8 payload ++ drop 8 serial)
            else (RNG90_Status_Other_Error, serial)) w'
    /\ history w' = history w ++ transmit_events w (header serial_packet)
                      ++ Ev_wait_ms RNG90_READ_EXECUTION_TIME_MS
                         :: receive_events L payload c0 c1.
Proof.
  intros Hp Hfit Hfuel Hser.
  destruct (rng90_data_settled fuel w (header serial_packet)
              RNG90_READ_EXECUTION_TIME_MS L payload c0 c1 Hp Hfit Hfuel)
    as (w' & Hd & Hh & _).
  exists w'. split; [|exact Hh].
  apply returned_Done; [apply rng90_serial_received; auto|].
  unfold rng90_serial. settle. erewrite bind_Done by exact Hd.
  verdicts; first [reflexivity | apply copy_verdict_stays].
Qed.

Lemma rng90_random_exchange fuel numbers w L payload c0 c1 :
  (forall k, (k < 20)%nat -> dev_ack w (n_set w + 6 + k) = TWI_None) ->
  presents w (L :: payload ++ [c0; c1]) ->
  frame_fits w L payload ->
  (length payload < fuel)%nat ->
  (32 <= length numbers)%nat ->
  exists w',
    rng90_random fuel numbers w
    = Done (if decide (L = RNG90_STANDARD_FRAME_SIZE /\ frame_valid L payload c0 c1)
            then (payload !!! 0%nat, numbers)
            else if decide (L = RNG90_NUMBER_FRAME_SIZE /\ frame_valid L payload c0 c1)
            then (RNG90_Status_Success, take 32 payload ++ drop 32 numbers)
            else (RNG90_Status_Other_Error, numbers)) w'
    /\ history w' = history w
                      ++ transmit_events w (header random_packet ++ filler_bytes 20)
                      ++ Ev_wait_ms RNG90_RANDOM_EXECUTION_TIME_MS
                         :: receive_events L payload c0 c1.
Proof.
  intros Hack Hp Hfit Hfuel Hnum.
  destruct (rng90_data_settled fuel w
              (header random_packet ++ filler_bytes (Z.to_nat RNG90_OPERATION_RANDOM_DATA_SIZE))
              RNG90_RANDOM_EXECUTION_TIME_MS L payload c0 c1 Hp Hfit Hfuel)
    as (w' & Hd & Hh & _).
  exists w'. split; [|exact Hh].
  apply returned_Done; [apply rng90_random_received; auto|].
  settle_random Hack. erewrite bind_Done by exact Hd.
  verdicts; first [reflexivity | apply copy_verdict_stays].
Qed.

(** ** The claims *)

(** C1 on the code.  (1) For every frame the receiver can take into
    rng90_buffer (declared length [L], [max (L - 3) 0] payload bytes, two
    checksum bytes) rng90_info, rng90_serial and rng90_random classify as
    the claim says: if [L = 4] and the checksum matches, the payload byte
    comes back as the status and the caller's object is untouched; else if
    [L] is the expected length of the operation (7, 19, 35) and the
    checksum matches, the payload is extracted (the four Device Info
    fields in order, the first 8 payload bytes as the serial, exactly 32
    random bytes at the head of the caller's buffer) and the status is
    Success; in every other case the status is RNG90_Status_Other_Error.
    For rng90_random the frame is only read after all twenty filler bytes
    were acknowledged.  (2) The claim's every other case also covers a
    length byte below 2 or above 90, which a released bus (0xFF) delivers.
    There the code returns no status at all: in any world [wx] with the
    87-byte rng90_buffer and such a length byte, each of the three
    operations ends in the store outside rng90_buffer. *)
Theorem C1_frame_classification fuel w L payload c0 c1 info serial numbers wx :
  presents w (L :: payload ++ [c0; c1]) ->
  frame_fits w L payload ->
  (length payload < fuel)%nat ->
  (8 <= length serial)%nat ->
  (32 <= length numbers)%nat ->
  (forall k, (k < 20)%nat -> dev_ack w (n_set w + 6 + k) = TWI_None) ->
  length (rng90_buffer wx) = 87%nat ->
  uchar (dev_read wx (n_get wx)) < 2 \/ 90 < uchar (dev_read wx (n_get wx)) ->
  (88 < fuel)%nat ->
  (forall k, (k < 20)%nat -> dev_ack wx (n_set wx + 6 + k) = TWI_None) ->
  (returned (rng90_info fuel info w) =
     Some (if decide (L = 4 /\ frame_valid L payload c0 c1)
           then (payload !!! 0%nat, info)
           else if decide (L = 7 /\ frame_valid L payload c0 c1)
           then (RNG90_Status_Success,
                 Build_RNG90_Info (payload !!! 0%nat) (payload !!! 1%nat)
                                  (payload !!! 2%nat) (payload !!! 3%nat))
           else (RNG90_Status_Other_Error, info))
   /\ returned (rng90_serial fuel serial w) =
     Some (if decide (L = 4 /\ frame_valid L payload c0 c1)
           then (payload !!! 0%nat, serial)
           else if decide (L = 19 /\ frame_valid L payload c0 c1)
           then (RNG90_Status_Success, take 8 payload ++ drop 8 serial)
           else (RNG90_Status_Other_Error, serial))
   /\ returned (rng90_random fuel numbers w) =
     Some (if decide (L = 4 /\ frame_valid L payload c0 c1)
           then (payload !!! 0%nat, numbers)
           else if decide (L = 35 /\ frame_valid L payload c0 c1)
           then (RNG90_Status_Success, take 32 payload ++ drop 32 numbers)
           else (RNG90_Status_Other_Error, numbers)))
  /\ (exists w', rng90_info fuel info wx = OutOfBounds w')
  /\ (exists w', rng90_serial fuel serial wx = OutOfBounds w')
  /\ (exists w', rng90_random fuel numbers wx = OutOfBounds w').
Proof.
  intros Hp Hfit Hfuel Hser Hnum Hack Hbufx HLx Hfuelx Hackx.
  destruct (command_operations_overrun fuel wx Hbufx HLx Hfuelx) as (_ & _ & Hinfo & Hserial).
  split; [repeat split|].
  - now apply rng90_info_received.
  - apply rng90_serial_received; auto.
  - apply rng90_random_received; auto.
  - split; [apply Hinfo|]. split; [apply Hserial|].
    now apply rng90_random_overrun.
Qed.

(** C2 on the code.  Only the filler loop of rng90_random looks at what
    twi_set returns (C6); rng90_write and rng90_command drop it.  When the
    device refuses write number [j] of a command, the execute byte or one
    of the five header bytes, each operation goes on as if nothing had
    happened: it sends the rest of the command, waits the settle time,
    reads the frame and returns what the frame says.  The refused write is
    in the history of the call, followed by the delay and the read
    transaction.  So on a valid 35-byte frame rng90_random returns
    RNG90_Status_Success although a write of its command failed. *)
Theorem C2_write_failure_goes_unnoticed fuel test info serial numbers w L payload c0 c1 j :
  (j < 6)%nat ->
  dev_ack w (n_set w + j) <> TWI_None ->
  (forall k, (k < 20)%nat -> dev_ack w (n_set w + 6 + k) = TWI_None) ->
  presents w (L :: payload ++ [c0; c1]) ->
  frame_fits w L payload ->
  (length payload < fuel)%nat ->
  (8 <= length serial)%nat ->
  (32 <= length numbers)%nat ->
  (exists b w',
     rng90_random fuel numbers w
     = Done (if decide (L = 4 /\ frame_valid L payload c0 c1)
             then (payload !!! 0%nat, numbers)
             else if decide (L = 35 /\ frame_valid L payload c0 c1)
             then (RNG90_Status_Success, take 32 payload ++ drop 32 numbers)
             else (RNG90_Status_Other_Error, numbers)) w'
     /\ Ev_set b (dev_ack w (n_set w + j))
          ∈ transmit_events w (header random_packet ++ filler_bytes 20)
     /\ history w' = history w
                       ++ transmit_events w (header random_packet ++ filler_bytes 20)
                       ++ Ev_wait_ms 75 :: receive_events L payload c0 c1)
  /\ (exists b w',
        rng90_selftest fuel test w
        = Done (if decide (L = 4 /\ frame_valid L payload c0 c1)
                then payload !!! 0%nat else RNG90_SelfTest_Error) w'
        /\ Ev_set b (dev_ack w (n_set w + j))
             ∈ transmit_events w (header (selftest_packet test))
        /\ history w' = history w ++ transmit_events w (header (selftest_packet test))
                          ++ Ev_wait_ms 32 :: receive_events L payload c0 c1)
  /\ (exists b w',
        rng90_info fuel info w
        = Done (if decide (L = 4 /\ frame_valid L payload c0 c1)
                then (payload !!! 0%nat, info)
                else if decide (L = 7 /\ frame_valid L payload c0 c1)
                then (RNG90_Status_Success,
                      Build_RNG90_Info (payload !!! 0%nat) (payload !!! 1%nat)
                                       (payload !!! 2%nat) (payload !!! 3%nat))
                else (RNG90_Status_Other_Error, info)) w'
        /\ Ev_set b (dev_ack w (n_set w + j)) ∈ transmit_events w (header info_packet)
        /\ history w' = history w ++ transmit_events w (header info_packet)
                          ++ Ev_wait_ms 1 :: receive_events L payload c0 c1)
  /\ (exists b w',
        rng90_serial fuel serial w
        = Done (if decide (L = 4 /\ frame_valid L payload c0 c1)
                then (payload !!! 0%nat, serial)
                else if decide (L = 19 /\ frame_valid L payload c0 c1)
                then (RNG90_Status_Success, take 8 payload ++ drop 8 serial)
                else (RNG90_Status_Other_Error, serial)) w'
        /\ Ev_set b (dev_ack w (n_set w + j)) ∈ transmit_events w (header serial_packet)
        /\ history w' = history w ++ transmit_events w (header serial_packet)
                          ++ Ev_wait_ms 1 :: receive_events L payload c0 c1).
Proof.
  intros Hj Hnack Hack Hp Hfit Hfuel Hser Hnum.
  split; [|split; [|split]].
  - destruct (rng90_random_exchange fuel numbers w L payload c0 c1 Hack Hp Hfit Hfuel Hnum)
      as (w' & Hrun & Hh).
    destruct (transmit_events_refused w (header random_packet ++ filler_bytes 20) j)
      as [b Hb]; [simpl; lia | exact Hj |].
    exists b, w'. split; [exact Hrun|]. split; [exact Hb | exact Hh].
  - destruct (rng90_selftest_exchange fuel test w L payload c0 c1 Hp Hfit Hfuel)
      as (w' & Hrun & Hh).
    destruct (transmit_events_refused w (header (selftest_packet test)) j)
      as [b Hb]; [simpl; lia | exact Hj |].
    exists b, w'. split; [exact Hrun|]. split; [exact Hb | exact Hh].
  - destruct (rng90_info_exchange fuel info w L payload c0 c1 Hp Hfit Hfuel)
      as (w' & Hrun & Hh).
    destruct (transmit_events_refused w (header info_packet) j)
      as [b Hb]; [simpl; lia | exact Hj |].
    exists b, w'. split; [exact Hrun|]. split; [exact Hb | exact Hh].
  - destruct (rng90_serial_exchange fuel serial w L payload c0 c1 Hp Hfit Hfuel Hser)
      as (w' & Hrun & Hh).
    destruct (transmit_events_refused w (header serial_packet) j)
      as [b Hb]; [simpl; lia | exact Hj |].
    exists b, w'. split; [exact Hrun|]. split; [exact Hb | exact Hh].
Qed.

(** C3 on the code.  (1) A frame that fits rng90_buffer and whose two
    checksum bytes do not match the checksum accumulated over the length
    byte and the payload makes rng90_info, rng90_serial and rng90_random
    return RNG90_Status_Other_Error and rng90_selftest return
    RNG90_SelfTest_Error (the same value, 0xFF), whatever the declared
    length [L], 4 and the expected lengths included; the caller's object
    is left as it was.  (2) Regardless of the declared length it is not:
    when the length byte is below 2 or above 90, whatever bytes follow it,
    no operation gets as far as the checksum.  In any world [wx] with the
    87-byte rng90_buffer and such a length byte each of the four
    operations ends in the store outside rng90_buffer and returns
    nothing. *)
Theorem C3_invalid_frame_is_other_error
    fuel w L payload c0 c1 test info serial numbers wx :
  presents w (L :: payload ++ [c0; c1]) ->
  frame_fits w L payload ->
  (length payload < fuel)%nat ->
  (forall k, (k < 20)%nat -> dev_ack w (n_set w + 6 + k) = TWI_None) ->
  ~ frame_valid L payload c0 c1 ->
  length (rng90_buffer wx) = 87%nat ->
  uchar (dev_read wx (n_get wx)) < 2 \/ 90 < uchar (dev_read wx (n_get wx)) ->
  (88 < fuel)%nat ->
  (forall k, (k < 20)%nat -> dev_ack wx (n_set wx + 6 + k) = TWI_None) ->
  (returned (rng90_info fuel info w) = Some (RNG90_Status_Other_Error, info)
   /\ returned (rng90_serial fuel serial w) = Some (RNG90_Status_Other_Error, serial)
   /\ returned (rng90_random fuel numbers w) = Some (RNG90_Status_Other_Error, numbers)
   /\ returned (rng90_selftest fuel test w) = Some RNG90_SelfTest_Error
   /\ RNG90_SelfTest_Error = RNG90_Status_Other_Error)
  /\ (exists w', rng90_info fuel info wx = OutOfBounds w')
  /\ (exists w', rng90_serial fuel serial wx = OutOfBounds w')
  /\ (exists w', rng90_random fuel numbers wx = OutOfBounds w')
  /\ (exists w', rng90_selftest fuel test wx = OutOfBounds w').
Proof.
  intros Hp Hfit Hfuel Hack Hbad Hbufx HLx Hfuelx Hackx.
  destruct (command_operations_overrun fuel wx Hbufx HLx Hfuelx)
    as (Hselftest & _ & Hinfo & Hserial).
  split; [repeat split|].
  - rewrite (rng90_info_received _ _ _ _ _ _ _ Hp Hfit Hfuel).
    now rewrite !decide_False by tauto.
  - rewrite (rng90_serial_received _ _ _ L payload c0 c1); auto; [|tauto].
    now rewrite !decide_False by tauto.
  - rewrite (rng90_random_received _ _ _ L payload c0 c1); auto; [|tauto].
    now rewrite !decide_False by tauto.
  - rewrite (rng90_selftest_received _ _ _ _ _ _ _ Hp Hfit Hfuel).
    now rewrite decide_False by tauto.
  - split; [apply Hinfo|]. split; [apply Hserial|].
    split; [now apply rng90_random_overrun | apply Hselftest].
Qed.

(** C4 on the code.  (1) For a length byte [L] from 2 on and a payload
    that fits rng90_buffer, rng90_data does what the claim says: it reads
    the length byte first, then exactly [max (L - 3) 0] payload bytes, all
    with acknowledge, into the buffer from index 0, then the low and the
    high checksum byte, the last one with no-acknowledge, and stops; the
    length byte is the first byte of the checksum; the frame comes back
    with the declared length and the verdict of the comparison, and the
    buffer holds the payload either way.  (2) It does not return the pair
    on every path: in any world [wx] with the 87-byte rng90_buffer and a
    length byte below 2 or above 90, rng90_data has read the length byte
    and 88 further bytes, not [L - 3] of them, when it stores outside
    rng90_buffer, and no pair comes back. *)
Theorem C4_frame_receiver fuel w L payload c0 c1 wx :
  presents w (L :: payload ++ [c0; c1]) ->
  frame_fits w L payload ->
  (length payload < fuel)%nat ->
  length (rng90_buffer wx) = 87%nat ->
  uchar (dev_read wx (n_get wx)) < 2 \/ 90 < uchar (dev_read wx (n_get wx)) ->
  (88 < fuel)%nat ->
  let verdict := if decide (c0 + 256 * c1 = checksum (L :: payload))
                 then RNG90_Data_Status_Valid else RNG90_Data_Status_Invalid in
  (exists w',
     rng90_data fuel w = Done (Build_RNG90_Frame L verdict) w'
     /\ history w' = history w
                       ++ Ev_start :: Ev_address RNG90_ADDRESS TWI_Read
                       :: Ev_get L TWI_ACK :: get_events payload
                       ++ [Ev_get c0 TWI_ACK; Ev_get c1 TWI_NACK; Ev_stop]
     /\ Z.of_nat (length payload) = Z.max (L - 3) 0
     /\ rng90_buffer w' = payload ++ drop (length payload) (rng90_buffer w)
     /\ crc16 w' = fold_left crc16_feed payload
                     (crc16_feed (crc16_load CRC16_INITIAL_VALUE) L)
     /\ rng90_frame w' = Build_RNG90_Frame L verdict)
  /\ (exists w',
        rng90_data fuel wx = OutOfBounds w'
        /\ n_get w' = (89 + n_get wx)%nat
        /\ returned (rng90_data fuel wx) = None).
Proof.
  intros Hp Hfit Hfuel Hbufx HLx Hfuelx verdict.
  split.
  - destruct (presents_checksum_range _ _ _ _ _ Hp) as [Hc0 Hc1].
    pose proof Hfit as (HL & Hlen & Hbuf).
    rewrite (rng90_data_frame fuel w L payload c0 c1) by assumption.
    rewrite (assemble_little_endian c0 c1) by assumption.
    fold verdict.
    eexists. split; [reflexivity|].
    split; [rewrite history_advance; reflexivity|].
    split; [lia|]. repeat split.
  - destruct (rng90_data_out_of_range_reads fuel wx Hbufx HLx Hfuelx) as (w' & Hrun & Hn).
    exists w'. split; [exact Hrun|]. split; [exact Hn|]. now rewrite Hrun.
Qed.

(** C5.  The count byte on the bus.  rng90_selftest, rng90_info and
    rng90_serial each put the execute byte and then a frame of seven bytes
    on the bus whose first byte, the count, is 7: on a frame that fits
    they return having sent exactly that, and whatever the device answers
    and however the call ends, that is what is on the wire.  They hand
    rng90_command a packet with count 0, which rng90_write makes 7.
    rng90_random starts from count 20; rng90_write makes it 27 = 7 + 20
    and sends it first; with the twenty filler bytes acknowledged the
    frame on the bus has 27 bytes, the first of them 27, again whatever
    the device answers. *)
Theorem C5_count_at_transmission fuel numbers serial info test w L payload c0 c1 :
  (forall k, (k < 20)%nat -> dev_ack w (n_set w + 6 + k) = TWI_None) ->
  presents w (L :: payload ++ [c0; c1]) ->
  frame_fits w L payload ->
  (length payload < fuel)%nat ->
  (32 <= length numbers)%nat ->
  (8 <= length serial)%nat ->
  (exists r w' rest,
     rng90_selftest fuel test w = Done r w'
     /\ wire w' = wire w ++ RNG90_EXECUTE_COMMAND :: 7 :: rest
     /\ Z.of_nat (length (7 :: rest)) = 7)
  /\ (exists r w' rest,
        rng90_info fuel info w = Done r w'
        /\ wire w' = wire w ++ RNG90_EXECUTE_COMMAND :: 7 :: rest
        /\ Z.of_nat (length (7 :: rest)) = 7)
  /\ (exists r w' rest,
        rng90_serial fuel serial w = Done r w'
        /\ wire w' = wire w ++ RNG90_EXECUTE_COMMAND :: 7 :: rest
        /\ Z.of_nat (length (7 :: rest)) = 7)
  /\ (forall fuel' w0 w',
        ended (rng90_selftest fuel' test w0) = Some w'
        \/ ended (rng90_info fuel' info w0) = Some w'
        \/ ended (rng90_serial fuel' serial w0) = Some w' ->
        exists rest,
          wire w' = wire w0 ++ RNG90_EXECUTE_COMMAND :: 7 :: rest
          /\ Z.of_nat (length (7 :: rest)) = 7)
  /\ (forall p, p ∈ [selftest_packet test; info_packet; serial_packet] ->
     exists p' w' rest,
       rng90_command p w = Done p' w'
       /\ count p' = 7
       /\ wire w' = wire w ++ RNG90_EXECUTE_COMMAND :: count p' :: rest
       /\ Z.of_nat (length (count p' :: rest)) = count p')
  /\ (exists p' w',
       rng90_write random_packet w = Done p' w'
       /\ count p' = 7 + RNG90_OPERATION_RANDOM_DATA_SIZE
       /\ count p' = 27
       /\ wire w' = wire w ++ [RNG90_EXECUTE_COMMAND; count p'; RNG90_OPERATION_RANDOM; 0; 0; 0])
  /\ (exists r w' rest,
       rng90_random fuel numbers w = Done r w'
       /\ wire w' = wire w ++ RNG90_EXECUTE_COMMAND :: 27 :: rest
       /\ Z.of_nat (length (27 :: rest)) = 27)
  /\ (forall fuel' w0 w',
        (forall k, (k < 20)%nat -> dev_ack w0 (n_set w0 + 6 + k) = TWI_None) ->
        ended (rng90_random fuel' numbers w0) = Some w' ->
        exists rest,
          wire w' = wire w0 ++ RNG90_EXECUTE_COMMAND :: 27 :: rest
          /\ Z.of_nat (length (27 :: rest)) = 27).
Proof.
  intros Hack Hp Hfit Hfuel Hnum Hser.
  assert (Hst : forall t, header (selftest_packet t)
                          = 7 :: [0x77; RNG90_Run_SelfTest_value t; 0; 0])
    by (intros t; destruct t; reflexivity).
  split; [|split; [|split; [|split; [|split; [|split; [|split]]]]]].
  - destruct (rng90_selftest_exchange fuel test w L payload c0 c1 Hp Hfit Hfuel)
      as (w' & Hrun & _).
    eexists _, w', _. split; [exact Hrun|]. split.
    + rewrite (rng90_selftest_wire fuel test w w') by (rewrite Hrun; reflexivity).
      rewrite Hst. reflexivity.
    + reflexivity.
  - destruct (rng90_info_exchange fuel info w L payload c0 c1 Hp Hfit Hfuel)
      as (w' & Hrun & _).
    eexists _, w', _. split; [exact Hrun|]. split.
    + rewrite (rng90_info_wire fuel info w w') by (rewrite Hrun; reflexivity).
      reflexivity.
    + reflexivity.
  - destruct (rng90_serial_exchange fuel serial w L payload c0 c1 Hp Hfit Hfuel Hser)
      as (w' & Hrun & _).
    eexists _, w', _. split; [exact Hrun|]. split.
    + rewrite (rng90_serial_wire fuel serial w w') by (rewrite Hrun; reflexivity).
      reflexivity.
    + reflexivity.
  - intros fuel' w0 w' [H | [H | H]].
    + rewrite (rng90_selftest_wire _ _ _ _ H), Hst. eexists. split; reflexivity.
    + rewrite (rng90_info_wire _ _ _ _ H). eexists. split; reflexivity.
    + rewrite (rng90_serial_wire _ _ _ _ H). eexists. split; reflexivity.
  - intros p Hin.
    destruct (rng90_command_wire p w) as (p' & w' & Hrun & Hcount & Hwire & _).
    assert (Hp0 : count p = 0).
    { repeat (apply elem_of_cons in Hin as [-> | Hin]; [reflexivity|]).
      inversion Hin. }
    rewrite Hp0 in Hcount. change (uchar (0 + 7)) with 7 in Hcount.
    exists p', w'. eexists. split; [exact Hrun|]. split; [exact Hcount|].
    split.
    + rewrite Hwire. unfold command_frame, header, counted, RNG90_Packet_bytes.
      cbn [take count app]. rewrite Hp0, Hcount. reflexivity.
    + rewrite Hcount. reflexivity.
  - rewrite rng90_write_run. eexists. eexists. split; [reflexivity|].
    split; [reflexivity|]. split; [reflexivity|].
    rewrite wire_advance. cbn [sent]. now rewrite sent_set_events.
  - destruct (rng90_random_run fuel numbers w L payload c0 c1) as (r & w' & Hrun & Hwire & _);
      auto.
    exists r, w'. eexists. split; [exact Hrun|]. split.
    + rewrite Hwire. reflexivity.
    + reflexivity.
  - intros fuel' w0 w' Hack0 H.
    rewrite (rng90_random_wire _ _ _ _ Hack0 H). eexists. split; reflexivity.
Qed.

(** C6.  A refused filler byte makes rng90_random return
    RNG90_Status_TWI_Error with [numbers] as it was; and on every path on
    which rng90_random returns something else than RNG90_Status_Success,
    whatever the device did, [numbers] is as it was. *)
Theorem C6_bus_error_keeps_numbers fuel numbers w k :
  (k < 20)%nat ->
  (forall j, (j < k)%nat -> dev_ack w (n_set w + 6 + j) = TWI_None) ->
  dev_ack w (n_set w + 6 + k) <> TWI_None ->
  returned (rng90_random fuel numbers w) = Some (RNG90_Status_TWI_Error, numbers)
  /\ (forall fuel' w0 st numbers' w',
        rng90_random fuel' numbers w0 = Done (st, numbers') w' ->
        st <> RNG90_Status_Success ->
        numbers' = numbers).
Proof.
  intros Hk Hack Hnack. split.
  - now rewrite (rng90_random_nacked fuel numbers w k).
  - intros fuel' w0 st numbers' w' Hrun Hst.
    destruct (rng90_random_numbers _ _ _ _ _ _ Hrun); [assumption|contradiction].
Qed.

(** C7.  rng90_init runs rng90_selftest(RNG90_Run_DRBG_SelfTest) once and
    maps its result [r]: RNG90_Status_Success when [r] is
    RNG90_SelfTest_Success (0x00), RNG90_Status_SelfTest_Error for every
    other value; [r] is the status byte of a valid 4-byte frame and
    RNG90_SelfTest_Error otherwise. *)
Theorem C7_init_maps_selftest fuel w L payload c0 c1 :
  presents w (L :: payload ++ [c0; c1]) ->
  frame_fits w L payload ->
  (length payload < fuel)%nat ->
  let r := if decide (L = 4 /\ frame_valid L payload c0 c1)
           then payload !!! 0%nat else RNG90_SelfTest_Error in
  returned (rng90_selftest fuel RNG90_Run_DRBG_SelfTest w) = Some r
  /\ returned (rng90_init fuel w) =
     Some (if decide (r = RNG90_SelfTest_Success)
           then RNG90_Status_Success else RNG90_Status_SelfTest_Error)
  /\ (forall w', rng90_selftest fuel RNG90_Run_DRBG_SelfTest w = Done r w' ->
                 rng90_init fuel w =
                 Done (if decide (r = RNG90_SelfTest_Success)
                       then RNG90_Status_Success else RNG90_Status_SelfTest_Error) w').
Proof.
  intros Hp Hfit Hfuel r.
  pose proof (rng90_selftest_received fuel RNG90_Run_DRBG_SelfTest w L payload c0 c1
                Hp Hfit Hfuel) as Hst.
  fold r in Hst.
  assert (Hcomp : forall w', rng90_selftest fuel RNG90_Run_DRBG_SelfTest w = Done r w' ->
            rng90_init fuel w =
            Done (if decide (r = RNG90_SelfTest_Success)
                  then RNG90_Status_Success else RNG90_Status_SelfTest_Error) w').
  { intros w' Hrun. unfold rng90_init. rewrite (bind_Done _ _ _ _ _ Hrun).
    destruct (decide (r <> RNG90_SelfTest_Success)), (decide (r = RNG90_SelfTest_Success));
      try reflexivity; contradiction. }
  split; [exact Hst|]. split; [|exact Hcomp].
  destruct (rng90_selftest fuel RNG90_Run_DRBG_SelfTest w) as [r' w'| |] eqn:Hrun;
    try discriminate Hst.
  injection Hst as ->. now rewrite (Hcomp w').
Qed.


(** C9.  The receive loop against the 87 bytes of rng90_buffer.  A length
    byte below 2 makes the bound [L - 2UL] wrap to a huge unsigned long,
    a length byte above 90 is a bound above 88: either way [i] reaches
    88, and the store to index 87 is outside the array.  This holds for
    every world with the 87-byte buffer and for every amount of fuel that
    lets the loop get there. *)
Theorem C9_receive_loop_overruns_buffer fuel w :
  length (rng90_buffer w) = 87%nat ->
  uchar (dev_read w (n_get w)) < 2 \/ 90 < uchar (dev_read w (n_get w)) ->
  (88 < fuel)%nat ->
  88 < ulong (uchar (dev_read w (n_get w)) - RNG90_CRC_SIZE)
  /\ exists w', rng90_data fuel w = OutOfBounds w'.
Proof.
  intros Hbuf HL Hfuel.
  pose proof (uchar_range (dev_read w (n_get w))) as Hr.
  assert (Hbound : 88 < ulong (uchar (dev_read w (n_get w)) - RNG90_CRC_SIZE)).
  { unfold RNG90_CRC_SIZE. destruct HL as [HL|HL].
    - assert (Hcases : uchar (dev_read w (n_get w)) = 0 \/ uchar (dev_read w (n_get w)) = 1)
        by lia.
      destruct Hcases as [-> | ->]; vm_compute; reflexivity.
    - rewrite ulong_small by lia. lia. }
  split; [exact Hbound|].
  apply rng90_data_overflow; rewrite ?Hbuf; simpl; lia.
Qed.

(** C10.  A valid 4-byte frame hands its payload byte [b] to the caller
    of rng90_info, rng90_serial and rng90_random as the status, as it
    is: whatever byte the device sends is the value returned, whether an
    enumerator of RNG90_Status_t or not, 0xF0 (RNG90_Status_TWI_Error)
    and 0xFF (RNG90_Status_Other_Error) included. *)
Theorem C10_status_byte_passthrough fuel w b c0 c1 info serial numbers :
  presents w ([4; b] ++ [c0; c1]) ->
  frame_valid 4 [b] c0 c1 ->
  (1 <= length (rng90_buffer w))%nat ->
  (1 < fuel)%nat ->
  (forall k, (k < 20)%nat -> dev_ack w (n_set w + 6 + k) = TWI_None) ->
  returned (rng90_info fuel info w) = Some (b, info)
  /\ returned (rng90_serial fuel serial w) = Some (b, serial)
  /\ returned (rng90_random fuel numbers w) = Some (b, numbers).
Proof.
  intros Hp Hv Hbuf Hfuel Hack.
  assert (Hfit : frame_fits w 4 [b]) by (repeat split; simpl; lia).
  repeat split.
  - rewrite (rng90_info_received _ _ _ 4 [b] c0 c1) by (simpl; auto).
    now rewrite decide_True by auto.
  - rewrite (rng90_serial_received _ _ _ 4 [b] c0 c1);
      [| assumption | assumption | simpl; lia | intros [H _]; discriminate H].
    now rewrite decide_True by auto.
  - rewrite (rng90_random_received _ _ _ 4 [b] c0 c1);
      [| assumption | assumption | assumption | simpl; lia | intros [H _]; discriminate H].
    now rewrite decide_True by auto.
Qed.

(** ** Beyond the claims *)

(** X1.  With the 87-byte rng90_buffer and fuel for the longest frame,
    rng90_data returns exactly when the first byte the device sends, the
    length byte, is between 2 and 90; and whenever it returns, the frame
    carries that byte as its length, rng90_frame holds the frame returned,
    [max L 3] bytes were read, nothing was written to the bus and the
    buffer still has 87 bytes. *)
Theorem X1_rng90_data_returns_iff_length_fits fuel w :
  length (rng90_buffer w) = 87%nat ->
  (88 < fuel)%nat ->
  ((exists f w', rng90_data fuel w = Done f w')
   <-> 2 <= uchar (dev_read w (n_get w)) <= 90)
  /\ (forall f w', rng90_data fuel w = Done f w' ->
        f_length f = uchar (dev_read w (n_get w))
        /\ rng90_frame w' = f
        /\ n_get w' = (Z.to_nat (Z.max (uchar (dev_read w (n_get w))) 3) + n_get w)%nat
        /\ n_set w' = n_set w
        /\ wire w' = wire w
        /\ length (rng90_buffer w') = 87%nat).
Proof.
  intros Hbuf Hfuel.
  assert (Honly : forall f w', rng90_data fuel w = Done f w' ->
                    2 <= uchar (dev_read w (n_get w)) <= 90).
  { intros f w' Hrun.
    destruct (decide (2 <= uchar (dev_read w (n_get w)) <= 90)) as [|Hn]; [assumption|].
    destruct (rng90_data_out_of_range fuel w Hbuf) as [w'' Hov]; [lia | lia |].
    congruence. }
  split; [split|].
  - intros (f & w' & Hrun). eauto.
  - intros HL.
    destruct (rng90_data_in_range fuel w Hbuf HL Hfuel) as (f & w' & Hrun & _). eauto.
  - intros f w' Hrun.
    destruct (rng90_data_in_range fuel w Hbuf (Honly _ _ Hrun) Hfuel)
      as (f0 & w0 & Hrun0 & H).
    rewrite Hrun in Hrun0. injection Hrun0 as <- <-. exact H.
Qed.

(** X2.  For a given length byte and payload at most one pair of trailing
    bytes is accepted: if rng90_data finds a frame valid, the same frame
    with another low or another high checksum byte comes back invalid. *)
Theorem X2_rng90_data_one_checksum_validates fuel w1 w2 L payload c0 c1 d0 d1 :
  presents w1 (L :: payload ++ [c0; c1]) ->
  presents w2 (L :: payload ++ [d0; d1]) ->
  frame_fits w1 L payload ->
  frame_fits w2 L payload ->
  (length payload < fuel)%nat ->
  returned (rng90_data fuel w1) = Some (Build_RNG90_Frame L RNG90_Data_Status_Valid) ->
  c0 <> d0 \/ c1 <> d1 ->
  returned (rng90_data fuel w2) = Some (Build_RNG90_Frame L RNG90_Data_Status_Invalid).
Proof.
  intros Hp1 Hp2 (HL & Hlen & Hb1) (_ & _ & Hb2) Hfuel Hv Hdiff.
  destruct (presents_checksum_range _ _ _ _ _ Hp1) as [Hc0 Hc1].
  destruct (presents_checksum_range _ _ _ _ _ Hp2) as [Hd0 Hd1].
  rewrite (rng90_data_frame fuel w1 L payload c0 c1 Hp1) in Hv by assumption.
  rewrite (rng90_data_frame fuel w2 L payload d0 d1 Hp2) by assumption.
  cbn [returned] in *.
  destruct (decide (assemble c0 c1 = checksum (L :: payload))) as [E1|]; [|discriminate Hv].
  destruct (decide (assemble d0 d1 = checksum (L :: payload))) as [E2|]; [|reflexivity].
  exfalso. rewrite assemble_little_endian in E1, E2 by assumption. lia.
Qed.

(** X3.  What rng90_selftest, rng90_info and rng90_serial do on the bus,
    in order, when the device answers with a frame that fits: one write
    transaction (start, address 0x40 for writing, the execute byte, the
    five header bytes, the two checksum bytes, stop), then one delay of
    32 ms, 1 ms and 1 ms, then one read transaction (start, address 0x40
    for reading, the frame, the last byte not acknowledged, stop); and
    nothing else. *)
Theorem X3_command_operations_history fuel test info serial w L payload c0 c1 :
  presents w (L :: payload ++ [c0; c1]) ->
  frame_fits w L payload ->
  (length payload < fuel)%nat ->
  (8 <= length serial)%nat ->
  (exists r w',
     rng90_selftest fuel test w = Done r w'
     /\ history w' = history w ++ transmit_events w (header (selftest_packet test))
                       ++ Ev_wait_ms 32 :: receive_events L payload c0 c1)
  /\ (exists r w',
        rng90_info fuel info w = Done r w'
        /\ history w' = history w ++ transmit_events w (header info_packet)
                          ++ Ev_wait_ms 1 :: receive_events L payload c0 c1)
  /\ (exists r w',
        rng90_serial fuel serial w = Done r w'
        /\ history w' = history w ++ transmit_events w (header serial_packet)
                          ++ Ev_wait_ms 1 :: receive_events L payload c0 c1).
Proof.
  intros Hp Hfit Hfuel Hser. split; [|split].
  - unfold rng90_selftest. settle.
    destruct (rng90_data_settled fuel w (header (selftest_packet test))
                RNG90_SELFTEST_EXECUTION_TIME_MS L payload c0 c1 Hp Hfit Hfuel)
      as (w' & Hd & Hh & _).
    erewrite bind_Done by exact Hd.
    verdicts; unfold load_buffer, ret; eauto.
  - unfold rng90_info. settle.
    destruct (rng90_data_settled fuel w (header info_packet)
                RNG90_INFO_EXECUTION_TIME_MS L payload c0 c1 Hp Hfit Hfuel)
      as (w' & Hd & Hh & _).
    erewrite bind_Done by exact Hd.
    verdicts; unfold bind, load_buffer, ret; eauto.
  - unfold rng90_serial. settle.
    destruct (rng90_data_settled fuel w (header serial_packet)
                RNG90_READ_EXECUTION_TIME_MS L payload c0 c1 Hp Hfit Hfuel)
      as (w' & Hd & Hh & Hb & _).
    erewrite bind_Done by exact Hd.
    destruct Hfit as (HL & Hlen & Hbuf).
    verdicts;
      try match goal with
          | H : L = RNG90_SERIAL_FRAME_SIZE /\ _ |- _ =>
              destruct H as [-> _];
              change (Z.to_nat (RNG90_SERIAL_FRAME_SIZE - 3)) with 16%nat in Hlen;
              change (Z.to_nat RNG90_OPERATION_READ_SERIAL_SIZE) with 8%nat;
              erewrite bind_Done by (eapply copy_out_payload; [exact Hb | lia | lia])
          end;
      unfold bind, load_buffer, ret; eauto.
Qed.

(** X4.  What rng90_random does on the bus, in order, when the twenty
    filler bytes are taken and the device answers with a frame that fits:
    one write transaction with the execute byte, the five header bytes,
    the twenty filler bytes and the two checksum bytes, one delay of
    75 ms, one read transaction that takes the frame; and nothing else. *)
Theorem X4_rng90_random_history fuel numbers w L payload c0 c1 :
  (forall k, (k < 20)%nat -> dev_ack w (n_set w + 6 + k) = TWI_None) ->
  presents w (L :: payload ++ [c0; c1]) ->
  frame_fits w L payload ->
  (length payload < fuel)%nat ->
  (32 <= length numbers)%nat ->
  exists r w',
    rng90_random fuel numbers w = Done r w'
    /\ history w' = history w
                      ++ transmit_events w (header random_packet ++ filler_bytes 20)
                      ++ Ev_wait_ms 75 :: receive_events L payload c0 c1
    /\ n_set w' = (28 + n_set w)%nat.
Proof.
  intros Hack Hp Hfit Hfuel Hnum.
  settle_random Hack.
  destruct (rng90_data_settled fuel w
              (header random_packet ++ filler_bytes (Z.to_nat RNG90_OPERATION_RANDOM_DATA_SIZE))
              RNG90_RANDOM_EXECUTION_TIME_MS L payload c0 c1 Hp Hfit Hfuel)
    as (w' & Hd & Hh & Hb & _ & _ & _ & Hs).
  erewrite bind_Done by exact Hd.
  destruct Hfit as (HL & Hlen & Hbuf).
  verdicts;
    try match goal with
        | H : L = RNG90_NUMBER_FRAME_SIZE /\ _ |- _ =>
            destruct H as [-> _];
            change (Z.to_nat (RNG90_NUMBER_FRAME_SIZE - 3)) with 32%nat in Hlen;
            change (Z.to_nat RNG90_OPERATION_RANDOM_RNG_SIZE) with 32%nat;
            erewrite bind_Done by (eapply copy_out_payload; [exact Hb | lia | lia])
        end;
    unfold bind, load_buffer, ret; eauto.
Qed.

(** X5.  A length byte below 2 or above 90 takes every operation down
    with rng90_data: with the 87-byte buffer none of rng90_selftest,
    rng90_init, rng90_info, rng90_serial and rng90_random (its filler
    bytes taken) returns a status; each ends in the store outside
    rng90_buffer. *)
Theorem X5_operations_overrun fuel test info serial numbers w :
  length (rng90_buffer w) = 87%nat ->
  uchar (dev_read w (n_get w)) < 2 \/ 90 < uchar (dev_read w (n_get w)) ->
  (88 < fuel)%nat ->
  (forall k, (k < 20)%nat -> dev_ack w (n_set w + 6 + k) = TWI_None) ->
  (exists w', rng90_selftest fuel test w = OutOfBounds w')
  /\ (exists w', rng90_init fuel w = OutOfBounds w')
  /\ (exists w', rng90_info fuel info w = OutOfBounds w')
  /\ (exists w', rng90_serial fuel serial w = OutOfBounds w')
  /\ (exists w', rng90_random fuel numbers w = OutOfBounds w').
Proof.
  intros Hbuf HL Hfuel Hack.
  destruct (command_operations_overrun fuel w Hbuf HL Hfuel) as (Hst & Hinit & Hinfo & Hser).
  split; [apply Hst|]. split; [exact Hinit|]. split; [apply Hinfo|]. split; [apply Hser|].
  settle_random Hack.
  destruct (rng90_data_out_of_range fuel
              (settled w (header random_packet
                            ++ filler_bytes (Z.to_nat RNG90_OPERATION_RANDOM_DATA_SIZE))
                 RNG90_RANDOM_EXECUTION_TIME_MS)) as [w' H]; try assumption.
  exists w'. now apply bind_OutOfBounds.
Qed.

(** X6.  rng90_random copies 32 bytes whatever the caller's buffer can
    hold: with a valid 35-byte frame and a buffer of fewer than 32 bytes
    the copy loop stores past the end of the caller's buffer. *)
Theorem X6_rng90_random_needs_32_bytes fuel numbers w payload c0 c1 :
  (forall k, (k < 20)%nat -> dev_ack w (n_set w + 6 + k) = TWI_None) ->
  presents w (35 :: payload ++ [c0; c1]) ->
  frame_fits w 35 payload ->
  (length payload < fuel)%nat ->
  frame_valid 35 payload c0 c1 ->
  (length numbers < 32)%nat ->
  exists w', rng90_random fuel numbers w = OutOfBounds w'.
Proof.
  intros Hack Hp Hfit Hfuel Hv Hshort.
  settle_random Hack.
  destruct (rng90_data_settled fuel w
              (header random_packet ++ filler_bytes (Z.to_nat RNG90_OPERATION_RANDOM_DATA_SIZE))
              RNG90_RANDOM_EXECUTION_TIME_MS 35 payload c0 c1 Hp Hfit Hfuel)
    as (w' & Hd & _).
  erewrite bind_Done by exact Hd.
  rewrite (decide_True (P := frame_valid 35 payload c0 c1)) by assumption.
  cbn [f_length f_status].
  rewrite decide_False by (intros [H _]; discriminate H).
  rewrite decide_True by (split; reflexivity).
  destruct (copy_out_short 32 0 numbers w')
    as [w'' H]; [lia | simpl; lia | simpl; lia |].
  exists w''. now apply bind_OutOfBounds.
Qed.

(** X7.  rng90_serial copies 8 bytes whatever the caller's buffer can
    hold: with a valid 19-byte frame and a buffer of fewer than 8 bytes
    the copy loop stores past the end of the caller's buffer. *)
Theorem X7_rng90_serial_needs_8_bytes fuel serial w payload c0 c1 :
  presents w (19 :: payload ++ [c0; c1]) ->
  frame_fits w 19 payload ->
  (length payload < fuel)%nat ->
  frame_valid 19 payload c0 c1 ->
  (length serial < 8)%nat ->
  exists w', rng90_serial fuel serial w = OutOfBounds w'.
Proof.
  intros Hp Hfit Hfuel Hv Hshort.
  unfold rng90_serial. settle.
  destruct (rng90_data_settled fuel w (header serial_packet)
              RNG90_READ_EXECUTION_TIME_MS 19 payload c0 c1 Hp Hfit Hfuel)
    as (w' & Hd & _).
  erewrite bind_Done by exact Hd.
  rewrite (decide_True (P := frame_valid 19 payload c0 c1)) by assumption.
  cbn [f_length f_status].
  rewrite decide_False by (intros [H _]; discriminate H).
  rewrite decide_True by (split; reflexivity).
  destruct (copy_out_short 8 0 serial w')
    as [w'' H]; [lia | simpl; lia | simpl; lia |].
  exists w''. now apply bind_OutOfBounds.
Qed.

(** X8.  Whatever the device does, a call of rng90_serial that returns
    leaves the caller's buffer with the length it had and with every byte
    from index 8 on as it was, and with all of it as it was unless the
    status is RNG90_Status_Success. *)
Theorem X8_rng90_serial_touches_8_bytes fuel serial w st serial' :
  returned (rng90_serial fuel serial w) = Some (st, serial') ->
  length serial' = length serial
  /\ drop 8 serial' = drop 8 serial
  /\ (st <> RNG90_Status_Success -> serial' = serial).
Proof.
  destruct (rng90_serial fuel serial w) as [[st0 s0] w'| |] eqn:Hrun;
    cbn [returned]; try discriminate.
  intros H. injection H as -> ->. exact (rng90_serial_keeps _ _ _ _ _ _ Hrun).
Qed.

(** X9.  Whatever the device does, bus errors included, a call of
    rng90_random that returns leaves the caller's buffer with the length
    it had and with every byte from index 32 on as it was. *)
Theorem X9_rng90_random_touches_32_bytes fuel numbers w st numbers' :
  returned (rng90_random fuel numbers w) = Some (st, numbers') ->
  length numbers' = length numbers
  /\ drop 32 numbers' = drop 32 numbers.
Proof.
  destruct (rng90_random fuel numbers w) as [[st0 n0] w'| |] eqn:Hrun;
    cbn [returned]; try discriminate.
  intros H. injection H as -> ->. exact (rng90_random_keeps _ _ _ _ _ _ Hrun).
Qed.

(** X10.  Whatever the device does, a call of rng90_info that returns a
    status other than RNG90_Status_Success leaves the caller's structure
    as it was. *)
Theorem X10_rng90_info_writes_on_success_only fuel info w st info' :
  returned (rng90_info fuel info w) = Some (st, info') ->
  st <> RNG90_Status_Success ->
  info' = info.
Proof.
  destruct (rng90_info fuel info w) as [[st0 i0] w'| |] eqn:Hrun;
    cbn [returned]; try discriminate.
  intros H Hst. injection H as -> ->.
  destruct (rng90_info_keeps _ _ _ _ _ _ Hrun) as [Hsame | [Hok _]];
    [exact Hsame | contradiction].
Qed.

(** X11.  rng90_init followed by rng90_random.  The device answers the
    self-test with a 4-byte frame and the random command with a second
    frame: each call takes its own frame off the read stream and sends
    its own bytes (8 for rng90_init, so that the filler bytes of
    rng90_random are the writes 14 to 33 from the start).  rng90_init
    returns RNG90_Status_Success exactly for a valid frame with status
    byte 0; rng90_random classifies the second frame the same way
    whatever rng90_init returned. *)
Theorem X11_init_then_random fuel numbers w b c0 c1 L payload d0 d1 :
  presents w ((4 :: [b] ++ [c0; c1]) ++ L :: payload ++ [d0; d1]) ->
  (1 <= length (rng90_buffer w))%nat ->
  frame_fits w L payload ->
  (1 < fuel)%nat ->
  (length payload < fuel)%nat ->
  (forall k, (k < 20)%nat -> dev_ack w (n_set w + 14 + k) = TWI_None) ->
  (32 <= length numbers)%nat ->
  returned (and_then (rng90_init fuel) (rng90_random fuel numbers) w)
  = Some (if decide (frame_valid 4 [b] c0 c1 /\ b = 0)
          then RNG90_Status_Success else RNG90_Status_SelfTest_Error,
          if decide (L = 4 /\ frame_valid L payload d0 d1)
          then (payload !!! 0%nat, numbers)
          else if decide (L = 35 /\ frame_valid L payload d0 d1)
          then (RNG90_Status_Success, take 32 payload ++ drop 32 numbers)
          else (RNG90_Status_Other_Error, numbers)).
Proof.
  intros Hp Hbuf1 (HL & Hlen & Hbuf) Hfuel1 Hfuel Hack Hnum.
  apply presents_app in Hp as [Hp1 Hp2].
  assert (Hfit1 : frame_fits w 4 [b]) by (repeat split; simpl; lia).
  destruct (rng90_data_settled fuel w (header (selftest_packet RNG90_Run_DRBG_SelfTest))
              RNG90_SELFTEST_EXECUTION_TIME_MS 4 [b] c0 c1 Hp1 Hfit1 Hfuel1)
    as (w1 & Hd & _ & Hb & Hrd & Hak & Hng & Hns).
  change (n_get w1 = (4 + n_get w)%nat) in Hng.
  change (n_set w1 = (8 + n_set w)%nat) in Hns.
  assert (Hst : rng90_selftest fuel RNG90_Run_DRBG_SelfTest w =
                Done (if decide (frame_valid 4 [b] c0 c1) then b else RNG90_SelfTest_Error) w1).
  { unfold rng90_selftest. settle.
    erewrite bind_Done by exact Hd. cbn [f_length f_status].
    destruct (decide (frame_valid 4 [b] c0 c1)) as [Hv|Hv].
    - rewrite decide_True by (split; reflexivity).
      unfold load_buffer. now rewrite Hb.
    - rewrite decide_False by (intros [_ H]; discriminate H). reflexivity. }
  assert (Hinit : rng90_init fuel w =
                  Done (if decide (frame_valid 4 [b] c0 c1 /\ b = 0)
                        then RNG90_Status_Success else RNG90_Status_SelfTest_Error) w1).
  { unfold rng90_init. erewrite bind_Done by exact Hst.
    unfold RNG90_SelfTest_Success, RNG90_SelfTest_Error.
    destruct (decide (frame_valid 4 [b] c0 c1)) as [Hv|Hv].
    - destruct (decide (b <> 0)), (decide (frame_valid 4 [b] c0 c1 /\ b = 0));
        try reflexivity; exfalso; tauto.
    - rewrite decide_True by discriminate.
      rewrite decide_False by tauto. reflexivity. }
  unfold and_then. erewrite bind_Done by exact Hinit.
  rewrite returned_bind_ret.
  rewrite (rng90_random_received fuel numbers w1 L payload d0 d1).
  - reflexivity.
  - intros k Hk. rewrite Hak, Hns, <- (Hack k Hk). f_equal. lia.
  - unfold presents, incoming. rewrite Hrd, Hng. exact Hp2.
  - repeat split; try assumption.
    rewrite Hb, length_app, length_drop. simpl. lia.
  - assumption.
  - intros _. exact Hnum.
Qed.

(** X12.  The bytes rng90_command puts on the bus for a packet whose
    param2 is a 16-bit value: the execute byte 0x03, the count raised by
    7, the opcode, param1, param2 low byte first, and the checksum low
    byte first.  The checksum is the one of the five bytes between the
    execute byte and the checksum; the execute byte is not part of it.
    The packet handed back carries the count sent and that checksum. *)
Theorem X12_rng90_command_frame_layout p w :
  0 <= param2 p < 65536 ->
  exists p' w' p2lo p2hi clo chi,
    rng90_command p w = Done p' w'
    /\ wire w' = wire w ++ [RNG90_EXECUTE_COMMAND; uchar (count p + 7);
                            uchar (opcode p); uchar (param1 p); p2lo; p2hi; clo; chi]
    /\ p2lo + 256 * p2hi = param2 p
    /\ clo + 256 * chi
       = checksum [uchar (count p + 7); uchar (opcode p); uchar (param1 p); p2lo; p2hi]
    /\ crc p' = clo + 256 * chi
    /\ count p' = uchar (count p + 7)
    /\ Forall (fun b => 0 <= b < 256) [p2lo; p2hi; clo; chi].
Proof.
  intros Hp2.
  assert (Hhdr : header p = [uchar (count p + 7); uchar (opcode p); uchar (param1 p);
                             Z.land (param2 p) 255; Z.land (Z.shiftr (param2 p) 8) 255]).
  { unfold header, counted, RNG90_Packet_bytes. cbn [take count opcode param1 param2].
    now rewrite uchar_idem. }
  assert (Hsum : crc_low (checksum (header p)) + 256 * crc_high (checksum (header p))
                 = checksum (header p)).
  { rewrite <- assemble_little_endian by apply crc_bytes_range.
    apply assemble_split, checksum_range. }
  rewrite rng90_command_run.
  exists (Build_RNG90_Packet (uchar (count p + 7)) (opcode p) (param1 p) (param2 p)
            (checksum (header p))).
  eexists.
  exists (Z.land (param2 p) 255), (Z.land (Z.shiftr (param2 p) 8) 255),
         (crc_low (checksum (header p))), (crc_high (checksum (header p))).
  split; [reflexivity|]. split; [|split; [|split; [|split; [|split]]]].
  - rewrite wire_advance. cbn [sent].
    rewrite sent_app, sent_set_events, Hhdr. cbn [sent app]. reflexivity.
  - change 255 with (Z.ones 8). rewrite !Z.land_ones, Z.shiftr_div_pow2 by lia.
    change (2 ^ 8) with 256.
    rewrite (Z.mod_small (param2 p / 256)) by (split; [apply Z.div_pos | apply Z.div_lt_upper_bound]; lia).
    pose proof (Z.div_mod (param2 p) 256). lia.
  - rewrite <- Hhdr. exact Hsum.
  - cbn [crc]. now rewrite Hsum.
  - reflexivity.
  - assert (Hland : forall x, 0 <= Z.land x 255 < 256).
    { intros x. change 255 with (Z.ones 8). rewrite Z.land_ones by lia.
      apply Z.mod_pos_bound. lia. }
    destruct (crc_bytes_range (checksum (header p))) as [[? ?] [? ?]].
    repeat constructor; try apply Hland; assumption.
Qed.

(** X13.  rng90_selftest for each of the three tests.  The test chosen
    goes out as param1 (0x01, 0x20 or 0x21) in a frame of count 7 and
    opcode 0x77 with param2 zero, and changes nothing else: on a frame
    that fits, the result is the status byte of a valid 4-byte frame and
    RNG90_SelfTest_Error for everything else, a valid frame of another
    length included. *)
Theorem X13_rng90_selftest_variants fuel test w L payload c0 c1 :
  presents w (L :: payload ++ [c0; c1]) ->
  frame_fits w L payload ->
  (length payload < fuel)%nat ->
  exists r w',
    rng90_selftest fuel test w = Done r w'
    /\ r = (if decide (L = 4 /\ frame_valid L payload c0 c1)
            then payload !!! 0%nat else RNG90_SelfTest_Error)
    /\ wire w' = wire w ++ RNG90_EXECUTE_COMMAND
                   :: command_frame [7; 0x77; RNG90_Run_SelfTest_value test; 0; 0]
    /\ (L <> 4 -> r = RNG90_SelfTest_Error).
Proof.
  intros Hp Hfit Hfuel.
  assert (Hhdr : header (selftest_packet test)
                 = [7; 0x77; RNG90_Run_SelfTest_value test; 0; 0])
    by (destruct test; reflexivity).
  pose proof (rng90_selftest_received fuel test w L payload c0 c1 Hp Hfit Hfuel) as Hr.
  revert Hr. unfold rng90_selftest. settle.
  destruct (rng90_data_settled fuel w (header (selftest_packet test))
              RNG90_SELFTEST_EXECUTION_TIME_MS L payload c0 c1 Hp Hfit Hfuel)
    as (w' & Hd & Hh & _).
  erewrite bind_Done by exact Hd.
  assert (Hwire : wire w' = wire w ++ RNG90_EXECUTE_COMMAND
                              :: command_frame [7; 0x77; RNG90_Run_SelfTest_value test; 0; 0]).
  { unfold wire. rewrite Hh, !sent_app, sent_transmit_events, Hhdr.
    cbn [sent]. now rewrite sent_receive_events, app_nil_r. }
  match goal with
  | |- returned ?o = _ -> _ => destruct o as [r w2| |] eqn:Hrun
  end; try discriminate.
  intros Hr. injection Hr as ->.
  assert (w2 = w') as ->.
  { revert Hrun. verdicts; unfold load_buffer, ret; intros H; now injection H. }
  eexists. eexists. split; [reflexivity|]. split; [reflexivity|].
  split; [exact Hwire|].
  intros HL4. unfold RNG90_STANDARD_FRAME_SIZE. now rewrite decide_False by tauto.
Qed.

(** X14.  rng90_selftest, rng90_init, rng90_info and rng90_serial keep
    no state between calls and do not look at the acknowledgements of
    their writes: with the 87-byte buffer, two worlds whose devices send
    the same bytes give the same result, whatever rng90_buffer,
    rng90_frame and the CRC register hold on entry, whatever was logged
    before and whatever the device answers to the writes. *)
Theorem X14_command_operations_stateless fuel test info serial w1 w2 :
  length (rng90_buffer w1) = 87%nat ->
  length (rng90_buffer w2) = 87%nat ->
  (88 < fuel)%nat ->
  (8 <= length serial)%nat ->
  (forall n, incoming w1 n = incoming w2 n) ->
  returned (rng90_selftest fuel test w1) = returned (rng90_selftest fuel test w2)
  /\ returned (rng90_init fuel w1) = returned (rng90_init fuel w2)
  /\ returned (rng90_info fuel info w1) = returned (rng90_info fuel info w2)
  /\ returned (rng90_serial fuel serial w1) = returned (rng90_serial fuel serial w2).
Proof.
  intros Hb1 Hb2 Hfuel Hser Hsame.
  assert (HL : uchar (dev_read w1 (n_get w1)) = uchar (dev_read w2 (n_get w2))).
  { specialize (Hsame 1%nat). unfold incoming in Hsame. cbn [stream_from] in Hsame.
    now injection Hsame. }
  assert (Hst : forall t, returned (rng90_selftest fuel t w1)
                          = returned (rng90_selftest fuel t w2)
                /\ returned (rng90_info fuel info w1) = returned (rng90_info fuel info w2)
                /\ returned (rng90_serial fuel serial w1)
                   = returned (rng90_serial fuel serial w2)).
  { intros t.
    destruct (decide (2 <= uchar (dev_read w1 (n_get w1)) <= 90)) as [Hin|Hout].
    - pose proof (presents_own_stream w1 (Z.to_nat (uchar (dev_read w1 (n_get w1)) - 3)))
        as Hp1.
      set (L := uchar (dev_read w1 (n_get w1))) in *.
      set (payload := stream_from (dev_read w1) (S (n_get w1)) (Z.to_nat (L - 3))) in *.
      set (c0 := uchar (dev_read w1 (S (n_get w1) + Z.to_nat (L - 3)))) in *.
      set (c1 := uchar (dev_read w1 (S (S (n_get w1) + Z.to_nat (L - 3))))) in *.
      assert (Hp2 : presents w2 (L :: payload ++ [c0; c1])).
      { unfold presents. rewrite <- Hsame. exact Hp1. }
      assert (Hlen : length payload = Z.to_nat (L - 3)) by apply stream_from_length.
      assert (Hf1 : frame_fits w1 L payload) by (repeat split; lia).
      assert (Hf2 : frame_fits w2 L payload) by (repeat split; lia).
      assert (Hfl : (length payload < fuel)%nat) by lia.
      rewrite (rng90_selftest_received fuel t w1 L payload c0 c1 Hp1 Hf1 Hfl).
      rewrite (rng90_selftest_received fuel t w2 L payload c0 c1 Hp2 Hf2 Hfl).
      rewrite (rng90_info_received fuel info w1 L payload c0 c1 Hp1 Hf1 Hfl).
      rewrite (rng90_info_received fuel info w2 L payload c0 c1 Hp2 Hf2 Hfl).
      rewrite (rng90_serial_received fuel serial w1 L payload c0 c1 Hp1 Hf1 Hfl)
        by (intros _; exact Hser).
      rewrite (rng90_serial_received fuel serial w2 L payload c0 c1 Hp2 Hf2 Hfl)
        by (intros _; exact Hser).
      auto.
    - destruct (command_operations_overrun fuel w1 Hb1) as (Hs1 & _ & Hi1 & Hr1);
        [lia | assumption |].
      destruct (command_operations_overrun fuel w2 Hb2) as (Hs2 & _ & Hi2 & Hr2);
        [rewrite <- HL; lia | assumption |].
      destruct (Hs1 t) as [? ->], (Hs2 t) as [? ->].
      destruct (Hi1 info) as [? ->], (Hi2 info) as [? ->].
      destruct (Hr1 serial) as [? ->], (Hr2 serial) as [? ->].
      auto. }
  destruct (Hst test) as (H1 & H2 & H3).
  split; [exact H1|]. split; [|split; assumption].
  rewrite !returned_rng90_init. now rewrite (proj1 (Hst RNG90_Run_DRBG_SelfTest)).
Qed.

End Properties.

(** ** The theorems at concrete inputs *)

#[local] Existing Instance crc16_poly8005.

Lemma C1_witness :
  presents info_device (7 :: [0; 208; 32; 16] ++ [72; 207])
  /\ frame_fits info_device 7 [0; 208; 32; 16]
  /\ (length [0; 208; 32; 16] < 256)%nat
  /\ (8 <= length (replicate 8 0))%nat
  /\ (32 <= length (replicate 32 0))%nat
  /\ (forall k, (k < 20)%nat ->
        dev_ack info_device (n_set info_device + 6 + k) = TWI_None)
  /\ length (rng90_buffer released_bus) = 87%nat
  /\ (uchar (dev_read released_bus (n_get released_bus)) < 2
      \/ 90 < uchar (dev_read released_bus (n_get released_bus)))
  /\ (88 < 256)%nat
  /\ (forall k, (k < 20)%nat ->
        dev_ack released_bus (n_set released_bus + 6 + k) = TWI_None)
  /\ (returned (rng90_info 256 info0 info_device)
      = Some (RNG90_Status_Success, Build_RNG90_Info 0 208 32 16)
      /\ returned (rng90_serial 256 (replicate 8 0) info_device)
         = Some (RNG90_Status_Other_Error, replicate 8 0)
      /\ returned (rng90_random 256 (replicate 32 0) info_device)
         = Some (RNG90_Status_Other_Error, replicate 32 0))
  /\ (exists w', rng90_info 256 info0 released_bus = OutOfBounds w')
  /\ (exists w', rng90_serial 256 (replicate 8 0) released_bus = OutOfBounds w')
  /\ (exists w', rng90_random 256 (replicate 32 0) released_bus = OutOfBounds w').
Proof.
  assert (H1 : presents info_device (7 :: [0; 208; 32; 16] ++ [72; 207]))
    by (vm_compute; reflexivity).
  assert (H2 : frame_fits info_device 7 [0; 208; 32; 16])
    by (repeat split; vm_compute; congruence || lia).
  assert (H3 : (length [0; 208; 32; 16] < 256)%nat) by (simpl; lia).
  assert (H4 : (8 <= length (replicate 8 0))%nat) by (simpl; lia).
  assert (H5 : (32 <= length (replicate 32 0))%nat) by (simpl; lia).
  assert (H6 : forall k, (k < 20)%nat ->
             dev_ack info_device (n_set info_device + 6 + k) = TWI_None)
    by reflexivity.
  assert (H7 : length (rng90_buffer released_bus) = 87%nat) by reflexivity.
  assert (H8 : uchar (dev_read released_bus (n_get released_bus)) < 2
               \/ 90 < uchar (dev_read released_bus (n_get released_bus)))
    by (right; vm_compute; reflexivity).
  assert (H9 : (88 < 256)%nat) by lia.
  assert (H10 : forall k, (k < 20)%nat ->
              dev_ack released_bus (n_set released_bus + 6 + k) = TWI_None)
    by reflexivity.
  repeat (split; [assumption|]).
  exact (C1_frame_classification 256 _ 7 [0; 208; 32; 16] 72 207 info0
           (replicate 8 0) (replicate 32 0) released_bus
           H1 H2 H3 H4 H5 H6 H7 H8 H9 H10).
Defined.

Lemma C2_witness :
  (1 < 6)%nat
  /\ dev_ack deaf_random_device (n_set deaf_random_device + 1) <> TWI_None
  /\ (forall k, (k < 20)%nat ->
        dev_ack deaf_random_device (n_set deaf_random_device + 6 + k) = TWI_None)
  /\ presents deaf_random_device (35 :: map Z.of_nat (seq 1 32) ++ [42; 186])
  /\ frame_fits deaf_random_device 35 (map Z.of_nat (seq 1 32))
  /\ (length (map Z.of_nat (seq 1 32)) < 256)%nat
  /\ (8 <= length (replicate 8 0))%nat
  /\ (32 <= length (replicate 32 0))%nat
  /\ (exists b w',
        rng90_random 256 (replicate 32 0) deaf_random_device
        = Done (RNG90_Status_Success, map Z.of_nat (seq 1 32)) w'
        /\ Ev_set b (dev_ack deaf_random_device (n_set deaf_random_device + 1))
             ∈ transmit_events deaf_random_device (header random_packet ++ filler_bytes 20)
        /\ history w' = history deaf_random_device
                          ++ transmit_events deaf_random_device
                               (header random_packet ++ filler_bytes 20)
                          ++ Ev_wait_ms 75
                             :: receive_events 35 (map Z.of_nat (seq 1 32)) 42 186)
  /\ (exists b w',
        rng90_selftest 256 RNG90_Run_DRBG_SelfTest deaf_random_device
        = Done RNG90_SelfTest_Error w'
        /\ Ev_set b (dev_ack deaf_random_device (n_set deaf_random_device + 1))
             ∈ transmit_events deaf_random_device
                 (header (selftest_packet RNG90_Run_DRBG_SelfTest))
        /\ history w' = history deaf_random_device
                          ++ transmit_events deaf_random_device
                               (header (selftest_packet RNG90_Run_DRBG_SelfTest))
                          ++ Ev_wait_ms 32
                             :: receive_events 35 (map Z.of_nat (seq 1 32)) 42 186)
  /\ (exists b w',
        rng90_info 256 info0 deaf_random_device
        = Done (RNG90_Status_Other_Error, info0) w'
        /\ Ev_set b (dev_ack deaf_random_device (n_set deaf_random_device + 1))
             ∈ transmit_events deaf_random_device (header info_packet)
        /\ history w' = history deaf_random_device
                          ++ transmit_events deaf_random_device (header info_packet)
                          ++ Ev_wait_ms 1
                             :: receive_events 35 (map Z.of_nat (seq 1 32)) 42 186)
  /\ (exists b w',
        rng90_serial 256 (replicate 8 0) deaf_random_device
        = Done (RNG90_Status_Other_Error, replicate 8 0) w'
        /\ Ev_set b (dev_ack deaf_random_device (n_set deaf_random_device + 1))
             ∈ transmit_events deaf_random_device (header serial_packet)
        /\ history w' = history deaf_random_device
                          ++ transmit_events deaf_random_device (header serial_packet)
                          ++ Ev_wait_ms 1
                             :: receive_events 35 (map Z.of_nat (seq 1 32)) 42 186).
Proof.
  assert (H1 : (1 < 6)%nat) by lia.
  assert (H2 : dev_ack deaf_random_device (n_set deaf_random_device + 1) <> TWI_None)
    by (vm_compute; discriminate).
  assert (H3 : forall k, (k < 20)%nat ->
             dev_ack deaf_random_device (n_set deaf_random_device + 6 + k) = TWI_None)
    by reflexivity.
  assert (H4 : presents deaf_random_device (35 :: map Z.of_nat (seq 1 32) ++ [42; 186]))
    by (vm_compute; reflexivity).
  assert (H5 : frame_fits deaf_random_device 35 (map Z.of_nat (seq 1 32)))
    by (repeat split; vm_compute; congruence || lia).
  assert (H6 : (length (map Z.of_nat (seq 1 32)) < 256)%nat) by (simpl; lia).
  assert (H7 : (8 <= length (replicate 8 0))%nat) by (simpl; lia).
  assert (H8 : (32 <= length (replicate 32 0))%nat) by (simpl; lia).
  repeat (split; [assumption|]).
  exact (C2_write_failure_goes_unnoticed 256 RNG90_Run_DRBG_SelfTest info0
           (replicate 8 0) (replicate 32 0) deaf_random_device 35
           (map Z.of_nat (seq 1 32)) 42 186 1 H1 H2 H3 H4 H5 H6 H7 H8).
Defined.

Lemma C3_witness :
  presents garbled_device (4 :: [0] ++ [3; 153])
  /\ frame_fits garbled_device 4 [0]
  /\ (length [0] < 256)%nat
  /\ (forall k, (k < 20)%nat ->
        dev_ack garbled_device (n_set garbled_device + 6 + k) = TWI_None)
  /\ ~ frame_valid 4 [0] 3 153
  /\ length (rng90_buffer long_garbled_device) = 87%nat
  /\ (uchar (dev_read long_garbled_device (n_get long_garbled_device)) < 2
      \/ 90 < uchar (dev_read long_garbled_device (n_get long_garbled_device)))
  /\ (88 < 256)%nat
  /\ (forall k, (k < 20)%nat ->
        dev_ack long_garbled_device (n_set long_garbled_device + 6 + k) = TWI_None)
  /\ (returned (rng90_info 256 info0 garbled_device) = Some (RNG90_Status_Other_Error, info0)
      /\ returned (rng90_serial 256 [] garbled_device) = Some (RNG90_Status_Other_Error, [])
      /\ returned (rng90_random 256 [] garbled_device) = Some (RNG90_Status_Other_Error, [])
      /\ returned (rng90_selftest 256 RNG90_Run_SHA256_SelfTest garbled_device)
         = Some RNG90_SelfTest_Error
      /\ RNG90_SelfTest_Error = RNG90_Status_Other_Error)
  /\ (exists w', rng90_info 256 info0 long_garbled_device = OutOfBounds w')
  /\ (exists w', rng90_serial 256 [] long_garbled_device = OutOfBounds w')
  /\ (exists w', rng90_random 256 [] long_garbled_device = OutOfBounds w')
  /\ (exists w', rng90_selftest 256 RNG90_Run_SHA256_SelfTest long_garbled_device
                 = OutOfBounds w').
Proof.
  assert (H1 : presents garbled_device (4 :: [0] ++ [3; 153]))
    by (vm_compute; reflexivity).
  assert (H2 : frame_fits garbled_device 4 [0])
    by (repeat split; vm_compute; congruence || lia).
  assert (H3 : (length [0] < 256)%nat) by (simpl; lia).
  assert (H4 : forall k, (k < 20)%nat ->
             dev_ack garbled_device (n_set garbled_device + 6 + k) = TWI_None)
    by reflexivity.
  assert (H5 : ~ frame_valid 4 [0] 3 153) by (vm_compute; discriminate).
  assert (H6 : length (rng90_buffer long_garbled_device) = 87%nat) by reflexivity.
  assert (H7 : uchar (dev_read long_garbled_device (n_get long_garbled_device)) < 2
               \/ 90 < uchar (dev_read long_garbled_device (n_get long_garbled_device)))
    by (right; vm_compute; reflexivity).
  assert (H8 : (88 < 256)%nat) by lia.
  assert (H9 : forall k, (k < 20)%nat ->
             dev_ack long_garbled_device (n_set long_garbled_device + 6 + k) = TWI_None)
    by reflexivity.
  repeat (split; [assumption|]).
  exact (C3_invalid_frame_is_other_error 256 _ 4 [0] 3 153 RNG90_Run_SHA256_SelfTest
           info0 [] [] long_garbled_device H1 H2 H3 H4 H5 H6 H7 H8 H9).
Defined.

Lemma C4_witness :
  presents info_device (7 :: [0; 208; 32; 16] ++ [72; 207])
  /\ frame_fits info_device 7 [0; 208; 32; 16]
  /\ (length [0; 208; 32; 16] < 256)%nat
  /\ length (rng90_buffer short_length_device) = 87%nat
  /\ (uchar (dev_read short_length_device (n_get short_length_device)) < 2
      \/ 90 < uchar (dev_read short_length_device (n_get short_length_device)))
  /\ (88 < 256)%nat
  /\ (exists w',
        rng90_data 256 info_device
        = Done (Build_RNG90_Frame 7 RNG90_Data_Status_Valid) w'
        /\ history w' = history info_device
                          ++ Ev_start :: Ev_address RNG90_ADDRESS TWI_Read
                          :: Ev_get 7 TWI_ACK :: get_events [0; 208; 32; 16]
                          ++ [Ev_get 72 TWI_ACK; Ev_get 207 TWI_NACK; Ev_stop]
        /\ Z.of_nat (length [0; 208; 32; 16]) = Z.max (7 - 3) 0
        /\ rng90_buffer w' = [0; 208; 32; 16] ++ drop (length [0; 208; 32; 16])
                                                   (rng90_buffer info_device)
        /\ crc16 w' = fold_left crc16_feed [0; 208; 32; 16]
                        (crc16_feed (crc16_load CRC16_INITIAL_VALUE) 7)
        /\ rng90_frame w' = Build_RNG90_Frame 7 RNG90_Data_Status_Valid)
  /\ (exists w',
        rng90_data 256 short_length_device = OutOfBounds w'
        /\ n_get w' = (89 + n_get short_length_device)%nat
        /\ returned (rng90_data 256 short_length_device) = None).
Proof.
  assert (H1 : presents info_device (7 :: [0; 208; 32; 16] ++ [72; 207]))
    by (vm_compute; reflexivity).
  assert (H2 : frame_fits info_device 7 [0; 208; 32; 16])
    by (repeat split; vm_compute; congruence || lia).
  assert (H3 : (length [0; 208; 32; 16] < 256)%nat) by (simpl; lia).
  assert (H4 : length (rng90_buffer short_length_device) = 87%nat) by reflexivity.
  assert (H5 : uchar (dev_read short_length_device (n_get short_length_device)) < 2
               \/ 90 < uchar (dev_read short_length_device (n_get short_length_device)))
    by (left; vm_compute; reflexivity).
  assert (H6 : (88 < 256)%nat) by lia.
  repeat (split; [assumption|]).
  exact (C4_frame_receiver 256 info_device 7 [0; 208; 32; 16] 72 207
           short_length_device H1 H2 H3 H4 H5 H6).
Defined.

Lemma C5_witness :
  (forall k, (k < 20)%nat -> dev_ack random_device (n_set random_device + 6 + k) = TWI_None)
  /\ presents random_device (35 :: map Z.of_nat (seq 1 32) ++ [42; 186])
  /\ frame_fits random_device 35 (map Z.of_nat (seq 1 32))
  /\ (length (map Z.of_nat (seq 1 32)) < 256)%nat
  /\ (32 <= length (replicate 32 0))%nat
  /\ (8 <= length (replicate 8 0))%nat
  /\ (exists r w' rest,
        rng90_selftest 256 RNG90_Run_DRBG_SelfTest random_device = Done r w'
        /\ wire w' = wire random_device ++ RNG90_EXECUTE_COMMAND :: 7 :: rest
        /\ Z.of_nat (length (7 :: rest)) = 7)
  /\ (exists r w' rest,
        rng90_info 256 info0 random_device = Done r w'
        /\ wire w' = wire random_device ++ RNG90_EXECUTE_COMMAND :: 7 :: rest
        /\ Z.of_nat (length (7 :: rest)) = 7)
  /\ (exists r w' rest,
        rng90_serial 256 (replicate 8 0) random_device = Done r w'
        /\ wire w' = wire random_device ++ RNG90_EXECUTE_COMMAND :: 7 :: rest
        /\ Z.of_nat (length (7 :: rest)) = 7)
  /\ (forall fuel' w0 w',
        ended (rng90_selftest fuel' RNG90_Run_DRBG_SelfTest w0) = Some w'
        \/ ended (rng90_info fuel' info0 w0) = Some w'
        \/ ended (rng90_serial fuel' (replicate 8 0) w0) = Some w' ->
        exists rest,
          wire w' = wire w0 ++ RNG90_EXECUTE_COMMAND :: 7 :: rest
          /\ Z.of_nat (length (7 :: rest)) = 7)
  /\ (forall p, p ∈ [selftest_packet RNG90_Run_DRBG_SelfTest; info_packet; serial_packet] ->
       exists p' w' rest,
         rng90_command p random_device = Done p' w'
         /\ count p' = 7
         /\ wire w' = wire random_device ++ RNG90_EXECUTE_COMMAND :: count p' :: rest
         /\ Z.of_nat (length (count p' :: rest)) = count p')
  /\ (exists p' w',
       rng90_write random_packet random_device = Done p' w'
       /\ count p' = 7 + RNG90_OPERATION_RANDOM_DATA_SIZE
       /\ count p' = 27
       /\ wire w' = wire random_device
                     ++ [RNG90_EXECUTE_COMMAND; count p'; RNG90_OPERATION_RANDOM; 0; 0; 0])
  /\ (exists r w' rest,
       rng90_random 256 (replicate 32 0) random_device = Done r w'
       /\ wire w' = wire random_device ++ RNG90_EXECUTE_COMMAND :: 27 :: rest
       /\ Z.of_nat (length (27 :: rest)) = 27)
  /\ (forall fuel' w0 w',
        (forall k, (k < 20)%nat -> dev_ack w0 (n_set w0 + 6 + k) = TWI_None) ->
        ended (rng90_random fuel' (replicate 32 0) w0) = Some w' ->
        exists rest,
          wire w' = wire w0 ++ RNG90_EXECUTE_COMMAND :: 27 :: rest
          /\ Z.of_nat (length (27 :: rest)) = 27).
Proof.
  assert (H1 : forall k, (k < 20)%nat ->
             dev_ack random_device (n_set random_device + 6 + k) = TWI_None)
    by reflexivity.
  assert (H2 : presents random_device (35 :: map Z.of_nat (seq 1 32) ++ [42; 186]))
    by (vm_compute; reflexivity).
  assert (H3 : frame_fits random_device 35 (map Z.of_nat (seq 1 32)))
    by (repeat split; vm_compute; congruence || lia).
  assert (H4 : (length (map Z.of_nat (seq 1 32)) < 256)%nat) by (simpl; lia).
  assert (H5 : (32 <= length (replicate 32 0))%nat) by (simpl; lia).
  assert (H6 : (8 <= length (replicate 8 0))%nat) by (simpl; lia).
  repeat (split; [assumption|]).
  exact (C5_count_at_transmission 256 (replicate 32 0) (replicate 8 0) info0
           RNG90_Run_DRBG_SelfTest random_device 35 (map Z.of_nat (seq 1 32)) 42 186
           H1 H2 H3 H4 H5 H6).
Defined.

Lemma C6_witness :
  (3 < 20)%nat
  /\ (forall j, (j < 3)%nat ->
        dev_ack stalling_device (n_set stalling_device + 6 + j) = TWI_None)
  /\ dev_ack stalling_device (n_set stalling_device + 6 + 3) <> TWI_None
  /\ returned (rng90_random 256 [1; 2; 3] stalling_device)
     = Some (RNG90_Status_TWI_Error, [1; 2; 3])
  /\ (forall fuel' w0 st numbers' w',
        rng90_random fuel' [1; 2; 3] w0 = Done (st, numbers') w' ->
        st <> RNG90_Status_Success ->
        numbers' = [1; 2; 3]).
Proof.
  assert (H1 : (3 < 20)%nat) by lia.
  assert (H2 : forall j, (j < 3)%nat ->
             dev_ack stalling_device (n_set stalling_device + 6 + j) = TWI_None).
  { intros j Hj. destruct j as [|[|[|j]]]; [reflexivity | reflexivity | reflexivity | lia]. }
  assert (H3 : dev_ack stalling_device (n_set stalling_device + 6 + 3) <> TWI_None)
    by (vm_compute; discriminate).
  repeat (split; [assumption|]).
  exact (C6_bus_error_keeps_numbers 256 [1; 2; 3] stalling_device 3 H1 H2 H3).
Defined.

Lemma C7_witness :
  presents drbg_fail_device (4 :: [1] ++ [6; 24])
  /\ frame_fits drbg_fail_device 4 [1]
  /\ (length [1] < 256)%nat
  /\ returned (rng90_selftest 256 RNG90_Run_DRBG_SelfTest drbg_fail_device)
     = Some RNG90_SelfTest_Fail_DBRG
  /\ returned (rng90_init 256 drbg_fail_device) = Some RNG90_Status_SelfTest_Error
  /\ (forall w', rng90_selftest 256 RNG90_Run_DRBG_SelfTest drbg_fail_device
                 = Done RNG90_SelfTest_Fail_DBRG w' ->
                 rng90_init 256 drbg_fail_device = Done RNG90_Status_SelfTest_Error w').
Proof.
  assert (H1 : presents drbg_fail_device (4 :: [1] ++ [6; 24]))
    by (vm_compute; reflexivity).
  assert (H2 : frame_fits drbg_fail_device 4 [1])
    by (repeat split; vm_compute; congruence || lia).
  assert (H3 : (length [1] < 256)%nat) by (simpl; lia).
  repeat (split; [assumption|]).
  exact (C7_init_maps_selftest 256 _ 4 [1] 6 24 H1 H2 H3).
Defined.


Lemma C9_witness :
  length (rng90_buffer long_device) = 87%nat
  /\ (uchar (dev_read long_device (n_get long_device)) < 2
      \/ 90 < uchar (dev_read long_device (n_get long_device)))
  /\ (88 < 256)%nat
  /\ 88 < ulong (uchar (dev_read long_device (n_get long_device)) - RNG90_CRC_SIZE)
  /\ exists w', rng90_data 256 long_device = OutOfBounds w'.
Proof.
  assert (H1 : length (rng90_buffer long_device) = 87%nat) by reflexivity.
  assert (H2 : uchar (dev_read long_device (n_get long_device)) < 2
               \/ 90 < uchar (dev_read long_device (n_get long_device)))
    by (right; vm_compute; reflexivity).
  assert (H3 : (88 < 256)%nat) by lia.
  repeat (split; [assumption|]).
  exact (C9_receive_loop_overruns_buffer 256 long_device H1 H2 H3).
Defined.

Lemma C10_witness :
  presents f0_device ([4; 240] ++ [35; 154])
  /\ frame_valid 4 [240] 35 154
  /\ (1 <= length (rng90_buffer f0_device))%nat
  /\ (1 < 256)%nat
  /\ (forall k, (k < 20)%nat -> dev_ack f0_device (n_set f0_device + 6 + k) = TWI_None)
  /\ returned (rng90_info 256 info0 f0_device) = Some (RNG90_Status_TWI_Error, info0)
  /\ returned (rng90_serial 256 [] f0_device) = Some (RNG90_Status_TWI_Error, [])
  /\ returned (rng90_random 256 [] f0_device) = Some (RNG90_Status_TWI_Error, []).
Proof.
  assert (H1 : presents f0_device ([4; 240] ++ [35; 154])) by (vm_compute; reflexivity).
  assert (H2 : @frame_valid crc16_poly8005 4 [240] 35 154) by (vm_compute; reflexivity).
  assert (H3 : (1 <= length (rng90_buffer f0_device))%nat) by (vm_compute; lia).
  assert (H4 : (1 < 256)%nat) by lia.
  assert (H5 : forall k, (k < 20)%nat ->
             dev_ack f0_device (n_set f0_device + 6 + k) = TWI_None)
    by reflexivity.
  repeat (split; [assumption|]).
  exact (C10_status_byte_passthrough 256 _ 240 35 154 info0 [] [] H1 H2 H3 H4 H5).
Defined.

(** ** Further runs *)

(** The overrun at the three smallest length bytes that trigger it: 0 and
    1 through the wrapped bound, 91 through the size of the buffer.  In
    each run the 89th read is the one whose byte is stored at index 87. *)
Example rng90_data_overrun_inputs :
  overran (rng90_data 1000 (bench [0] all_acked)) = Some 89%nat
  /\ overran (rng90_data 1000 (bench [1] all_acked)) = Some 89%nat
  /\ overran (rng90_data 1000 (bench [91] all_acked)) = Some 89%nat
  /\ returned (rng90_info 1000 info0 (bench [91] all_acked)) = None
  /\ ulong (0 - RNG90_CRC_SIZE) = 4294967294.
Proof. repeat split; vm_compute; reflexivity. Qed.

(** The longest frame that fits: length byte 90, 87 payload bytes. *)
Example rng90_data_longest_frame :
  returned (rng90_data 1000 (bench (command_frame (90 :: replicate 87 0)) all_acked))
  = Some (Build_RNG90_Frame 90 RNG90_Data_Status_Valid).
Proof. vm_compute. reflexivity. Qed.

(** rng90_random does not look at the writes of rng90_write either: with
    the count byte of the header refused and a valid random frame coming
    back, it returns RNG90_Status_Success. *)
Example rng90_random_header_nack_unnoticed :
  dev_ack (bench (35 :: map Z.of_nat (seq 1 32) ++ [42; 186]) (refuse 1)) 1 = TWI_General
  /\ returned (rng90_random 256 (replicate 32 0)
                 (bench (35 :: map Z.of_nat (seq 1 32) ++ [42; 186]) (refuse 1)))
     = Some (RNG90_Status_Success, map Z.of_nat (seq 1 32)).
Proof. split; vm_compute; reflexivity. Qed.

(** A device that reports a passed self-test: rng90_selftest returns
    RNG90_SelfTest_Success and rng90_init RNG90_Status_Success. *)
Example rng90_init_on_pass :
  returned (rng90_selftest 256 RNG90_Run_DRBG_SelfTest (bench [4; 0; 3; 152] all_acked))
  = Some RNG90_SelfTest_Success
  /\ returned (rng90_init 256 (bench [4; 0; 3; 152] all_acked)) = Some RNG90_Status_Success.
Proof. split; vm_compute; reflexivity. Qed.

(** A valid 35-byte frame: rng90_random copies the 32 payload bytes and
    nothing else: the caller's 33rd byte stays. *)
Example rng90_random_copies_32 :
  returned (rng90_random 256 (replicate 33 0xEE) random_device)
  = Some (RNG90_Status_Success, map Z.of_nat (seq 1 32) ++ [0xEE]).
Proof. vm_compute. reflexivity. Qed.

(** A status byte that is no enumerator of RNG90_Status_t comes through
    rng90_info as it is. *)
Example rng90_info_unlisted_status :
  returned (rng90_info 256 info0 (bench (command_frame [4; 0x42]) all_acked))
  = Some (0x42, info0)
  /\ 0x42 ∉ RNG90_Status_enumerators.
Proof.
  split; [vm_compute; reflexivity|].
  unfold RNG90_Status_enumerators. intros H.
  repeat (apply elem_of_cons in H as [H|H]; [discriminate H|]).
  inversion H.
Qed.

(** A bus on which every write is refused: rng90_info does not notice and
    returns RNG90_Status_Success. *)
Example rng90_info_every_write_refused :
  (forall n, dev_ack (bench [7; 0; 208; 32; 16; 72; 207] none_acked) n = TWI_General)
  /\ returned (rng90_info 256 info0 (bench [7; 0; 208; 32; 16; 72; 207] none_acked))
     = Some (RNG90_Status_Success, Build_RNG90_Info 0 208 32 16).
Proof. split; [reflexivity | vm_compute; reflexivity]. Qed.

(** No device on the bus: every read is 0xFF, so the length byte is 255.
    No operation returns RNG90_Status_Other_Error; each stops at its 89th
    read, the one whose byte goes to index 87. *)
Example operations_on_released_bus :
  uchar (dev_read released_bus 0) = 255
  /\ returned (rng90_info 256 info0 released_bus) = None
  /\ overran (rng90_info 256 info0 released_bus) = Some 89%nat
  /\ overran (rng90_serial 256 (replicate 8 0) released_bus) = Some 89%nat
  /\ overran (rng90_random 256 (replicate 32 0) released_bus) = Some 89%nat
  /\ overran (rng90_selftest 256 RNG90_Run_DRBG_SelfTest released_bus) = Some 89%nat
  /\ overran (rng90_init 256 released_bus) = Some 89%nat.
Proof. repeat split; vm_compute; reflexivity. Qed.

(** A frame of declared length 100 whose checksum bytes are wrong: the
    operations do not get to the checksum. *)
Example operations_on_long_garbled_frame :
  presents long_garbled_device (100 :: replicate 97 0 ++ [0; 0])
  /\ ~ frame_valid 100 (replicate 97 0) 0 0
  /\ returned (rng90_info 256 info0 long_garbled_device) = None
  /\ overran (rng90_info 256 info0 long_garbled_device) = Some 89%nat
  /\ overran (rng90_selftest 256 RNG90_Run_DRBG_SelfTest long_garbled_device)
     = Some 89%nat.
Proof.
  split; [vm_compute; reflexivity|]. split; [vm_compute; discriminate|].
  repeat split; vm_compute; reflexivity.
Qed.

(** ** Beyond the claims, at concrete inputs *)

Lemma X1_witness :
  length (rng90_buffer info_device) = 87%nat
  /\ (88 < 256)%nat
  /\ ((exists f w', rng90_data 256 info_device = Done f w')
      <-> 2 <= uchar (dev_read info_device (n_get info_device)) <= 90)
  /\ (forall f w', rng90_data 256 info_device = Done f w' ->
        f_length f = uchar (dev_read info_device (n_get info_device))
        /\ rng90_frame w' = f
        /\ n_get w' = (Z.to_nat (Z.max (uchar (dev_read info_device (n_get info_device))) 3)
                       + n_get info_device)%nat
        /\ n_set w' = n_set info_device
        /\ wire w' = wire info_device
        /\ length (rng90_buffer w') = 87%nat).
Proof.
  assert (H1 : length (rng90_buffer info_device) = 87%nat) by reflexivity.
  assert (H2 : (88 < 256)%nat) by lia.
  repeat (split; [assumption|]).
  exact (X1_rng90_data_returns_iff_length_fits 256 info_device H1 H2).
Defined.

Lemma X2_witness :
  presents info_device (7 :: [0; 208; 32; 16] ++ [72; 207])
  /\ presents flipped_info_device (7 :: [0; 208; 32; 16] ++ [72; 206])
  /\ frame_fits info_device 7 [0; 208; 32; 16]
  /\ frame_fits flipped_info_device 7 [0; 208; 32; 16]
  /\ (length [0; 208; 32; 16] < 256)%nat
  /\ returned (rng90_data 256 info_device)
     = Some (Build_RNG90_Frame 7 RNG90_Data_Status_Valid)
  /\ (72 <> 72 \/ 207 <> 206)
  /\ returned (rng90_data 256 flipped_info_device)
     = Some (Build_RNG90_Frame 7 RNG90_Data_Status_Invalid).
Proof.
  assert (H1 : presents info_device (7 :: [0; 208; 32; 16] ++ [72; 207]))
    by (vm_compute; reflexivity).
  assert (H2 : presents flipped_info_device (7 :: [0; 208; 32; 16] ++ [72; 206]))
    by (vm_compute; reflexivity).
  assert (H3 : frame_fits info_device 7 [0; 208; 32; 16])
    by (repeat split; vm_compute; congruence || lia).
  assert (H4 : frame_fits flipped_info_device 7 [0; 208; 32; 16])
    by (repeat split; vm_compute; congruence || lia).
  assert (H5 : (length [0; 208; 32; 16] < 256)%nat) by (simpl; lia).
  assert (H6 : returned (rng90_data 256 info_device)
               = Some (Build_RNG90_Frame 7 RNG90_Data_Status_Valid))
    by (vm_compute; reflexivity).
  assert (H7 : 72 <> 72 \/ 207 <> 206) by (right; lia).
  repeat (split; [assumption|]).
  exact (X2_rng90_data_one_checksum_validates 256 info_device flipped_info_device
           7 [0; 208; 32; 16] 72 207 72 206 H1 H2 H3 H4 H5 H6 H7).
Defined.

Lemma X3_witness :
  presents info_device (7 :: [0; 208; 32; 16] ++ [72; 207])
  /\ frame_fits info_device 7 [0; 208; 32; 16]
  /\ (length [0; 208; 32; 16] < 256)%nat
  /\ (8 <= length (replicate 8 0))%nat
  /\ (exists r w',
        rng90_selftest 256 RNG90_Run_DRBG_SelfTest info_device = Done r w'
        /\ history w' = history info_device
                          ++ transmit_events info_device
                               (header (selftest_packet RNG90_Run_DRBG_SelfTest))
                          ++ Ev_wait_ms 32 :: receive_events 7 [0; 208; 32; 16] 72 207)
  /\ (exists r w',
        rng90_info 256 info0 info_device = Done r w'
        /\ history w' = history info_device
                          ++ transmit_events info_device (header info_packet)
                          ++ Ev_wait_ms 1 :: receive_events 7 [0; 208; 32; 16] 72 207)
  /\ (exists r w',
        rng90_serial 256 (replicate 8 0) info_device = Done r w'
        /\ history w' = history info_device
                          ++ transmit_events info_device (header serial_packet)
                          ++ Ev_wait_ms 1 :: receive_events 7 [0; 208; 32; 16] 72 207).
Proof.
  assert (H1 : presents info_device (7 :: [0; 208; 32; 16] ++ [72; 207]))
    by (vm_compute; reflexivity).
  assert (H2 : frame_fits info_device 7 [0; 208; 32; 16])
    by (repeat split; vm_compute; congruence || lia).
  assert (H3 : (length [0; 208; 32; 16] < 256)%nat) by (simpl; lia).
  assert (H4 : (8 <= length (replicate 8 0))%nat) by (simpl; lia).
  repeat (split; [assumption|]).
  exact (X3_command_operations_history 256 RNG90_Run_DRBG_SelfTest info0 (replicate 8 0)
           info_device 7 [0; 208; 32; 16] 72 207 H1 H2 H3 H4).
Defined.

Lemma X4_witness :
  (forall k, (k < 20)%nat -> dev_ack random_device (n_set random_device + 6 + k) = TWI_None)
  /\ presents random_device (35 :: map Z.of_nat (seq 1 32) ++ [42; 186])
  /\ frame_fits random_device 35 (map Z.of_nat (seq 1 32))
  /\ (length (map Z.of_nat (seq 1 32)) < 256)%nat
  /\ (32 <= length (replicate 32 0))%nat
  /\ exists r w',
       rng90_random 256 (replicate 32 0) random_device = Done r w'
       /\ history w' = history random_device
                         ++ transmit_events random_device
                              (header random_packet ++ filler_bytes 20)
                         ++ Ev_wait_ms 75
                            :: receive_events 35 (map Z.of_nat (seq 1 32)) 42 186
       /\ n_set w' = (28 + n_set random_device)%nat.
Proof.
  assert (H1 : forall k, (k < 20)%nat ->
             dev_ack random_device (n_set random_device + 6 + k) = TWI_None)
    by reflexivity.
  assert (H2 : presents random_device (35 :: map Z.of_nat (seq 1 32) ++ [42; 186]))
    by (vm_compute; reflexivity).
  assert (H3 : frame_fits random_device 35 (map Z.of_nat (seq 1 32)))
    by (repeat split; vm_compute; congruence || lia).
  assert (H4 : (length (map Z.of_nat (seq 1 32)) < 256)%nat) by (simpl; lia).
  assert (H5 : (32 <= length (replicate 32 0))%nat) by (simpl; lia).
  repeat (split; [assumption|]).
  exact (X4_rng90_random_history 256 (replicate 32 0) random_device 35
           (map Z.of_nat (seq 1 32)) 42 186 H1 H2 H3 H4 H5).
Defined.

Lemma X5_witness :
  length (rng90_buffer long_device) = 87%nat
  /\ (uchar (dev_read long_device (n_get long_device)) < 2
      \/ 90 < uchar (dev_read long_device (n_get long_device)))
  /\ (88 < 256)%nat
  /\ (forall k, (k < 20)%nat -> dev_ack long_device (n_set long_device + 6 + k) = TWI_None)
  /\ (exists w', rng90_selftest 256 RNG90_Run_SHA256_SelfTest long_device = OutOfBounds w')
  /\ (exists w', rng90_init 256 long_device = OutOfBounds w')
  /\ (exists w', rng90_info 256 info0 long_device = OutOfBounds w')
  /\ (exists w', rng90_serial 256 (replicate 8 0) long_device = OutOfBounds w')
  /\ (exists w', rng90_random 256 (replicate 32 0) long_device = OutOfBounds w').
Proof.
  assert (H1 : length (rng90_buffer long_device) = 87%nat) by reflexivity.
  assert (H2 : uchar (dev_read long_device (n_get long_device)) < 2
               \/ 90 < uchar (dev_read long_device (n_get long_device)))
    by (right; vm_compute; reflexivity).
  assert (H3 : (88 < 256)%nat) by lia.
  assert (H4 : forall k, (k < 20)%nat ->
             dev_ack long_device (n_set long_device + 6 + k) = TWI_None)
    by reflexivity.
  repeat (split; [assumption|]).
  exact (X5_operations_overrun 256 RNG90_Run_SHA256_SelfTest info0 (replicate 8 0)
           (replicate 32 0) long_device H1 H2 H3 H4).
Defined.

Lemma X6_witness :
  (forall k, (k < 20)%nat -> dev_ack random_device (n_set random_device + 6 + k) = TWI_None)
  /\ presents random_device (35 :: map Z.of_nat (seq 1 32) ++ [42; 186])
  /\ frame_fits random_device 35 (map Z.of_nat (seq 1 32))
  /\ (length (map Z.of_nat (seq 1 32)) < 256)%nat
  /\ frame_valid 35 (map Z.of_nat (seq 1 32)) 42 186
  /\ (length (replicate 31 0) < 32)%nat
  /\ exists w', rng90_random 256 (replicate 31 0) random_device = OutOfBounds w'.
Proof.
  assert (H1 : forall k, (k < 20)%nat ->
             dev_ack random_device (n_set random_device + 6 + k) = TWI_None)
    by reflexivity.
  assert (H2 : presents random_device (35 :: map Z.of_nat (seq 1 32) ++ [42; 186]))
    by (vm_compute; reflexivity).
  assert (H3 : frame_fits random_device 35 (map Z.of_nat (seq 1 32)))
    by (repeat split; vm_compute; congruence || lia).
  assert (H4 : (length (map Z.of_nat (seq 1 32)) < 256)%nat) by (simpl; lia).
  assert (H5 : frame_valid 35 (map Z.of_nat (seq 1 32)) 42 186)
    by (vm_compute; reflexivity).
  assert (H6 : (length (replicate 31 0) < 32)%nat) by (simpl; lia).
  repeat (split; [assumption|]).
  exact (X6_rng90_random_needs_32_bytes 256 (replicate 31 0) random_device
           (map Z.of_nat (seq 1 32)) 42 186 H1 H2 H3 H4 H5 H6).
Defined.

Lemma X7_witness :
  presents serial_device (19 :: map Z.of_nat (seq 1 16) ++ [29; 169])
  /\ frame_fits serial_device 19 (map Z.of_nat (seq 1 16))
  /\ (length (map Z.of_nat (seq 1 16)) < 256)%nat
  /\ frame_valid 19 (map Z.of_nat (seq 1 16)) 29 169
  /\ (length (replicate 7 0) < 8)%nat
  /\ exists w', rng90_serial 256 (replicate 7 0) serial_device = OutOfBounds w'.
Proof.
  assert (H1 : presents serial_device (19 :: map Z.of_nat (seq 1 16) ++ [29; 169]))
    by (vm_compute; reflexivity).
  assert (H2 : frame_fits serial_device 19 (map Z.of_nat (seq 1 16)))
    by (repeat split; vm_compute; congruence || lia).
  assert (H3 : (length (map Z.of_nat (seq 1 16)) < 256)%nat) by (simpl; lia).
  assert (H4 : frame_valid 19 (map Z.of_nat (seq 1 16)) 29 169)
    by (vm_compute; reflexivity).
  assert (H5 : (length (replicate 7 0) < 8)%nat) by (simpl; lia).
  repeat (split; [assumption|]).
  exact (X7_rng90_serial_needs_8_bytes 256 (replicate 7 0) serial_device
           (map Z.of_nat (seq 1 16)) 29 169 H1 H2 H3 H4 H5).
Defined.

Lemma X8_witness :
  returned (rng90_serial 256 (replicate 10 0xEE) serial_device)
  = Some (RNG90_Status_Success, map Z.of_nat (seq 1 8) ++ [0xEE; 0xEE])
  /\ length (map Z.of_nat (seq 1 8) ++ [0xEE; 0xEE]) = length (replicate 10 0xEE)
  /\ drop 8 (map Z.of_nat (seq 1 8) ++ [0xEE; 0xEE]) = drop 8 (replicate 10 0xEE)
  /\ (RNG90_Status_Success <> RNG90_Status_Success ->
      map Z.of_nat (seq 1 8) ++ [0xEE; 0xEE] = replicate 10 0xEE).
Proof.
  assert (H1 : returned (rng90_serial 256 (replicate 10 0xEE) serial_device)
               = Some (RNG90_Status_Success, map Z.of_nat (seq 1 8) ++ [0xEE; 0xEE]))
    by (vm_compute; reflexivity).
  split; [assumption|].
  exact (X8_rng90_serial_touches_8_bytes 256 (replicate 10 0xEE) serial_device
           RNG90_Status_Success (map Z.of_nat (seq 1 8) ++ [0xEE; 0xEE]) H1).
Defined.

Lemma X9_witness :
  returned (rng90_random 256 (replicate 34 0xEE) random_device)
  = Some (RNG90_Status_Success, map Z.of_nat (seq 1 32) ++ [0xEE; 0xEE])
  /\ length (map Z.of_nat (seq 1 32) ++ [0xEE; 0xEE]) = length (replicate 34 0xEE)
  /\ drop 32 (map Z.of_nat (seq 1 32) ++ [0xEE; 0xEE]) = drop 32 (replicate 34 0xEE).
Proof.
  assert (H1 : returned (rng90_random 256 (replicate 34 0xEE) random_device)
               = Some (RNG90_Status_Success, map Z.of_nat (seq 1 32) ++ [0xEE; 0xEE]))
    by (vm_compute; reflexivity).
  split; [assumption|].
  exact (X9_rng90_random_touches_32_bytes 256 (replicate 34 0xEE) random_device
           RNG90_Status_Success (map Z.of_nat (seq 1 32) ++ [0xEE; 0xEE]) H1).
Defined.

Lemma X10_witness :
  returned (rng90_info 256 (Build_RNG90_Info 1 2 3 4) flipped_info_device)
  = Some (RNG90_Status_Other_Error, Build_RNG90_Info 1 2 3 4)
  /\ RNG90_Status_Other_Error <> RNG90_Status_Success
  /\ Build_RNG90_Info 1 2 3 4 = Build_RNG90_Info 1 2 3 4.
Proof.
  assert (H1 : returned (rng90_info 256 (Build_RNG90_Info 1 2 3 4) flipped_info_device)
               = Some (RNG90_Status_Other_Error, Build_RNG90_Info 1 2 3 4))
    by (vm_compute; reflexivity).
  assert (H2 : RNG90_Status_Other_Error <> RNG90_Status_Success)
    by (vm_compute; discriminate).
  repeat (split; [assumption|]).
  exact (X10_rng90_info_writes_on_success_only 256 (Build_RNG90_Info 1 2 3 4)
           flipped_info_device RNG90_Status_Other_Error (Build_RNG90_Info 1 2 3 4) H1 H2).
Defined.

Lemma X11_witness :
  presents pass_then_random_device
    ((4 :: [0] ++ [3; 152]) ++ 35 :: map Z.of_nat (seq 1 32) ++ [42; 186])
  /\ (1 <= length (rng90_buffer pass_then_random_device))%nat
  /\ frame_fits pass_then_random_device 35 (map Z.of_nat (seq 1 32))
  /\ (1 < 256)%nat
  /\ (length (map Z.of_nat (seq 1 32)) < 256)%nat
  /\ (forall k, (k < 20)%nat ->
        dev_ack pass_then_random_device (n_set pass_then_random_device + 14 + k) = TWI_None)
  /\ (32 <= length (replicate 32 0))%nat
  /\ returned (and_then (rng90_init 256) (rng90_random 256 (replicate 32 0))
                 pass_then_random_device)
     = Some (RNG90_Status_Success, (RNG90_Status_Success, map Z.of_nat (seq 1 32))).
Proof.
  assert (H1 : presents pass_then_random_device
                 ((4 :: [0] ++ [3; 152]) ++ 35 :: map Z.of_nat (seq 1 32) ++ [42; 186]))
    by (vm_compute; reflexivity).
  assert (H2 : (1 <= length (rng90_buffer pass_then_random_device))%nat)
    by (vm_compute; lia).
  assert (H3 : frame_fits pass_then_random_device 35 (map Z.of_nat (seq 1 32)))
    by (repeat split; vm_compute; congruence || lia).
  assert (H4 : (1 < 256)%nat) by lia.
  assert (H5 : (length (map Z.of_nat (seq 1 32)) < 256)%nat) by (simpl; lia).
  assert (H6 : forall k, (k < 20)%nat ->
             dev_ack pass_then_random_device (n_set pass_then_random_device + 14 + k)
             = TWI_None)
    by reflexivity.
  assert (H7 : (32 <= length (replicate 32 0))%nat) by (simpl; lia).
  repeat (split; [assumption|]).
  exact (X11_init_then_random 256 (replicate 32 0) pass_then_random_device 0 3 152
           35 (map Z.of_nat (seq 1 32)) 42 186 H1 H2 H3 H4 H5 H6 H7).
Defined.

Lemma X12_witness :
  0 <= param2 (Build_RNG90_Packet 0 0x16 0 0x1234 0) < 65536
  /\ exists p' w' p2lo p2hi clo chi,
       rng90_command (Build_RNG90_Packet 0 0x16 0 0x1234 0) info_device = Done p' w'
       /\ wire w' = wire info_device
                      ++ [RNG90_EXECUTE_COMMAND; uchar (0 + 7); uchar 0x16; uchar 0;
                          p2lo; p2hi; clo; chi]
       /\ p2lo + 256 * p2hi = 0x1234
       /\ clo + 256 * chi = checksum [uchar (0 + 7); uchar 0x16; uchar 0; p2lo; p2hi]
       /\ crc p' = clo + 256 * chi
       /\ count p' = uchar (0 + 7)
       /\ Forall (fun b => 0 <= b < 256) [p2lo; p2hi; clo; chi].
Proof.
  assert (H1 : 0 <= param2 (Build_RNG90_Packet 0 0x16 0 0x1234 0) < 65536)
    by (simpl; lia).
  split; [assumption|].
  exact (X12_rng90_command_frame_layout (Build_RNG90_Packet 0 0x16 0 0x1234 0)
           info_device H1).
Defined.

Lemma X13_witness :
  presents drbg_fail_device (4 :: [1] ++ [6; 24])
  /\ frame_fits drbg_fail_device 4 [1]
  /\ (length [1] < 256)%nat
  /\ exists r w',
       rng90_selftest 256 RNG90_Run_SHA256_SelfTest drbg_fail_device = Done r w'
       /\ r = (if decide (4 = 4 /\ frame_valid 4 [1] 6 24)
               then [1] !!! 0%nat else RNG90_SelfTest_Error)
       /\ wire w' = wire drbg_fail_device
                      ++ RNG90_EXECUTE_COMMAND
                      :: command_frame
                           [7; 0x77; RNG90_Run_SelfTest_value RNG90_Run_SHA256_SelfTest; 0; 0]
       /\ (4 <> 4 -> r = RNG90_SelfTest_Error).
Proof.
  assert (H1 : presents drbg_fail_device (4 :: [1] ++ [6; 24]))
    by (vm_compute; reflexivity).
  assert (H2 : frame_fits drbg_fail_device 4 [1])
    by (repeat split; vm_compute; congruence || lia).
  assert (H3 : (length [1] < 256)%nat) by (simpl; lia).
  repeat (split; [assumption|]).
  exact (X13_rng90_selftest_variants 256 RNG90_Run_SHA256_SelfTest drbg_fail_device
           4 [1] 6 24 H1 H2 H3).
Defined.

Lemma X14_witness :
  length (rng90_buffer info_device) = 87%nat
  /\ length (rng90_buffer busy_info_device) = 87%nat
  /\ (88 < 256)%nat
  /\ (8 <= length (replicate 8 0))%nat
  /\ (forall n, incoming info_device n = incoming busy_info_device n)
  /\ returned (rng90_selftest 256 RNG90_Run_DRBG_SelfTest info_device)
     = returned (rng90_selftest 256 RNG90_Run_DRBG_SelfTest busy_info_device)
  /\ returned (rng90_init 256 info_device) = returned (rng90_init 256 busy_info_device)
  /\ returned (rng90_info 256 info0 info_device)
     = returned (rng90_info 256 info0 busy_info_device)
  /\ returned (rng90_serial 256 (replicate 8 0) info_device)
     = returned (rng90_serial 256 (replicate 8 0) busy_info_device).
Proof.
  assert (H1 : length (rng90_buffer info_device) = 87%nat) by reflexivity.
  assert (H2 : length (rng90_buffer busy_info_device) = 87%nat) by reflexivity.
  assert (H3 : (88 < 256)%nat) by lia.
  assert (H4 : (8 <= length (replicate 8 0))%nat) by (simpl; lia).
  assert (H5 : forall n, incoming info_device n = incoming busy_info_device n)
    by reflexivity.
  repeat (split; [assumption|]).
  exact (X14_command_operations_stateless 256 RNG90_Run_DRBG_SelfTest info0
           (replicate 8 0) info_device busy_info_device H1 H2 H3 H4 H5).
Defined.
